(** * Vaulta voice agent: credential extraction, redaction, sessions, turn pipeline

    A shallow embedding of the dialogue core of the Vaulta backend
    (apps/api/app): the regular-expression fragment used by
    [core/security.py] and [core/voice_utils.py], the session store of
    [services/session_manager.py], the authentication attempt and the
    turn wrapper of [api/vapi_routes.py], and the graph nodes of
    [agents/].

    Text is modelled as [string] over 7-bit ASCII: characters above 127
    belong to no class (not a digit, not a word character, not a space). *)

From Stdlib Require Import Ascii String ZArith QArith Qround Lia Bool DecimalString.
From stdpp Require Import gmap strings list fin_maps.

Local Open Scope string_scope.

(* ===================================================================== *)
(** ** The fragment of Python's [re] the program uses *)
(* ===================================================================== *)

Module Re.

(** Character classes. *)
Definition in_range (lo hi : nat) (c : ascii) : bool :=
  (lo <=? nat_of_ascii c)%nat && (nat_of_ascii c <=? hi)%nat.

Definition is_digit (c : ascii) : bool := in_range 48 57 c.
Definition is_upper (c : ascii) : bool := in_range 65 90 c.
Definition is_lower (c : ascii) : bool := in_range 97 122 c.
Definition is_underscore (c : ascii) : bool := (nat_of_ascii c =? 95)%nat.

(** [\w] *)
Definition is_word (c : ascii) : bool :=
  is_digit c || is_upper c || is_lower c || is_underscore c.

(** [\s]: what [str.isspace] accepts below 128. *)
Definition is_space (c : ascii) : bool :=
  in_range 9 13 c || in_range 28 32 c.

(** [\D] *)
Definition non_digit (c : ascii) : bool := negb (is_digit c).

(** [.] without DOTALL *)
Definition any_char (c : ascii) : bool := negb (nat_of_ascii c =? 10)%nat.

(** A bracket class listing characters, e.g. [[.,?!]]. *)
Fixpoint one_of (cs : string) (c : ascii) : bool :=
  match cs with
  | EmptyString => false
  | String d t => Ascii.eqb c d || one_of t c
  end.

(** [str.lower] on one character and on a string. *)
Definition lower_char (c : ascii) : ascii :=
  if is_upper c then ascii_of_nat (nat_of_ascii c + 32) else c.

Fixpoint lower (s : string) : string :=
  match s with
  | EmptyString => EmptyString
  | String c t => String (lower_char c) (lower t)
  end.

(** Slices [s[:n]] and [s[n:]]. *)
Fixpoint slice_to (n : nat) (s : string) : string :=
  match n, s with
  | S n', String c t => String c (slice_to n' t)
  | _, _ => EmptyString
  end.

Fixpoint slice_from (n : nat) (s : string) : string :=
  match n, s with
  | S n', String _ t => slice_from n' t
  | _, _ => s
  end.

(** Pattern syntax.  Repetition is over a character class, which is all
    the program's patterns need; a counted group (four times a digit followed
    by non-digits) is written out as a sequence. *)
Inductive regex : Type :=
| Eps
| Lit (c : ascii)
| Cls (p : ascii -> bool)
| Seq (r1 r2 : regex)
| Alt (r1 r2 : regex)
| Rep (p : ascii -> bool) (lo : nat) (hi : option nat) (greedy : bool)
| Group (n : nat) (r : regex)
| WordB
| Eos.

(** A literal word. *)
Fixpoint Str (s : string) : regex :=
  match s with
  | EmptyString => Eps
  | String c t => Seq (Lit c) (Str t)
  end.

(** [r?] (greedy) *)
Definition Opt (r : regex) : regex := Alt r Eps.

Fixpoint Seqs (rs : list regex) : regex :=
  match rs with
  | [] => Eps
  | [r] => r
  | r :: t => Seq r (Seqs t)
  end.

Fixpoint Alts (rs : list regex) : regex :=
  match rs with
  | [] => Eps
  | [r] => r
  | r :: t => Alt r (Alts t)
  end.

Definition Star (p : ascii -> bool) : regex := Rep p 0 None true.
Definition Plus (p : ascii -> bool) : regex := Rep p 1 None true.
Definition LazyStar (p : ascii -> bool) : regex := Rep p 0 None false.
Definition LazyPlus (p : ascii -> bool) : regex := Rep p 1 None false.

(** Matcher state: the character before the cursor, the text from the
    cursor on, the offset from the start of the attempt, and the groups
    closed so far (latest first). *)
Record mstate : Type := MState {
  m_prev : option ascii;
  m_rest : string;
  m_pos : nat;
  m_caps : list (nat * string)
}.

Definition word_opt (o : option ascii) : bool :=
  match o with Some c => is_word c | None => false end.

Definition head_opt (s : string) : option ascii :=
  match s with String c _ => Some c | EmptyString => None end.

(** [\b]: exactly one side of the cursor is a word character. *)
Definition at_boundary (prev : option ascii) (rest : string) : bool :=
  xorb (word_opt prev) (word_opt (head_opt rest)).

(** [$] without MULTILINE: at the end, or before a final newline. *)
Definition at_end (rest : string) : bool :=
  match rest with
  | EmptyString => true
  | String c EmptyString => (nat_of_ascii c =? 10)%nat
  | _ => false
  end.

Definition chr_eq (ic : bool) (c d : ascii) : bool :=
  if ic then Ascii.eqb (lower_char c) (lower_char d) else Ascii.eqb c d.

Definition more_allowed (hi : option nat) : bool :=
  match hi with Some 0%nat => false | _ => true end.

Definition dec_hi (hi : option nat) : option nat :=
  match hi with Some n => Some (Nat.pred n) | None => None end.

(** Repetition of a class with backtracking: the greedy form takes a
    character first and falls back to the continuation, the lazy form tries
    the continuation first. *)
Fixpoint rep_match (p : ascii -> bool) (greedy : bool) (lo : nat) (hi : option nat)
    (k : mstate -> option mstate) (prev : option ascii) (s : string) (pos : nat)
    (caps : list (nat * string)) {struct s} : option mstate :=
  let stop := fun _ : unit =>
    match lo with 0%nat => k (MState prev s pos caps) | S _ => None end in
  match s with
  | EmptyString => stop tt
  | String c t =>
      if p c && more_allowed hi then
        let go := fun _ : unit =>
          rep_match p greedy (Nat.pred lo) (dec_hi hi) k (Some c) t (S pos) caps in
        if greedy then
          match go tt with Some st => Some st | None => stop tt end
        else
          match stop tt with Some st => Some st | None => go tt end
      else stop tt
  end.

Definition step_char (ok : ascii -> bool) (k : mstate -> option mstate)
    (st : mstate) : option mstate :=
  match m_rest st with
  | String c t =>
      if ok c then k (MState (Some c) t (S (m_pos st)) (m_caps st)) else None
  | EmptyString => None
  end.

(** The backtracking matcher, in continuation-passing style; [ic] is
    [re.IGNORECASE]. *)
Fixpoint run (ic : bool) (r : regex) (k : mstate -> option mstate)
    (st : mstate) : option mstate :=
  match r with
  | Eps => k st
  | Lit c => step_char (chr_eq ic c) k st
  | Cls p => step_char p k st
  | Seq r1 r2 => run ic r1 (run ic r2 k) st
  | Alt r1 r2 =>
      match run ic r1 k st with Some st' => Some st' | None => run ic r2 k st end
  | Rep p lo hi greedy =>
      rep_match p greedy lo hi k (m_prev st) (m_rest st) (m_pos st) (m_caps st)
  | Group n r1 =>
      run ic r1
        (fun st' =>
           k (MState (m_prev st') (m_rest st') (m_pos st')
                ((n, slice_to (m_pos st' - m_pos st) (m_rest st)) :: m_caps st')))
        st
  | WordB => if at_boundary (m_prev st) (m_rest st) then k st else None
  | Eos => if at_end (m_rest st) then k st else None
  end.

(** A match object: the matched text and the groups. *)
Record mobj : Type := MObj {
  m_len : nat;
  m_text : string;
  m_groups : list (nat * string)
}.

Fixpoint assoc (n : nat) (l : list (nat * string)) : option string :=
  match l with
  | [] => None
  | (i, s) :: t => if (i =? n)%nat then Some s else assoc n t
  end.

(** [m.group(n)] for a group that took part in the match. *)
Definition group (n : nat) (m : mobj) : string :=
  match n with
  | 0%nat => m_text m
  | _ => default "" (assoc n (m_groups m))
  end.

(** One attempt at the cursor. *)
Definition match_at (ic : bool) (r : regex) (prev : option ascii) (s : string)
    : option mobj :=
  match run ic r Some (MState prev s 0 []) with
  | Some st => Some (MObj (m_pos st) (slice_to (m_pos st) s) (m_caps st))
  | None => None
  end.

(** [re.match(r, s)] *)
Definition match_ (ic : bool) (r : regex) (s : string) : option mobj :=
  match_at ic r None s.

(** [re.search]: the leftmost position where an attempt succeeds; returns
    the start offset too. *)
Fixpoint search_from (ic : bool) (r : regex) (prev : option ascii) (s : string)
    (i : nat) : option (nat * mobj) :=
  match match_at ic r prev s with
  | Some m => Some (i, m)
  | None =>
      match s with
      | EmptyString => None
      | String c t => search_from ic r (Some c) t (S i)
      end
  end.

Definition search (ic : bool) (r : regex) (s : string) : option (nat * mobj) :=
  search_from ic r None s 0.

(** [m.end()] *)
Definition m_end (hit : nat * mobj) : nat := (fst hit + m_len (snd hit))%nat.

(** [re.sub] with a replacement computed from the match.  [skip] counts the
    characters of the current match still to be passed over.  The patterns
    of this program never match the empty string; an empty match is
    replaced and the scan moves on by one character. *)
Fixpoint sub_scan (ic : bool) (r : regex) (repl : mobj -> string)
    (prev : option ascii) (s : string) (skip : nat) : string :=
  match skip with
  | S n =>
      match s with
      | EmptyString => EmptyString
      | String c t => sub_scan ic r repl (Some c) t n
      end
  | 0%nat =>
      match match_at ic r prev s with
      | Some m =>
          repl m ++
          match s with
          | EmptyString => EmptyString
          | String c t =>
              match m_len m with
              | 0%nat => String c (sub_scan ic r repl (Some c) t 0)
              | S n => sub_scan ic r repl (Some c) t n
              end
          end
      | None =>
          match s with
          | EmptyString => EmptyString
          | String c t => String c (sub_scan ic r repl (Some c) t 0)
          end
      end
  end.

Definition sub (ic : bool) (r : regex) (repl : mobj -> string) (s : string) : string :=
  sub_scan ic r repl None s 0.

(** [re.findall] for a pattern without groups: the matched texts. *)
Fixpoint findall_scan (ic : bool) (r : regex) (prev : option ascii) (s : string)
    (skip : nat) : list string :=
  match skip with
  | S n =>
      match s with
      | EmptyString => []
      | String c t => findall_scan ic r (Some c) t n
      end
  | 0%nat =>
      match match_at ic r prev s with
      | Some m =>
          m_text m ::
          match s with
          | EmptyString => []
          | String c t => findall_scan ic r (Some c) t (Nat.pred (m_len m))
          end
      | None =>
          match s with
          | EmptyString => []
          | String c t => findall_scan ic r (Some c) t 0
          end
      end
  end.

Definition findall (ic : bool) (r : regex) (s : string) : list string :=
  findall_scan ic r None s 0.

(** Python's [needle in hay] on strings. *)
Fixpoint starts_with (needle hay : string) : bool :=
  match needle, hay with
  | EmptyString, _ => true
  | String a n', String b h' => Ascii.eqb a b && starts_with n' h'
  | String _ _, EmptyString => false
  end.

Fixpoint contains (needle hay : string) : bool :=
  starts_with needle hay ||
  match hay with
  | EmptyString => false
  | String _ t => contains needle t
  end.

(** [any(kw in text for kw in kws)] *)
Definition any_in (kws : list string) (text : string) : bool :=
  existsb (fun kw => contains kw text) kws.

End Re.

(* ===================================================================== *)
(** ** core/voice_utils.py *)
(* ===================================================================== *)

Module VoiceUtils.
Import Re.

(** The table of spoken words, in the order the dict literal lists them. *)
Definition WORD_TO_DIGIT : list (string * string) :=
  [ ("zero", "0"); ("oh", "0"); ("o", "0");
    ("one", "1"); ("won", "1");
    ("two", "2"); ("to", "2"); ("too", "2");
    ("three", "3"); ("tree", "3");
    ("four", "4"); ("for", "4"); ("fore", "4");
    ("five", "5");
    ("six", "6"); ("sex", "6");
    ("seven", "7");
    ("eight", "8"); ("ate", "8");
    ("nine", "9"); ("niner", "9");
    ("thousand", "000");
    ("hundred", "00") ].

(** The pattern built for one word: the escaped word between two [\b]. *)
Definition word_pattern (word : string) : regex :=
  Seqs [WordB; Str word; WordB].

Definition normalize_spoken_digits (text : string) : string :=
  if String.eqb text "" then text
  else
    fold_left
      (fun normalized wd => sub false (word_pattern (fst wd)) (fun _ => snd wd) normalized)
      WORD_TO_DIGIT (lower text).


End VoiceUtils.

(* ===================================================================== *)
(** ** core/security.py *)
(* ===================================================================== *)

Module Security.
Import Re.

(** Python truthiness of an [Optional[str]]: [None] and the empty string
    are false. *)
Definition truthy (o : option string) : bool :=
  match o with
  | Some s => negb (String.eqb s "")
  | None => false
  end.

Fixpoint repeat_char (c : ascii) (n : nat) : string :=
  match n with
  | 0%nat => EmptyString
  | S n' => String c (repeat_char c n')
  end.

(** [\b\d{4}\b] *)
Definition four_digits : regex :=
  Seqs [WordB; Rep is_digit 4 (Some 4) true; WordB].

Definition redact_pin (text : string) : string :=
  sub false four_digits (fun _ => "****") text.

(** [(customer id|customer_id|cust id)], group 1 *)
Definition customer_label : regex :=
  Group 1 (Alts [Str "customer id"; Str "customer_id"; Str "cust id"]).

(** Optional blanks, an optional one of [:#-], optional blanks. *)
Definition separator : regex :=
  Seqs [Star is_space; Rep (one_of ":#-") 0 (Some 1) true; Star is_space].

(** [\b(customer id|customer_id|cust id)], the separator, [(\d{4,10})\b] *)
Definition customer_id_pattern : regex :=
  Seqs [WordB; customer_label; separator;
        Group 2 (Rep is_digit 4 (Some 10) true); WordB].

Definition redact_customer_ids (text : string) : string :=
  sub true customer_id_pattern (fun m => group 1 m ++ " ****") text.

(** [\b\d{8,16}\b] *)
Definition long_number : regex :=
  Seqs [WordB; Rep is_digit 8 (Some 16) true; WordB].

Definition mask_long_numbers (text : string) : string :=
  sub false long_number
    (fun m =>
       let num := group 0 m in
       if (String.length num <=? 4)%nat then "****"
       else repeat_char "*" (String.length num - 4) ++ slice_from (String.length num - 4) num)
    text.

(** [\bpin\b|\bping\b] *)
Definition pin_label : regex :=
  Alt (Seqs [WordB; Str "pin"; WordB]) (Seqs [WordB; Str "ping"; WordB]).

(** Four times: a digit followed by any run of non-digits. *)
Definition four_spaced_digits : regex :=
  let one := Seq (Cls is_digit) (Star non_digit) in
  Seqs [one; one; one; one].

(** [\bPIN\b], the separator, four spaced digits *)
Definition labeled_pin_pattern : regex :=
  Seqs [WordB; Str "PIN"; WordB; separator; four_spaced_digits].

(** [\b(customer id|customer_id|cust id)\b], the separator, four spaced
    digits *)
Definition labeled_customer_pattern : regex :=
  Seqs [WordB; customer_label; WordB; separator; four_spaced_digits].

Definition redact_sensitive_text (text : string) : string :=
  if String.eqb text "" then text
  else
    let text := sub true pin_label (fun _ => "PIN") text in
    let text := sub true labeled_pin_pattern (fun _ => "PIN ****") text in
    let text := sub true labeled_customer_pattern (fun m => group 1 m ++ " ****") text in
    let text := redact_pin text in
    let text := redact_customer_ids text in
    let text := mask_long_numbers text in
    text.

(** The tail pattern of [_digits_after_label]: optional blanks, an optional
    "is", a lazy run of digits and blanks (group 1), optional punctuation
    [.,?!], then either blanks and one of the stop words
    and|pin|customer|id|cust|my|the|a at a word boundary, or the end. *)
Definition digits_tail : regex :=
  Seqs [Star is_space;
        Opt (Seq (Str "is") (Plus is_space));
        Group 1 (LazyPlus (fun c => is_digit c || is_space c));
        Star (one_of ".,?!");
        Alt (Seqs [Plus is_space;
                   Alts [Str "and"; Str "pin"; Str "customer"; Str "id";
                         Str "cust"; Str "my"; Str "the"; Str "a"];
                   WordB])
            Eos].

Definition _digits_after_label (text : string) (label_pattern : regex) : option string :=
  match search true label_pattern text with
  | None => None
  | Some hit =>
      let after := slice_from (m_end hit) text in
      match match_ true digits_tail after with
      | Some digit_match =>
          let digits := findall false (Cls is_digit) (group 1 digit_match) in
          match digits with
          | [] => None
          | _ => Some (String.concat "" (firstn 10 digits))
          end
      | None => None
      end
  end.

(** [\b(customer id|customer_id|cust id|id)\b] *)
Definition id_label : regex :=
  Seqs [WordB;
        Group 1 (Alts [Str "customer id"; Str "customer_id"; Str "cust id"; Str "id"]);
        WordB].

(** [\bid\s+(?:is\s+)?(\d+).*?\bpin\s+(?:is\s+)?(\d+)] *)
Definition id_pin_pattern : regex :=
  Seqs [WordB; Str "id"; Plus is_space; Opt (Seq (Str "is") (Plus is_space));
        Group 1 (Plus is_digit);
        LazyStar any_char;
        WordB; Str "pin"; Plus is_space; Opt (Seq (Str "is") (Plus is_space));
        Group 2 (Plus is_digit)].

(** [sequences.remove(pin)]: drops the first occurrence. *)
Fixpoint remove_first (x : string) (l : list string) : list string :=
  match l with
  | [] => []
  | y :: t => if String.eqb y x then t else y :: remove_first x t
  end.

(** [if pin and len(pin) > 4: pin = pin[:4]] *)
Definition truncate4 (pin : option string) : option string :=
  match pin with
  | Some p => if truthy pin && (4 <? String.length p)%nat then Some (slice_to 4 p) else pin
  | None => None
  end.

Definition extract_credentials (text : string) : option string * option string :=
  if String.eqb text "" then (None, None)
  else
    let text := VoiceUtils.normalize_spoken_digits text in
    let customer_id := _digits_after_label text id_label in
    let pin := _digits_after_label text pin_label in
    let pin := truncate4 pin in
    (* "id X pin Y" when a label gave nothing *)
    let '(customer_id, pin) :=
      if negb (truthy customer_id) || negb (truthy pin) then
        match search true id_pin_pattern text with
        | Some (_, pattern) =>
            (if negb (truthy customer_id) then Some (group 1 pattern) else customer_id,
             if negb (truthy pin) then truncate4 (Some (group 2 pattern)) else pin)
        | None => (customer_id, pin)
        end
      else (customer_id, pin) in
    (* standalone four-digit groups when something is still missing *)
    if negb (truthy customer_id) || negb (truthy pin) then
      let sequences := findall false four_digits text in
      let sequences :=
        match pin with
        | Some p =>
            if truthy pin && existsb (String.eqb p) sequences
            then remove_first p sequences else sequences
        | None => sequences
        end in
      match sequences with
      | [] => (customer_id, pin)
      | first :: others =>
          if negb (truthy customer_id) then
            (Some first,
             match others with
             | second :: _ => if negb (truthy pin) then Some second else pin
             | [] => pin
             end)
          else if negb (truthy pin) then (customer_id, Some first)
          else (customer_id, pin)
      end
    else (customer_id, pin).

Definition remove_credentials (text : string) : string :=
  if String.eqb text "" then text
  else
    let text := sub true (Seqs [WordB; customer_label; WordB]) (fun _ => "") text in
    let text := sub false four_digits (fun _ => "") text in
    let text := sub true pin_label (fun _ => "") text in
    text.

(** [mask_account_number]: the last four characters after asterisks. *)
Definition mask_account_number (account_num : string) : string :=
  if (String.length account_num <=? 4)%nat then "****"
  else repeat_char "*" (String.length account_num - 4)
       ++ slice_from (String.length account_num - 4) account_num.

End Security.

(* ===================================================================== *)
(** ** agents/state.py and the dictionaries passed between the stages *)
(* ===================================================================== *)

Module State.

(** The [type] of a LangChain message. *)
Inductive msg_type : Type := human | ai | system.

Record BaseMessage : Type := Message {
  type : msg_type;
  content : string
}.

Definition HumanMessage (c : string) : BaseMessage := Message human c.
Definition AIMessage (c : string) : BaseMessage := Message ai c.

Definition is_human (m : BaseMessage) : bool :=
  match type m with human => true | _ => false end.

Definition is_ai (m : BaseMessage) : bool :=
  match type m with ai => true | _ => false end.

(** The dict staged by the card flow:
    [{"type": .., "card_id": .., "reason": .., "description": ..}]. *)
Record PendingAction : Type := {
  pa_type : string;
  card_id : string;
  reason : string;
  description : string
}.

(** The [auth] dict produced once per turn by [_process_auth_attempt]. *)
Record AuthOutcome : Type := {
  attempted : bool;
  success : option bool;
  remaining_attempts : option Z;
  auth_locked : bool;
  needs_customer_id : bool;
  needs_pin : bool
}.

(** What [metadata.get("auth", {})] yields when the key is absent: every
    [.get] on it is [None]. *)
Definition no_auth : AuthOutcome :=
  {| attempted := false; success := None; remaining_attempts := None;
     auth_locked := false; needs_customer_id := false; needs_pin := false |}.

(** The turn-local [metadata] dict.  The code only tests the flags for
    truth, so a missing key, [None] and [False] are one value here. *)
Record Metadata : Type := {
  auth : AuthOutcome;
  small_talk : option string;
  awaiting_confirmation : bool;
  asked_for_confirmation : bool;
  lock_flow : bool;
  force_reroute : bool;
  timestamp : Z
}.

Definition empty_metadata : Metadata :=
  {| auth := no_auth; small_talk := None; awaiting_confirmation := false;
     asked_for_confirmation := false; lock_flow := false; force_reroute := false;
     timestamp := 0 |}.

Record AgentState : Type := {
  messages : list BaseMessage;
  customer_id : option string;
  verified : bool;
  current_flow : option string;
  original_intent : option string;
  pending_action : option PendingAction;
  session_id : string;
  requires_human : bool;
  metadata : Metadata
}.

Definition create_initial_state (sid : string) : AgentState :=
  {| messages := []; customer_id := None; verified := false;
     current_flow := None; original_intent := None; pending_action := None;
     session_id := sid; requires_human := false; metadata := empty_metadata |}.

(** Field updates, as the dict spreads [{**state, "key": value}] do. *)
Definition set_messages (ms : list BaseMessage) (s : AgentState) : AgentState :=
  {| messages := ms; customer_id := customer_id s; verified := verified s;
     current_flow := current_flow s; original_intent := original_intent s;
     pending_action := pending_action s; session_id := session_id s;
     requires_human := requires_human s; metadata := metadata s |}.

Definition set_current_flow (f : option string) (s : AgentState) : AgentState :=
  {| messages := messages s; customer_id := customer_id s; verified := verified s;
     current_flow := f; original_intent := original_intent s;
     pending_action := pending_action s; session_id := session_id s;
     requires_human := requires_human s; metadata := metadata s |}.

Definition set_pending_action (p : option PendingAction) (s : AgentState) : AgentState :=
  {| messages := messages s; customer_id := customer_id s; verified := verified s;
     current_flow := current_flow s; original_intent := original_intent s;
     pending_action := p; session_id := session_id s;
     requires_human := requires_human s; metadata := metadata s |}.

Definition set_requires_human (b : bool) (s : AgentState) : AgentState :=
  {| messages := messages s; customer_id := customer_id s; verified := verified s;
     current_flow := current_flow s; original_intent := original_intent s;
     pending_action := pending_action s; session_id := session_id s;
     requires_human := b; metadata := metadata s |}.

Definition set_metadata (m : Metadata) (s : AgentState) : AgentState :=
  {| messages := messages s; customer_id := customer_id s; verified := verified s;
     current_flow := current_flow s; original_intent := original_intent s;
     pending_action := pending_action s; session_id := session_id s;
     requires_human := requires_human s; metadata := m |}.

Definition set_small_talk (v : option string) (m : Metadata) : Metadata :=
  {| auth := auth m; small_talk := v;
     awaiting_confirmation := awaiting_confirmation m;
     asked_for_confirmation := asked_for_confirmation m;
     lock_flow := lock_flow m; force_reroute := force_reroute m;
     timestamp := timestamp m |}.

Definition set_confirmation_flags (awaiting asked : bool) (m : Metadata) : Metadata :=
  {| auth := auth m; small_talk := small_talk m;
     awaiting_confirmation := awaiting;
     asked_for_confirmation := asked;
     lock_flow := lock_flow m; force_reroute := force_reroute m;
     timestamp := timestamp m |}.

(** [o == s] for an optional string, and the truth value of an optional
    dict. *)
Definition opt_eqb (o : option string) (s : string) : bool :=
  match o with Some x => String.eqb x s | None => false end.

Definition is_Some_b {A} (o : option A) : bool :=
  match o with Some _ => true | None => false end.

(** [user_messages[-1].content] over the human messages, if any. *)
Definition latest_human (ms : list BaseMessage) : option string :=
  content <$> last (filter (fun m => is_human m = true) ms).

Definition latest_ai (ms : list BaseMessage) : option string :=
  content <$> last (filter (fun m => is_ai m = true) ms).

End State.

(* ===================================================================== *)
(** ** services/session_manager.py *)
(* ===================================================================== *)

Module SessionManager.
Import State.

(** Timestamps are the floats of [time.time()], taken here as exact
    rationals; [now] stands for the clock reading of a call. *)
Record SessionState : Type := {
  s_session_id : string;
  s_customer_id : option string;
  s_verified : bool;
  created_at : Q;
  last_activity : Q;
  auth_attempts : Z;
  conversation_history : list BaseMessage;
  last_intent_message : option string;
  pending_customer_id : option string;
  s_current_flow : option string;
  s_original_intent : option string;
  s_pending_action : option PendingAction;
  s_awaiting_confirmation : bool;
  s_requires_human : bool;
  locked : bool
}.

(** [SessionState(session_id=sid)] *)
Definition new_session (now : Q) (sid : string) : SessionState :=
  {| s_session_id := sid; s_customer_id := None; s_verified := false;
     created_at := now; last_activity := now; auth_attempts := 0;
     conversation_history := []; last_intent_message := None;
     pending_customer_id := None; s_current_flow := None;
     s_original_intent := None; s_pending_action := None;
     s_awaiting_confirmation := false; s_requires_human := false;
     locked := false |}.

Definition set_last_activity (now : Q) (s : SessionState) : SessionState :=
  {| s_session_id := s_session_id s; s_customer_id := s_customer_id s;
     s_verified := s_verified s; created_at := created_at s;
     last_activity := now; auth_attempts := auth_attempts s;
     conversation_history := conversation_history s;
     last_intent_message := last_intent_message s;
     pending_customer_id := pending_customer_id s;
     s_current_flow := s_current_flow s;
     s_original_intent := s_original_intent s;
     s_pending_action := s_pending_action s;
     s_awaiting_confirmation := s_awaiting_confirmation s;
     s_requires_human := s_requires_human s; locked := locked s |}.

Definition set_last_intent_message (v : option string) (s : SessionState) : SessionState :=
  {| s_session_id := s_session_id s; s_customer_id := s_customer_id s;
     s_verified := s_verified s; created_at := created_at s;
     last_activity := last_activity s; auth_attempts := auth_attempts s;
     conversation_history := conversation_history s;
     last_intent_message := v;
     pending_customer_id := pending_customer_id s;
     s_current_flow := s_current_flow s;
     s_original_intent := s_original_intent s;
     s_pending_action := s_pending_action s;
     s_awaiting_confirmation := s_awaiting_confirmation s;
     s_requires_human := s_requires_human s; locked := locked s |}.

(** The manager: the [sessions] dict and the timeout in seconds. *)
Record Manager : Type := {
  sessions : gmap string SessionState;
  session_timeout : Z
}.


Definition with_sessions (m : Manager) (ss : gmap string SessionState) : Manager :=
  {| sessions := ss; session_timeout := session_timeout m |}.

(** Returns the session too; the caller's later writes to that object are
    writes to the dict entry. *)
Definition get_or_create_session (now : Q) (sid : string) (m : Manager)
    : Manager * SessionState :=
  match sessions m !! sid with
  | None =>
      let s := new_session now sid in
      (with_sessions m (<[sid := s]> (sessions m)), s)
  | Some s =>
      let s' := set_last_activity now s in
      (with_sessions m (<[sid := s']> (sessions m)), s')
  end.

Definition get_session (sid : string) (m : Manager) : option SessionState :=
  sessions m !! sid.

(** The keyword arguments of [update_session]; [None] is the [_UNSET]
    sentinel, under which the field is left alone. *)
Record Update : Type := {
  u_verified : option bool;
  u_customer_id : option (option string);
  increment_auth_attempts : bool;
  u_current_flow : option (option string);
  u_original_intent : option (option string);
  u_pending_action : option (option PendingAction);
  u_awaiting_confirmation : option bool;
  u_requires_human : option bool;
  u_locked : option bool;
  u_conversation_history : option (list BaseMessage);
  u_last_intent_message : option (option string)
}.

Definition unset : Update :=
  {| u_verified := None; u_customer_id := None; increment_auth_attempts := false;
     u_current_flow := None; u_original_intent := None; u_pending_action := None;
     u_awaiting_confirmation := None; u_requires_human := None; u_locked := None;
     u_conversation_history := None; u_last_intent_message := None |}.

Definition apply_update (now : Q) (u : Update) (s : SessionState) : SessionState :=
  {| s_session_id := s_session_id s;
     s_customer_id := default (s_customer_id s) (u_customer_id u);
     s_verified := default (s_verified s) (u_verified u);
     created_at := created_at s;
     last_activity := now;
     auth_attempts :=
       if increment_auth_attempts u then auth_attempts s + 1 else auth_attempts s;
     conversation_history := default (conversation_history s) (u_conversation_history u);
     last_intent_message := default (last_intent_message s) (u_last_intent_message u);
     pending_customer_id := pending_customer_id s;
     s_current_flow := default (s_current_flow s) (u_current_flow u);
     s_original_intent := default (s_original_intent s) (u_original_intent u);
     s_pending_action := default (s_pending_action s) (u_pending_action u);
     s_awaiting_confirmation :=
       default (s_awaiting_confirmation s) (u_awaiting_confirmation u);
     s_requires_human := default (s_requires_human s) (u_requires_human u);
     locked := default (locked s) (u_locked u) |}.

Definition update_session (now : Q) (sid : string) (u : Update) (m : Manager) : Manager :=
  match sessions m !! sid with
  | Some s => with_sessions m (<[sid := apply_update now u s]> (sessions m))
  | None => m
  end.

Definition list_sessions (m : Manager) : gmap string SessionState := sessions m.

(** [reset_session]: with an id, delete that entry; without, drop them
    all.  An empty id is falsy and takes the second path. *)
Definition reset_session (session_id : option string) (m : Manager) : Manager * nat :=
  if Security.truthy session_id then
    match session_id with
    | Some sid =>
        match sessions m !! sid with
        | Some _ => (with_sessions m (delete sid (sessions m)), 1%nat)
        | None => (m, 0%nat)
        end
    | None => (m, 0%nat)
    end
  else (with_sessions m ∅, size (sessions m)).

(** [current_time - session.last_activity > self.session_timeout] *)
Definition is_expired (timeout : Z) (current_time : Q) (s : SessionState) : bool :=
  negb (Qle_bool (current_time - last_activity s) (inject_Z timeout)).

Definition cleanup_expired_sessions (current_time : Q) (m : Manager) : Manager * nat :=
  let expired :=
    (filter (fun kv => is_expired (session_timeout m) current_time (snd kv) = true)
            (map_to_list (sessions m))).*1 in
  (with_sessions m (foldl (fun ss sid => delete sid ss) (sessions m) expired),
   length expired).

End SessionManager.

(* ===================================================================== *)
(** ** core/exceptions.py, and the calls to external collaborators *)
(* ===================================================================== *)

Module Exceptions.

Inductive exn : Type :=
| VerificationRequiredError (msg : string)
| ExternalError.   (* a collaborator (database, classifier) raised *)

End Exceptions.

(** A computation either raises or returns, and leaves the list of
    collaborator calls it made, in order. *)
Module Eff.
Import Exceptions.

Inductive event : Type :=
| VerifyIdentity (customer_id pin : string)
| ClassifyIntent (utterance : string)
| BlockCard (card_id reason : string)
| AccountFlow.

Definition M (A : Type) : Type := (exn + A) * list event.

Definition ret {A} (a : A) : M A := (inr a, []).

Definition raise {A} (e : exn) : M A := (inl e, []).

Definition bind {A B} (m : M A) (f : A -> M B) : M B :=
  match m with
  | (inl e, t) => (inl e, t)
  | (inr a, t) => let '(r, t') := f a in (r, (t ++ t')%list)
  end.

(** Calling a collaborator whose answer (or failure) is [res]. *)
Definition call {A} (ev : event) (res : exn + A) : M A := (res, [ev]).

Definition outcome {A} (m : M A) : exn + A := fst m.
Definition calls {A} (m : M A) : list event := snd m.

Definition is_verify_call (ev : event) : bool :=
  match ev with VerifyIdentity _ _ => true | _ => false end.

Definition is_block_call (ev : event) : bool :=
  match ev with BlockCard _ _ => true | _ => false end.

Definition is_classify_call (ev : event) : bool :=
  match ev with ClassifyIntent _ => true | _ => false end.

End Eff.

Notation "'do' x <- m ;; k" := (Eff.bind m (fun x => k))
  (at level 10, x name, m at level 99, k at level 200).

(** The collaborators of the dialogue core.  Their answers are inputs of
    the model. *)
Record Collaborators : Type := {
  (* services/banking_api.py *)
  verify_identity : string -> string -> Exceptions.exn + bool;
  block_card : string -> string -> Exceptions.exn + string;
  (* core/llm_factory.py: the content of the classifier's answer *)
  llm : string -> Exceptions.exn + string;
  (* agents/nodes/account_flow.py: every return of the handler is the state
     with one reply appended and possibly [requires_human] set *)
  account_flow_reply : State.AgentState -> Exceptions.exn + (string * bool);
  (* random.choice / random.randint in agents/nodes/card_flow.py *)
  declined_reason : string;
  atm_reference : string;
  (* core/security.py: the first 8 hex digits of the SHA-256 of the id *)
  hash_customer_id : string -> string
}.

(* ===================================================================== *)
(** ** agents/nodes/intent_router.py *)
(* ===================================================================== *)

Module IntentRouter.
Import Re State Eff.

(** [str.strip()] *)
Fixpoint lstrip (s : string) : string :=
  match s with
  | String c t => if is_space c then lstrip t else s
  | EmptyString => EmptyString
  end.

Fixpoint rstrip (s : string) : string :=
  match s with
  | EmptyString => EmptyString
  | String c t =>
      match rstrip t with
      | EmptyString => if is_space c then EmptyString else String c EmptyString
      | t' => String c t'
      end
  end.

Definition strip (s : string) : string := rstrip (lstrip s).

Definition intent_keywords : list string :=
  [ "card"; "atm"; "lost"; "stolen"; "declined"; "cash not dispensed";
    "balance"; "statement"; "transaction"; "profile"; "address"; "recent";
    "open account"; "new account"; "onboard";
    "login"; "otp"; "app"; "device"; "crash";
    "transfer"; "bill pay"; "beneficiary"; "wire"; "ach";
    "close account"; "closure"; "retain" ].

(** [\b(w1|w2|...)\b] *)
Definition words (ws : list regex) : regex :=
  Seqs [WordB; Group 1 (Alts ws); WordB].

Definition greeting_pattern : regex :=
  words [Str "hi"; Str "hello"; Str "hey"; Str "good morning";
         Str "good afternoon"; Str "good evening"].

Definition thanks_pattern : regex :=
  words [Str "thank you"; Str "thanks"; Str "thx"; Str "appreciate"].

Definition goodbye_pattern : regex :=
  words [Str "bye"; Str "goodbye"; Str "see you"; Str "later"].

Definition help_pattern : regex :=
  words [Str "what can you do"; Str "help"; Str "services"; Str "capabilities"].

(** [\b(who are you|what are you|who made you|what (ai )?model)\b] *)
Definition identity_pattern : regex :=
  words [Str "who are you"; Str "what are you"; Str "who made you";
         Seqs [Str "what "; Opt (Group 2 (Str "ai ")); Str "model"]].

Definition found (r : regex) (text : string) : bool :=
  match search false r text with Some _ => true | None => false end.

(** The small-talk bucket of an utterance, if the quick detection fires. *)
Definition small_talk_of (latest_input : string) : option string :=
  let has_intent_keywords := any_in intent_keywords latest_input in
  let has_digits := found (Cls is_digit) latest_input in
  if negb has_intent_keywords && negb has_digits then
    if found greeting_pattern latest_input then Some "greeting"
    else if found thanks_pattern latest_input then Some "thanks"
    else if found goodbye_pattern latest_input then Some "goodbye"
    else if found help_pattern latest_input then Some "help"
    else if found identity_pattern latest_input then Some "identity"
    else None
  else None.

Definition topic_change_keywords : list string :=
  [ "actually"; "instead"; "never mind"; "wait"; "hold on";
    "let me"; "i want to"; "can you help me with something else";
    "different"; "something else" ].

(** Fast keyword routing; [None] when no category matches. *)
Definition keyword_flow (latest_input : string) : option string :=
  if any_in ["card"; "atm"; "lost"; "stolen"; "declined"; "cash not dispensed"] latest_input
  then Some "card_issues"
  else if any_in ["balance"; "statement"; "transaction"; "profile"; "address"; "recent"] latest_input
  then Some "account_servicing"
  else if any_in ["open account"; "new account"; "onboard"] latest_input
  then Some "account_opening"
  else if any_in ["login"; "otp"; "app"; "device"; "crash"] latest_input
  then Some "digital_support"
  else if any_in ["transfer"; "bill pay"; "beneficiary"; "wire"; "ach"] latest_input
  then Some "transfers"
  else if any_in ["close account"; "closure"; "retain"] latest_input
  then Some "account_closure"
  else None.

(** Reading a flow label off the classifier's answer. *)
Definition parse_flow (response_content : string) : option string :=
  let response_text := lower response_content in
  if contains "card_issues" response_text then Some "card_issues"
  else if contains "account_servicing" response_text then Some "account_servicing"
  else if contains "account_opening" response_text then Some "account_opening"
  else if contains "digital_support" response_text then Some "digital_support"
  else if contains "transfers" response_text then Some "transfers"
  else if contains "account_closure" response_text then Some "account_closure"
  else None.

Definition route_intent (ext : Collaborators) (state : AgentState) : M AgentState :=
  match latest_human (messages state) with
  | None => ret state   (* no user input yet *)
  | Some user_content =>
      let latest_input := strip (lower user_content) in
      match small_talk_of latest_input with
      | Some kind =>
          ret (set_metadata (set_small_talk (Some kind) (metadata state))
                 (set_current_flow None state))
      | None =>
          let meta := metadata state in
          let current_flow := current_flow state in
          let is_topic_change := any_in topic_change_keywords latest_input in
          if Security.truthy current_flow && negb (force_reroute meta)
             && negb is_topic_change
          then ret state   (* sticky: the user continues the current flow *)
          else if lock_flow meta
                  || (attempted (auth meta) && Security.truthy current_flow)
          then ret state
          else
            match keyword_flow latest_input with
            | Some flow => ret (set_current_flow (Some flow) state)
            | None =>
                do response <- call (ClassifyIntent user_content) (llm ext user_content) ;;
                ret (set_current_flow (parse_flow response) state)
            end
      end
  end.

End IntentRouter.

(* ===================================================================== *)
(** ** agents/nodes/auth_gate.py *)
(* ===================================================================== *)

Module AuthGate.
Import State Eff.

(** [str(n)] for an integer. *)
Definition str_of_Z (z : Z) : string := DecimalString.NilEmpty.string_of_int (Z.to_int z).

(** [{**state, "messages": [response]}] *)
Definition reply (text : string) (state : AgentState) : AgentState :=
  set_messages [AIMessage text] state.

Definition failed_attempt_message (a : AuthOutcome) : string :=
  let remaining_msg :=
    match remaining_attempts a with
    | Some remaining => " You have " ++ str_of_Z remaining ++ " attempt(s) remaining."
    | None => ""
    end in
  "I couldn't verify your identity with those credentials. " ++
  "Please check your Customer ID and PIN and try again." ++ remaining_msg.

(** [auth.get("attempted") and auth.get("success") is False] *)
Definition just_failed (a : AuthOutcome) : bool :=
  attempted a && match success a with Some false => true | _ => false end.

Definition check_authentication (state : AgentState) : M AgentState :=
  if verified state then ret state
  else
    let auth := auth (metadata state) in
    if auth_locked auth then
      ret (set_requires_human true
             (reply ("For your security, I've locked verification after too many failed attempts. " ++
                     "I'll connect you with a specialist to complete this safely.") state))
    else if just_failed auth then
      ret (reply (failed_attempt_message auth) state)
    else ret state.

Definition verification_prompt : string :=
  "For security, I need to verify your identity before we proceed. " ++
  "Please provide your Customer ID and your 4-digit PIN.".

Definition request_verification (state : AgentState) : M AgentState :=
  let auth := auth (metadata state) in
  let prompt :=
    if needs_pin auth then "Thanks. Please provide your 4-digit PIN."
    else if needs_customer_id auth then "Thanks. Please provide your 4-digit Customer ID."
    else verification_prompt in
  ret (reply prompt state).

End AuthGate.

(* ===================================================================== *)
(** ** agents/nodes/greeting_handler.py, stub_flows.py, escalation.py,
       agents/prompts.py *)
(* ===================================================================== *)

Module Handlers.
Import State Eff AuthGate.

Definition nl : string := String (ascii_of_nat 10) EmptyString.

(** The bullet of the canned replies, as its UTF-8 bytes. *)
Definition bullet : string :=
  String (ascii_of_nat 226) (String (ascii_of_nat 128) (String (ascii_of_nat 162) EmptyString)).

Definition handle_greeting (state : AgentState) : M AgentState :=
  let small_talk_type := small_talk (metadata state) in
  let response_text :=
    if opt_eqb small_talk_type "greeting" then "Hi! How can I help you today?"
    else if opt_eqb small_talk_type "thanks" then
      "You're welcome! Is there anything else I can help with?"
    else if opt_eqb small_talk_type "goodbye" then
      "Thank you for banking with Vaulta. Have a great day!"
    else if opt_eqb small_talk_type "help" then
      "I'm Alex, Vaulta Voice Assistant. " ++
      "I can help you with:" ++ nl ++ nl ++
      bullet ++ " Check account balance" ++ nl ++
      bullet ++ " View recent transactions" ++ nl ++
      bullet ++ " Request statements" ++ nl ++
      bullet ++ " Report lost or stolen cards" ++ nl ++
      bullet ++ " Card declined issues" ++ nl ++
      bullet ++ " General banking support" ++ nl ++ nl ++
      "What would you like to do?"
    else if opt_eqb small_talk_type "identity" then
      "I'm Alex, Vaulta Voice Assistant. " ++
      "I'm designed specifically to help Vaulta customers with their " ++
      "banking needs, using advanced AI technology. I can help you with " ++
      "account inquiries, card services, and general banking questions. " ++
      "How may I assist you today?"
    else
      "I'm here to help with your banking needs. " ++
      "What can I assist you with today?" in
  ret (reply response_text state).

Definition STUB_FLOW_RESPONSES : list (string * string) :=
  [ ("account_opening",
     "Thank you for your interest in Vaulta!" ++ nl ++ nl ++
     "To open a new account, you can:" ++ nl ++
     "1. Visit vaulta.com/apply" ++ nl ++
     "2. Schedule an appointment at a branch" ++ nl ++
     "3. Call our new accounts team at 1-800-VAULTA" ++ nl ++ nl ++
     "Would you like me to send you the application link via SMS?");
    ("digital_support",
     "I can help with app issues!" ++ nl ++ nl ++
     "Common solutions:" ++ nl ++
     bullet ++ " Login problems: Reset password at vaulta.com/reset" ++ nl ++
     bullet ++ " OTP not received: Check spam, request new code" ++ nl ++
     bullet ++ " App crashes: Update to latest version" ++ nl ++ nl ++
     "If these don't help, I'll transfer you to digital support.");
    ("transfers",
     "I can assist with transfers and payments." ++ nl ++ nl ++
     "Currently, I can route you to:" ++ nl ++
     bullet ++ " Domestic Transfers (ACH/Wire)" ++ nl ++
     bullet ++ " International Payments" ++ nl ++
     bullet ++ " Bill Pay Support" ++ nl ++
     bullet ++ " Beneficiary Management" ++ nl ++ nl ++
     "Which area do you need help with?");
    ("account_closure",
     "We're sorry to hear you're considering closing your account." ++ nl ++ nl ++
     "To ensure this is handled correctly and to discuss alternatives that might better suit your needs, I'll need to connect you with our Account Specialist team." ++ nl ++ nl ++
     "Would you like to speak with them now?") ].

Definition GENERAL_HELP_RESPONSE : string :=
  "I can help with account balances, recent transactions, statements, card issues, and general banking support." ++ nl ++
  "If you have a specific request, just tell me and I'll take care of it.".

Definition SMALL_TALK_RESPONSES : list (string * string) :=
  [ ("greeting", "Hi! How can I help you today?");
    ("thanks", "You're welcome! Is there anything else I can help with?");
    ("goodbye", "Thanks for calling Vaulta. Have a great day!");
    ("help", "I can help with balances, transactions, statements, card issues, and general banking support. What would you like to do?") ].

(** [d.get(key)] on a dict with string keys; a [None] key is in neither
    table. *)
Fixpoint dict_get (d : list (string * string)) (key : option string) : option string :=
  match d with
  | [] => None
  | (k, v) :: t => if opt_eqb key k then Some v else dict_get t key
  end.

Definition handle_stub_flow (state : AgentState) : M AgentState :=
  match dict_get SMALL_TALK_RESPONSES (small_talk (metadata state)) with
  | Some text =>
      ret (set_metadata (set_small_talk None (metadata state)) (reply text state))
  | None =>
      let response_text :=
        default GENERAL_HELP_RESPONSE (dict_get STUB_FLOW_RESPONSES (current_flow state)) in
      ret (reply response_text state)
  end.

Definition escalate_to_human (state : AgentState) : M AgentState :=
  ret (set_requires_human true
         (reply ("I'll connect you with a specialist who can better assist with your request. " ++
                 "Please hold for a moment...") state)).

(** agents/nodes/account_flow.py, through its collaborator. *)
Definition handle_account_flow (ext : Collaborators) (state : AgentState) : M AgentState :=
  do r <- call AccountFlow (account_flow_reply ext state) ;;
  ret (set_requires_human (snd r) (reply (fst r) state)).

End Handlers.

(* ===================================================================== *)
(** ** agents/nodes/card_flow.py *)
(* ===================================================================== *)

Module CardFlow.
Import Re State Eff AuthGate.

Definition _block_specific_card (state : AgentState) (card : string) (last4 : string)
    : M AgentState :=
  let pending_action :=
    {| pa_type := "block_card"; card_id := card; reason := "lost";
       description := "BLOCK your card ending in " ++ last4 |} in
  let card_type := if contains "001" card then "Debit" else "Credit" in
  let response :=
    "I've found your " ++ card_type ++ " card ending in " ++ last4 ++ ". For your security, " ++
    "blocking a card is PERMANENT and cannot be undone. " ++
    "Are you sure you want to proceed and BLOCK this card?" in
  ret (set_metadata (set_confirmation_flags true true (metadata state))
         (set_pending_action (Some pending_action) (reply response state))).

Definition latest_input_of (state : AgentState) : string :=
  match latest_human (messages state) with
  | Some c => lower c
  | None => ""
  end.

Definition handle_lost_card (state : AgentState) : M AgentState :=
  let latest_input := latest_input_of state in
  if contains "debit" latest_input || contains "0001" latest_input then
    _block_specific_card state "CARD_001" "0001"
  else if contains "credit" latest_input || contains "9999" latest_input then
    _block_specific_card state "CARD_999" "9999"
  else
    ret (reply ("I'm sorry to hear that. I can help you block your card immediately. " ++
                "Which card is it? Your Debit card ending in 0001, or your Credit card ending in 9999?")
           state).

Definition handle_declined_payment (ext : Collaborators) (state : AgentState) : M AgentState :=
  ret (reply ("I've checked your recent transactions. It looks like your last payment was declined " ++
              "due to " ++ declined_reason ext ++ ". Would you like more details on how to resolve this?")
         state).

Definition handle_atm_cash_not_dispensed (ext : Collaborators) (state : AgentState)
    : M AgentState :=
  let nl := Handlers.nl in
  ret (reply ("I'm sorry about this ATM issue. I've created a dispute case: ATM-" ++
              atm_reference ext ++ nl ++ nl ++
              "What happens next:" ++
              nl ++ "1. Our team reviews ATM logs within 24 hours" ++
              nl ++ "2. If confirmed, we credit your account in 3-5 business days" ++
              nl ++ "3. You'll receive email updates throughout" ++
              nl ++ nl ++ "Is there anything else I can help with?")
         state).

Definition handle_card_flow (ext : Collaborators) (state : AgentState) : M AgentState :=
  if negb (verified state) then
    let auth := auth (metadata state) in
    if just_failed auth then ret (reply (failed_attempt_message auth) state)
    else
      let prompt :=
        if needs_pin auth then "Thanks. Please provide your 4-digit PIN."
        else if needs_customer_id auth then "Thanks. Please provide your Customer ID."
        else
          "I understand this is urgent, and I'm here to help you immediately. " ++
          "For your security, I'll need to verify your identity first. " ++
          "Could you please provide your Customer ID and your 4-digit PIN?" in
      ret (reply prompt state)
  else if is_Some_b (pending_action state) && awaiting_confirmation (metadata state) then
    (* the confirmation node handles the reply *)
    ret state
  else
    let last_assistant_msg :=
      match latest_ai (messages state) with Some c => lower c | None => "" end in
    let latest_input := latest_input_of state in
    if contains "debit card ending" last_assistant_msg
       || contains "credit card ending" last_assistant_msg then
      (* we just asked which card *)
      if contains "debit" latest_input || contains "0001" latest_input then
        _block_specific_card state "CARD_001" "0001"
      else if contains "credit" latest_input || contains "9999" latest_input then
        _block_specific_card state "CARD_999" "9999"
      else if any_in ["lost"; "stolen"; "missing"; "block"] latest_input then
        ret (reply ("I understand you need to block a card. To help you quickly, " ++
                    "which card do you want to block - Debit or Credit?") state)
      else ret (reply "Which card - Debit or Credit?" state)
    else if contains "lost or stolen card" last_assistant_msg then
      (* we just asked about the issue type *)
      if any_in ["lost"; "stolen"; "missing"; "block"] latest_input then
        handle_lost_card state
      else if any_in ["declined"; "rejected"; "not working"] latest_input then
        handle_declined_payment ext state
      else if any_in ["atm"; "cash"; "dispense"] latest_input then
        handle_atm_cash_not_dispensed ext state
      else
        ret (reply ("I didn't catch that. Are you calling about: 1) A lost or stolen card you need to block, " ++
                    "2) A declined payment, or 3) An ATM issue?") state)
    else if any_in ["lost"; "stolen"; "missing"; "block"] latest_input then
      handle_lost_card state
    else if any_in ["declined"; "not working"; "rejected"] latest_input then
      handle_declined_payment ext state
    else if any_in ["atm"; "cash"; "dispense"] latest_input then
      handle_atm_cash_not_dispensed ext state
    else
      ret (reply ("I can help you with your Vaulta cards. Are you calling about a lost or stolen card, " ++
                  "a declined payment, or an issue with an ATM?") state).

End CardFlow.

(* ===================================================================== *)
(** ** agents/nodes/confirmation.py *)
(* ===================================================================== *)

Module Confirmation.
Import Re State Eff Exceptions AuthGate.

Definition affirmative : list string := ["yes"; "confirm"; "proceed"; "sure"].
Definition negative : list string := ["no"; "cancel"; "stop"; "wait"].

Definition cancel_message (pending : PendingAction) : string :=
  "Okay, I've cancelled the " ++ description pending ++ ". " ++
  "Your card remains active. Is there anything else I can help with?".

Definition reprompt_message (pending : PendingAction) : string :=
  "I need a clear confirmation. Do you want to " ++ description pending ++ "? " ++
  "Please say YES to proceed or NO to cancel.".

Definition handle_confirmation (ext : Collaborators) (state : AgentState) : M AgentState :=
  match pending_action state with
  | None => ret state
  | Some pending =>
      if negb (verified state) then
        raise (VerificationRequiredError "Confirmation requires verification")
      else
        let latest_input := CardFlow.latest_input_of state in
        if any_in affirmative latest_input then
          (* execute the action *)
          do response <-
            (if String.eqb (pa_type pending) "block_card"
             then call (BlockCard (card_id pending) (reason pending))
                       (block_card ext (card_id pending) (reason pending))
             else ret "Action completed successfully.") ;;
          ret (set_metadata (set_confirmation_flags false false (metadata state))
                 (set_pending_action None (reply response state)))
        else if any_in negative latest_input then
          (* the user cancelled *)
          ret (set_metadata (set_confirmation_flags false false (metadata state))
                 (set_pending_action None (reply (cancel_message pending) state)))
        else
          (* unclear reply: ask again *)
          ret (set_metadata (set_confirmation_flags true false (metadata state))
                 (reply (reprompt_message pending) state))
  end.

End Confirmation.

(* ===================================================================== *)
(** ** agents/graph.py *)
(* ===================================================================== *)

Module Graph.
Import Re State Eff.

(** The names returned by the conditional edge functions. *)
Inductive small_talk_edge : Type := edge_greeting | edge_auth_gate.
Inductive auth_edge : Type := edge_request_auth | edge_route_by_intent | edge_end.
Inductive flow_edge : Type := edge_card_flow | edge_account_flow | edge_stub_flow.
Inductive confirm_edge : Type := edge_confirm | edge_execute.

Definition should_handle_small_talk (state : AgentState) : small_talk_edge :=
  if Security.truthy (small_talk (metadata state)) then edge_greeting else edge_auth_gate.

Definition should_request_auth (state : AgentState) : auth_edge :=
  let auth := auth (metadata state) in
  if auth_locked auth || AuthGate.just_failed auth then edge_end
  else
    let sensitive :=
      opt_eqb (current_flow state) "card_issues"
      || opt_eqb (current_flow state) "account_servicing" in
    if negb sensitive then edge_route_by_intent
    else if verified state then edge_route_by_intent else edge_request_auth.

Definition route_to_flow (state : AgentState) : flow_edge :=
  let current_flow := current_flow state in
  if opt_eqb current_flow "card_issues" then edge_card_flow
  else if opt_eqb current_flow "account_servicing" then edge_account_flow
  else if existsb (opt_eqb current_flow)
            ["account_opening"; "digital_support"; "transfers"; "account_closure"]
  then edge_stub_flow
  else edge_stub_flow.

Definition should_confirm (state : AgentState) : confirm_edge :=
  match pending_action state with
  | Some pending =>
      if existsb (String.eqb (pa_type pending)) ["block_card"; "close_account"] then
        let meta := metadata state in
        if asked_for_confirmation meta then edge_execute
        else if awaiting_confirmation meta then edge_confirm
        else edge_execute
      else edge_execute
  | None => edge_execute
  end.

Definition route_by_intent (state : AgentState) : M AgentState := ret state.

(** Running one node: the returned dict is written to the state; the
    [messages] channel is declared with [operator.add], so the returned
    list is added to the one already there, every other key is replaced. *)
Definition write (old returned : AgentState) : AgentState :=
  set_messages (messages old ++ messages returned)%list returned.

Definition node (f : AgentState -> M AgentState) (state : AgentState) : M AgentState :=
  do returned <- f state ;;
  ret (write state returned).

(** [agent_graph.ainvoke]: the nodes and edges added by [build_agent_graph],
    from the entry point to END. *)
Definition agent_graph (ext : Collaborators) (input : AgentState) : M AgentState :=
  do s1 <- node (IntentRouter.route_intent ext) input ;;
  match should_handle_small_talk s1 with
  | edge_greeting => node Handlers.handle_greeting s1
  | edge_auth_gate =>
      do s2 <- node AuthGate.check_authentication s1 ;;
      match should_request_auth s2 with
      | edge_end => ret s2
      | edge_request_auth => node AuthGate.request_verification s2
      | edge_route_by_intent =>
          do s3 <- node route_by_intent s2 ;;
          match route_to_flow s3 with
          | edge_card_flow =>
              do s4 <- node (CardFlow.handle_card_flow ext) s3 ;;
              match should_confirm s4 with
              | edge_confirm => node (Confirmation.handle_confirmation ext) s4
              | edge_execute => ret s4
              end
          | edge_account_flow => node (Handlers.handle_account_flow ext) s3
          | edge_stub_flow => node Handlers.handle_stub_flow s3
          end
      end
  end.

End Graph.

(* ===================================================================== *)
(** ** core/config.py *)
(* ===================================================================== *)

Module Config.

(** The two settings the core reads; the environment may override the
    defaults. *)
Record Settings : Type := {
  MAX_AUTH_ATTEMPTS : Z;
  SESSION_TIMEOUT : Z
}.

Definition defaults : Settings := {| MAX_AUTH_ATTEMPTS := 3; SESSION_TIMEOUT := 300 |}.

End Config.

(* ===================================================================== *)
(** ** api/vapi_routes.py *)
(* ===================================================================== *)

Module VapiRoutes.
Import Re State Eff Exceptions SessionManager Config.

Definition set_pending_customer_id (v : option string) (s : SessionState) : SessionState :=
  {| s_session_id := s_session_id s; s_customer_id := s_customer_id s;
     s_verified := s_verified s; created_at := created_at s;
     last_activity := last_activity s; auth_attempts := auth_attempts s;
     conversation_history := conversation_history s;
     last_intent_message := last_intent_message s;
     pending_customer_id := v;
     s_current_flow := s_current_flow s;
     s_original_intent := s_original_intent s;
     s_pending_action := s_pending_action s;
     s_awaiting_confirmation := s_awaiting_confirmation s;
     s_requires_human := s_requires_human s; locked := locked s |}.

Definition set_locked (b : bool) (s : SessionState) : SessionState :=
  {| s_session_id := s_session_id s; s_customer_id := s_customer_id s;
     s_verified := s_verified s; created_at := created_at s;
     last_activity := last_activity s; auth_attempts := auth_attempts s;
     conversation_history := conversation_history s;
     last_intent_message := last_intent_message s;
     pending_customer_id := pending_customer_id s;
     s_current_flow := s_current_flow s;
     s_original_intent := s_original_intent s;
     s_pending_action := s_pending_action s;
     s_awaiting_confirmation := s_awaiting_confirmation s;
     s_requires_human := s_requires_human s; locked := b |}.

Definition set_auth_attempts (n : Z) (s : SessionState) : SessionState :=
  {| s_session_id := s_session_id s; s_customer_id := s_customer_id s;
     s_verified := s_verified s; created_at := created_at s;
     last_activity := last_activity s; auth_attempts := n;
     conversation_history := conversation_history s;
     last_intent_message := last_intent_message s;
     pending_customer_id := pending_customer_id s;
     s_current_flow := s_current_flow s;
     s_original_intent := s_original_intent s;
     s_pending_action := s_pending_action s;
     s_awaiting_confirmation := s_awaiting_confirmation s;
     s_requires_human := s_requires_human s; locked := locked s |}.

(** The four writes of a successful verification. *)
Definition mark_verified (cid : string) (s : SessionState) : SessionState :=
  {| s_session_id := s_session_id s; s_customer_id := Some cid;
     s_verified := true; created_at := created_at s;
     last_activity := last_activity s; auth_attempts := 0;
     conversation_history := conversation_history s;
     last_intent_message := last_intent_message s;
     pending_customer_id := None;
     s_current_flow := s_current_flow s;
     s_original_intent := s_original_intent s;
     s_pending_action := s_pending_action s;
     s_awaiting_confirmation := s_awaiting_confirmation s;
     s_requires_human := s_requires_human s; locked := locked s |}.

(** The [auth] dict as first built: nothing attempted, [locked] copied
    from the session. *)
Definition initial_auth (session : SessionState) : AuthOutcome :=
  {| attempted := false; success := None; remaining_attempts := None;
     auth_locked := locked session; needs_customer_id := false; needs_pin := false |}.

Definition with_needs_pin (a : AuthOutcome) : AuthOutcome :=
  {| attempted := attempted a; success := success a;
     remaining_attempts := remaining_attempts a; auth_locked := auth_locked a;
     needs_customer_id := needs_customer_id a; needs_pin := true |}.

Definition with_needs_customer_id (a : AuthOutcome) : AuthOutcome :=
  {| attempted := attempted a; success := success a;
     remaining_attempts := remaining_attempts a; auth_locked := auth_locked a;
     needs_customer_id := true; needs_pin := needs_pin a |}.

(** [attempted] set, then the result of the attempt. *)
Definition attempt_result (a : AuthOutcome) (ok : bool) (remaining : option Z)
    (is_locked : bool) : AuthOutcome :=
  {| attempted := true; success := Some ok; remaining_attempts := remaining;
     auth_locked := is_locked; needs_customer_id := needs_customer_id a;
     needs_pin := needs_pin a |}.

Definition _process_auth_attempt (settings : Settings) (ext : Collaborators)
    (session : SessionState) (raw_text : string) : M (SessionState * AuthOutcome) :=
  let auth := initial_auth session in
  if s_verified session then ret (session, auth)
  else
    let '(customer_id, pin) := Security.extract_credentials raw_text in
    let '(customer_id, pin) :=
      if Security.truthy (pending_customer_id session) && Security.truthy customer_id
         && negb (Security.truthy pin)
      then (* a lone number is the PIN when an id is already pending *)
        (pending_customer_id session, customer_id)
      else (customer_id, pin) in
    if Security.truthy customer_id && negb (Security.truthy pin) then
      ret (set_pending_customer_id customer_id session, with_needs_pin auth)
    else
      let has_lone_pin := Security.truthy pin && negb (Security.truthy customer_id) in
      if has_lone_pin && negb (Security.truthy (pending_customer_id session)) then
        ret (session, with_needs_customer_id auth)
      else
        let customer_id :=
          if has_lone_pin then pending_customer_id session else customer_id in
        match customer_id, pin with
        | Some cid, Some p =>
            if negb (Security.truthy customer_id && Security.truthy pin) then
              ret (session, auth)
            else if locked session || (MAX_AUTH_ATTEMPTS settings <=? auth_attempts session)%Z
            then (* lockout check *)
              ret (set_locked true session, attempt_result auth false None true)
            else
              do is_verified <- call (VerifyIdentity cid p) (verify_identity ext cid p) ;;
              if (is_verified : bool) then
                ret (mark_verified cid session,
                     attempt_result auth true None (auth_locked auth))
              else
                let session := set_auth_attempts (auth_attempts session + 1) session in
                let remaining :=
                  Z.max 0 (MAX_AUTH_ATTEMPTS settings - auth_attempts session) in
                if (remaining =? 0)%Z then
                  ret (set_locked true session,
                       attempt_result auth false (Some remaining) true)
                else
                  ret (session,
                       attempt_result auth false (Some remaining) (auth_locked auth))
        | _, _ => ret (session, auth)
        end.

Definition MAX_HISTORY_MESSAGES : nat := 10.

(** [history[-MAX_HISTORY_MESSAGES:]] when the history is longer. *)
Definition recent_history (history : list BaseMessage) : list BaseMessage :=
  if (MAX_HISTORY_MESSAGES <? List.length history)%nat
  then drop (List.length history - MAX_HISTORY_MESSAGES) history
  else history.

(** The metadata dict a turn starts with; [timestamp] is [int(time.time())]. *)
Definition turn_metadata (a : AuthOutcome) (session : SessionState) (lock : bool)
    (now : Q) : Metadata :=
  {| auth := a; small_talk := None;
     awaiting_confirmation := s_awaiting_confirmation session;
     asked_for_confirmation := false;
     lock_flow := lock; force_reroute := false;
     timestamp := Qfloor now |}.

(** The first half of [_run_agent]: the turn state built from the session,
    with the restoration of the flow saved before authentication. *)
Definition build_state (ext : Collaborators) (now : Q) (sid : string)
    (sanitized_input : string) (a : AuthOutcome) (m : Manager)
    : Manager * AgentState :=
  let '(m, session) := get_or_create_session now sid m in
  let history := recent_history (conversation_history session) in
  let current_state :=
    {| messages := (history ++ [HumanMessage sanitized_input])%list;
       customer_id :=
         if Security.truthy (s_customer_id session)
         then hash_customer_id ext <$> s_customer_id session else None;
       verified := s_verified session;
       current_flow := s_current_flow session;
       original_intent := s_original_intent session;
       pending_action := s_pending_action session;
       session_id := sid;
       requires_human := s_requires_human session;
       metadata := empty_metadata |} in
  if Security.truthy (s_original_intent session) && s_verified session
     && (List.length history <=? 4)%nat
  then
    (* just authenticated: restore the flow and lock it *)
    (update_session now sid
       {| u_verified := None; u_customer_id := None; increment_auth_attempts := false;
          u_current_flow := None; u_original_intent := Some None;
          u_pending_action := None; u_awaiting_confirmation := None;
          u_requires_human := None; u_locked := None;
          u_conversation_history := None; u_last_intent_message := None |} m,
     set_metadata (turn_metadata a session true now)
       (set_current_flow (s_original_intent session) current_state))
  else
    (m,
     set_metadata
       (turn_metadata a session
          (s_awaiting_confirmation session || is_Some_b (s_pending_action session)) now)
       current_state).

(** ["customer id" in text.lower() and "pin" in text.lower()] on the last
    message of the result. *)
Definition is_auth_request (result : AgentState) : bool :=
  let last_message_content :=
    match last (messages result) with Some msg => content msg | None => "" end in
  contains "customer id" (lower last_message_content)
  && contains "pin" (lower last_message_content).

(** The second half of [_run_agent]: the result folded into the session. *)
Definition fold_result (now : Q) (sid : string) (result : AgentState) (m : Manager)
    : Manager * string :=
  let session_verified := from_option s_verified false (sessions m !! sid) in
  let m :=
    if is_auth_request result && Security.truthy (current_flow result)
       && negb session_verified
    then (* auth just requested: keep the flow to restore it later *)
      update_session now sid
        {| u_verified := None; u_customer_id := None; increment_auth_attempts := false;
           u_current_flow := None; u_original_intent := Some (current_flow result);
           u_pending_action := None; u_awaiting_confirmation := None;
           u_requires_human := None; u_locked := None;
           u_conversation_history := None; u_last_intent_message := None |} m
    else m in
  let session_locked := from_option locked false (sessions m !! sid) in
  let m :=
    update_session now sid
      {| u_verified := Some (verified result); u_customer_id := None;
         increment_auth_attempts := false;
         u_current_flow := Some (current_flow result); u_original_intent := None;
         u_pending_action := Some (pending_action result);
         u_awaiting_confirmation := Some (awaiting_confirmation (metadata result));
         u_requires_human := Some (requires_human result);
         u_locked := Some session_locked;
         u_conversation_history := Some (messages result);
         u_last_intent_message := None |} m in
  let response_content :=
    default "I'm not sure how to respond to that." (latest_ai (messages result)) in
  (m, response_content).

(** [_run_agent]: when the graph raises, the writes made before it stay. *)
Definition _run_agent (ext : Collaborators) (now : Q) (sid : string)
    (sanitized_input : string) (a : AuthOutcome) (m : Manager)
    : Manager * M (string * AgentState) :=
  let '(m, current_state) := build_state ext now sid sanitized_input a m in
  match Graph.agent_graph ext current_state with
  | (inl e, t) => (m, (inl e, t))
  | (inr result, t) =>
      let '(m, response_content) := fold_result now sid result m in
      (m, (inr (response_content, result), t))
  end.

(** The body shared by [chat_completions] and [vapi_call], from the
    resolved session id and the raw user input on.  A failure of the agent
    is answered with HTTP 500, a failure of the verifier propagates; in
    both cases the session keeps the writes already made. *)
Definition process_turn (settings : Settings) (ext : Collaborators) (now : Q)
    (sid : string) (raw_user_input : string) (m : Manager) : Manager * M string :=
  let '(m, session) := get_or_create_session now sid m in
  match _process_auth_attempt settings ext session raw_user_input with
  | (inl e, t) => (m, (inl e, t))
  | (inr (session, auth), t) =>
      let sanitized_input := Security.redact_sensitive_text raw_user_input in
      let auth_only := attempted auth || needs_pin auth || needs_customer_id auth in
      let session :=
        if negb auth_only then set_last_intent_message (Some sanitized_input) session
        else session in
      let effective_input :=
        if auth_only && Security.truthy (last_intent_message session)
        then default sanitized_input (last_intent_message session)
        else sanitized_input in
      (* the session object is the dict entry: its writes are in the store *)
      let m := with_sessions m (<[sid := session]> (sessions m)) in
      let '(m, (r, t')) := _run_agent ext now sid effective_input auth m in
      (m, (match r with inl e => inl e | inr res => inr (fst res) end, (t ++ t')%list))
  end.

End VapiRoutes.

(* ===================================================================== *)
(** ** Sample collaborators and sample states, for the concrete runs *)
(* ===================================================================== *)

Module Demo.
Import State SessionManager.

(** A verifier that knows customer 1 with PIN 1000, a card service that
    always answers, a classifier without an opinion. *)
Definition ext : Collaborators :=
  {| verify_identity := fun c p => inr (String.eqb c "1" && String.eqb p "1000");
     block_card := fun c r => inr ("SUCCESS: Card " ++ c ++ " has been permanently BLOCKED");
     llm := fun _ => inr "unknown";
     account_flow_reply := fun _ => inr ("Your current balance is available.", false);
     declined_reason := "expired card";
     atm_reference := "123456";
     hash_customer_id := fun _ => "6b86b273" |}.

(** The action staged by the card flow for the debit card. *)
Definition block_debit : PendingAction :=
  {| pa_type := "block_card"; card_id := "CARD_001"; reason := "lost";
     description := "BLOCK your card ending in 0001" |}.

(** A turn state of a verified (or not) customer in the card flow, with
    the block staged and the reply [text] just received. *)
Definition awaiting_state (is_verified : bool) (text : string) : AgentState :=
  {| messages := [HumanMessage "i lost my debit card";
                  AIMessage "Are you sure you want to proceed and BLOCK this card?";
                  HumanMessage text];
     customer_id := Some "6b86b273"; verified := is_verified;
     current_flow := Some "card_issues"; original_intent := None;
     pending_action := Some block_debit; session_id := "call-1";
     requires_human := false;
     metadata :=
       {| auth := no_auth; small_talk := None; awaiting_confirmation := true;
          asked_for_confirmation := false; lock_flow := true;
          force_reroute := false; timestamp := 0 |} |}.

(** A turn state in the account-servicing flow with the utterance [text]
    just received. *)
Definition servicing_state (text : string) : AgentState :=
  {| messages := [HumanMessage "what is my balance";
                  AIMessage "Your current balance is available.";
                  HumanMessage text];
     customer_id := Some "6b86b273"; verified := true;
     current_flow := Some "account_servicing"; original_intent := None;
     pending_action := None; session_id := "call-1";
     requires_human := false; metadata := empty_metadata |}.




(** A session with the given history, flow marker and verification. *)
Definition session_with (history : list BaseMessage) (flow marker : option string)
    (is_verified : bool) : SessionState :=
  {| s_session_id := "call-1";
     s_customer_id := if is_verified then Some "1" else None;
     s_verified := is_verified;
     created_at := 0; last_activity := 0; auth_attempts := 0;
     conversation_history := history; last_intent_message := None;
     pending_customer_id := None; s_current_flow := flow;
     s_original_intent := marker; s_pending_action := None;
     s_awaiting_confirmation := false; s_requires_human := false;
     locked := false |}.

(** A session locked after three failures. *)
Definition locked_session : SessionState :=
  {| s_session_id := "call-1"; s_customer_id := None; s_verified := false;
     created_at := 0; last_activity := 0; auth_attempts := 3;
     conversation_history := []; last_intent_message := Some "what is my balance";
     pending_customer_id := None; s_current_flow := Some "account_servicing";
     s_original_intent := Some "account_servicing"; s_pending_action := None;
     s_awaiting_confirmation := false; s_requires_human := true;
     locked := true |}.

(** A session waiting for the PIN of customer 1. *)
Definition pending_session : SessionState :=
  {| s_session_id := "call-1"; s_customer_id := None; s_verified := false;
     created_at := 0; last_activity := 0; auth_attempts := 0;
     conversation_history := []; last_intent_message := None;
     pending_customer_id := Some "1"; s_current_flow := None;
     s_original_intent := None; s_pending_action := None;
     s_awaiting_confirmation := false; s_requires_human := false;
     locked := false |}.

(** A store with one idle session and one active one, and a clock reading
    at which only the first is past the timeout. *)
Definition idle_session : SessionState :=
  set_last_activity 0 (new_session 0 "idle").

Definition active_session : SessionState :=
  set_last_activity 900 (new_session 0 "active").

Definition two_sessions : Manager :=
  {| sessions := <["idle" := idle_session]> {[ "active" := active_session ]};
     session_timeout := 300 |}.

Definition store_with (s : SessionState) : Manager :=
  {| sessions := {[ "call-1" := s ]}; session_timeout := 300 |}.

End Demo.

(* ===================================================================== *)
(** ** Auxiliary readings used by the proofs *)
(* ===================================================================== *)

Module Aux.
Import Re Security State SessionManager.





(** Every character of [s] is in the class [p]. *)
Fixpoint all_chars (p : ascii -> bool) (s : string) : bool :=
  match s with
  | EmptyString => true
  | String c t => p c && all_chars p t
  end.




(** The ids collected by the sweep. *)
Definition expired_ids (current_time : Q) (m : Manager) : list string :=
  (filter (fun kv => is_expired (session_timeout m) current_time (snd kv) = true)
          (map_to_list (sessions m))).*1.

(** A node function that returns its input with [verified] as it was. *)
Definition keeps_verified (f : AgentState -> Eff.M AgentState) : Prop :=
  forall s r t, f s = (inr r, t) -> verified r = verified s.

(** Two turn states agree on what the confirmation step reads: the
    verification flag, the pending action, the two confirmation flags and
    the latest user message. *)
Definition same_turn (a b : AgentState) : Prop :=
  verified a = verified b /\
  pending_action a = pending_action b /\
  awaiting_confirmation (metadata a) = awaiting_confirmation (metadata b) /\
  asked_for_confirmation (metadata a) = asked_for_confirmation (metadata b) /\
  latest_human (messages a) = latest_human (messages b).

(** A node that keeps what the confirmation step reads. *)
Definition frames (f : AgentState -> Eff.M AgentState) : Prop :=
  forall s r t, f s = (inr r, t) -> same_turn (Graph.write s r) s.

(** The two confirmation fields agree: an action is pending exactly when
    a confirmation is awaited; on a turn state and on a session. *)
Definition staged_ok (st : AgentState) : Prop :=
  is_Some_b (pending_action st) = awaiting_confirmation (metadata st).

Definition session_ok (s : SessionState) : Prop :=
  is_Some_b (s_pending_action s) = s_awaiting_confirmation s.

(** Two sessions agree on the fields that the auth attempt owns. *)
Definition same_auth (a b : SessionState) : Prop :=
  s_verified a = s_verified b /\ locked a = locked b /\
  auth_attempts a = auth_attempts b.

(** A turn of the conversation: the clock reading, the session id and the
    raw user input. *)
Record Turn : Type := {
  t_now : Q;
  t_session_id : string;
  t_input : string
}.

(** The utterance completes a pair [(cid, pin)] for the session: both
    parts are in the utterance, or the id is pending and the utterance
    brings a lone PIN, or the id is pending and the utterance brings a lone
    number (which the code takes as the PIN). *)
Inductive Submits (session : SessionState) (raw_text : string)
    : string -> string -> Prop :=
| submits_both cid pin :
    extract_credentials raw_text = (Some cid, Some pin) ->
    truthy (Some cid) = true -> truthy (Some pin) = true ->
    Submits session raw_text cid pin
| submits_lone_pin c cid pin :
    extract_credentials raw_text = (c, Some pin) ->
    truthy c = false -> truthy (Some pin) = true ->
    pending_customer_id session = Some cid -> truthy (Some cid) = true ->
    Submits session raw_text cid pin
| submits_lone_number n p cid :
    extract_credentials raw_text = (Some n, p) ->
    truthy (Some n) = true -> truthy p = false ->
    pending_customer_id session = Some cid -> truthy (Some cid) = true ->
    Submits session raw_text cid n.

(** The store after a sequence of turns, whatever each turn answered. *)
Definition run_turns (settings : Config.Settings) (ext : Collaborators)
    (turns : list Turn) (m : Manager) : Manager :=
  foldl (fun acc t =>
           fst (VapiRoutes.process_turn settings ext (t_now t) (t_session_id t)
                  (t_input t) acc))
        m turns.

(** The calls made by a sequence of turns, in order. *)
Definition turns_calls (settings : Config.Settings) (ext : Collaborators)
    (turns : list Turn) (m : Manager) : list Eff.event :=
  snd (foldl (fun acc t =>
                let r := VapiRoutes.process_turn settings ext (t_now t) (t_session_id t)
                           (t_input t) (fst acc) in
                (fst r, (snd acc ++ Eff.calls (snd r))%list))
             (m, []) turns).

(** The two actions the card flow can stage. *)
Definition known_block (p : PendingAction) : Prop :=
  pa_type p = "block_card" /\ reason p = "lost" /\
  (card_id p = "CARD_001" \/ card_id p = "CARD_999").




End Aux.

(* ===================================================================== *)
(** ** core/security.py: [sanitize_for_logging] *)
(* ===================================================================== *)

Module Sanitize.
Import Re Security.

(** The values the function is applied to: decoded JSON payloads and the
    dicts built by the endpoints.  Dict keys are strings; a dict keeps the
    order of its keys. *)
Inductive pyval : Type :=
| PNone
| PBool (b : bool)
| PInt (z : Z)
| PFloat (q : Q)
| PStr (s : string)
| PList (items : list pyval)
| PDict (entries : list (string * pyval)).

(** [bool(value)] *)
Definition py_truthy (v : pyval) : bool :=
  match v with
  | PNone => false
  | PBool b => b
  | PInt z => negb (z =? 0)%Z
  | PFloat q => negb (Qeq_bool q 0)
  | PStr s => negb (String.eqb s "")
  | PList items => match items with [] => false | _ => true end
  | PDict entries => match entries with [] => false | _ => true end
  end.

(** [str(value)]: a string is itself; the text of any other value is
    given by [repr]. *)
Definition py_str (repr : pyval -> string) (v : pyval) : string :=
  match v with
  | PStr s => s
  | _ => repr v
  end.

Definition secret_keys : list string := ["pin"; "password"; "ssn"; "secret"; "token"].
Definition account_keys : list string := ["account_number"; "account_num"].

(** [x in l] on a list of strings. *)
Definition in_list (x : string) (l : list string) : bool := existsb (String.eqb x) l.

(** [hash] is [hash_customer_id]. *)
Fixpoint sanitize_for_logging (hash : string -> string) (repr : pyval -> string)
    (data : pyval) : pyval :=
  match data with
  | PDict entries =>
      PDict
        (map (fun kv =>
                let '(key, value) := kv in
                (key,
                 if in_list (lower key) secret_keys then PStr "***REDACTED***"
                 else if String.eqb (lower key) "customer_id" then
                   if py_truthy value then PStr (hash (py_str repr value)) else PNone
                 else if in_list (lower key) account_keys then
                   if py_truthy value then PStr (mask_account_number (py_str repr value))
                   else PNone
                 else sanitize_for_logging hash repr value))
             entries)
  | PList items => PList (map (sanitize_for_logging hash repr) items)
  | PStr s => PStr (redact_sensitive_text s)
  | _ => data
  end.

(** The value [v] sits under the key [k] somewhere in [data]: in the dict
    itself, or in a dict reached through dict values and list items. *)
Inductive holds : pyval -> string -> pyval -> Prop :=
| holds_here entries k v :
    In (k, v) entries -> holds (PDict entries) k v
| holds_in_value entries k0 v0 k v :
    In (k0, v0) entries -> holds v0 k v -> holds (PDict entries) k v
| holds_in_item items x k v :
    In x items -> holds x k v -> holds (PList items) k v.

(** [d.get(key)] on a dict in key order. *)
Fixpoint dict_get (entries : list (string * pyval)) (key : string) : option pyval :=
  match entries with
  | [] => None
  | (k, v) :: rest => if String.eqb k key then Some v else dict_get rest key
  end.

End Sanitize.

(* ===================================================================== *)
(** ** api/vapi_routes.py: the helpers around a turn *)
(* ===================================================================== *)

Module Endpoints.
Import State SessionManager Sanitize.

(** [HTTPException(status_code, detail)] *)
Inductive http_error : Type :=
| HTTPException (status_code : Z) (detail : string).

Record ChatMessage : Type := {
  role : string;
  cm_content : string
}.

Definition _extract_latest_user_input (messages : list ChatMessage)
    : http_error + string :=
  let user_messages := filter (fun m => role m = "user") messages in
  match user_messages with
  | [] => inl (HTTPException 400 "No user message provided")
  | m :: rest => inr (cm_content (List.last rest m))   (* user_messages[-1] *)
  end.

Definition opt_str (o : option string) : pyval :=
  match o with Some s => PStr s | None => PNone end.

(** The dict staged by the card flow, as stored on the session. *)
Definition pending_dict (p : PendingAction) : pyval :=
  PDict [("type", PStr (pa_type p)); ("card_id", PStr (card_id p));
         ("reason", PStr (reason p)); ("description", PStr (description p))].

(** The [data] dict of the session endpoint. *)
Definition session_data (session : SessionState) : pyval :=
  PDict [("session_id", PStr (s_session_id session));
         ("verified", PBool (s_verified session));
         ("customer_id", opt_str (s_customer_id session));
         ("current_flow", opt_str (s_current_flow session));
         ("pending_action",
          match s_pending_action session with
          | Some p => pending_dict p
          | None => PNone
          end);
         ("awaiting_confirmation", PBool (s_awaiting_confirmation session));
         ("requires_human", PBool (s_requires_human session));
         ("auth_attempts", PInt (auth_attempts session));
         ("locked", PBool (locked session));
         ("last_activity", PFloat (last_activity session));
         ("message_count", PInt (Z.of_nat (List.length (conversation_history session))))].

(** [GET /api/sessions/{session_id}] *)
Definition get_session_endpoint (hash : string -> string) (repr : pyval -> string)
    (session_id : string) (m : Manager) : http_error + pyval :=
  match get_session session_id m with
  | None => inl (HTTPException 404 "Session not found")
  | Some session => inr (sanitize_for_logging hash repr (session_data session))
  end.

End Endpoints.

(* ===================================================================== *)
(** ** core/llm_factory.py *)
(* ===================================================================== *)

Module LlmFactory.
Import Re Security.

(** The client returned: a [ChatOpenAI] or a [ChatGoogleGenerativeAI]. *)
Inductive provider : Type := openai | gemini.

Record LlmSettings : Type := {
  LLM_PROVIDER : string;
  LLM_MODEL : string;
  LLM_FALLBACK_ENABLED : bool;
  OPENAI_API_KEY : option string;
  GOOGLE_API_KEY : option string
}.

(** Whether the constructor of each client returns; when it raises,
    [_try_openai] and [_try_gemini] answer [None]. *)
Record Clients : Type := {
  openai_builds : bool;
  gemini_builds : bool
}.

(** [LLMProviderError]; its message says which keys are set. *)
Inductive llm_error : Type :=
| LLMProviderError (openai_key_set google_key_set : bool).

Definition _try_openai (st : LlmSettings) (c : Clients) : option provider :=
  if negb (truthy (OPENAI_API_KEY st)) then None
  else if openai_builds c then Some openai else None.

Definition _try_gemini (st : LlmSettings) (c : Clients) : option provider :=
  if negb (truthy (GOOGLE_API_KEY st)) then None
  else if gemini_builds c then Some gemini else None.

Definition _detect_provider_from_model (model_name : string) : provider :=
  if contains "gemini" (lower model_name) then gemini else openai.

Definition try_provider (p : provider) (st : LlmSettings) (c : Clients) : option provider :=
  match p with
  | openai => _try_openai st c
  | gemini => _try_gemini st c
  end.

Definition get_llm (st : LlmSettings) (c : Clients) : llm_error + provider :=
  let provider_preference := lower (LLM_PROVIDER st) in
  let '(primary, secondary) :=
    if String.eqb provider_preference "openai" then (openai, gemini)
    else if String.eqb provider_preference "gemini" then (gemini, openai)
    else (* "auto" *)
      match _detect_provider_from_model (LLM_MODEL st) with
      | gemini => (gemini, openai)
      | openai => (openai, gemini)
      end in
  let error :=
    LLMProviderError (truthy (OPENAI_API_KEY st)) (truthy (GOOGLE_API_KEY st)) in
  match try_provider primary st c with
  | Some llm => inr llm
  | None =>
      if LLM_FALLBACK_ENABLED st then
        match try_provider secondary st c with
        | Some llm => inr llm
        | None => inl error
        end
      else inl error
  end.

End LlmFactory.

(* ===================================================================== *)
(** ** core/config.py: [Settings.parse_origins] *)
(* ===================================================================== *)

Module Origins.
Import Re.

(** The value given for [ALLOWED_ORIGINS]: nothing, a string or a list. *)
Inductive origins_value : Type :=
| ONone
| OStr (s : string)
| OList (l : list string).

(** [s.split(",")] *)
Fixpoint split_comma (s : string) : list string :=
  match s with
  | EmptyString => [EmptyString]
  | String c t =>
      if Ascii.eqb c "," then EmptyString :: split_comma t
      else
        match split_comma t with
        | first :: others => String c first :: others
        | [] => [String c EmptyString]
        end
  end.

Definition parse_origins (v : origins_value) : list string :=
  match v with
  | ONone => ["*"]
  | OStr s => map IntentRouter.strip (split_comma s)
  | OList l => l
  end.

(** [",".join(l)] *)
Fixpoint join_comma (l : list string) : string :=
  match l with
  | [] => EmptyString
  | [x] => x
  | x :: rest => x ++ String "," (join_comma rest)
  end.

(** The number of commas of a string. *)
Fixpoint commas (s : string) : nat :=
  match s with
  | EmptyString => 0%nat
  | String c t => ((if Ascii.eqb c "," then 1 else 0) + commas t)%nat
  end.

End Origins.

(* ===================================================================== *)
(** ** agents/nodes/account_flow.py *)
(* ===================================================================== *)

Module AccountFlow.
Import Re State Exceptions SessionManager AuthGate.

(** The banking functions the flow calls, each with the customer id it is
    given. *)
Inductive api_call : Type :=
| GetAccountBalance (customer : string)
| GetRecentTransactions (customer : string)
| RequestStatement (customer : string)
| GetLoanInfo (customer : string)
| GetCardDetails (customer : string)
| ListCustomerCards (customer : string)
| SubmitFeedback (customer feedback_type : string)
| RequestChequeBook (customer : string)
| ReportFraud (customer : string)
| ToggleInternational (customer : string) (enable : bool).


(** The answers of services/banking_api.py, as the handlers use them: the
    text a handler says when the call succeeds (built from the returned
    data), [None] on the path a handler takes for an error, a refusal or an
    empty list; a call may raise. *)
Record Banking : Type := {
  balance_text : string -> exn + option string;
  transactions_text : string -> exn + option string;
  statement_text : string -> exn + option string;
  loan_text : string -> exn + option string;
  rewards_text : string -> exn + option string;
  cards_text : string -> exn + option string;
  feedback_message : string -> string -> exn + option string;
  cheque_message : string -> exn + option string;
  fraud_message : string -> exn + string;
  international_message : string -> bool -> exn + option string
}.

(** A handler's result and the calls it made. *)
Definition R : Type := (exn + AgentState) * list api_call.

(** One call, then the reply: [on_none] is the text of the other path and
    [escalate] tells whether that path sets [requires_human]. *)
Definition answer (c : api_call) (res : exn + option string) (on_none : string)
    (escalate : bool) (state : AgentState) : R :=
  (match res with
   | inl e => inl e
   | inr (Some text) => inr (reply text state)
   | inr None =>
       inr (if escalate then set_requires_human true (reply on_none state)
            else reply on_none state)
   end, [c]).

Definition handle_balance_inquiry (b : Banking) (state : AgentState) (cid : string) : R :=
  answer (GetAccountBalance cid) (balance_text b cid)
    "I'm having trouble retrieving your balance. Please try again." false state.

Definition handle_transaction_history (b : Banking) (state : AgentState) (cid : string) : R :=
  answer (GetRecentTransactions cid) (transactions_text b cid)
    "You don't have any recent transactions." false state.

Definition handle_statement_request (b : Banking) (state : AgentState) (cid : string) : R :=
  answer (RequestStatement cid) (statement_text b cid)
    ("I'm having trouble processing your statement request. " ++
     "Let me transfer you to someone who can help.") true state.

Definition handle_profile_update (state : AgentState) : R :=
  (inr (set_requires_human true
          (reply ("For security, profile updates require verification by a representative. " ++
                  "I'll transfer you now. They can update your information safely.") state)),
   []).

Definition handle_loan_inquiry (b : Banking) (state : AgentState) (cid : string) : R :=
  answer (GetLoanInfo cid) (loan_text b cid)
    "You don't have any active loans on file." false state.

Definition handle_rewards_inquiry (b : Banking) (state : AgentState) (cid : string) : R :=
  answer (GetCardDetails cid) (rewards_text b cid)
    "I'm having trouble retrieving your card information." false state.

Definition handle_card_inquiry (b : Banking) (state : AgentState) (cid : string) : R :=
  answer (ListCustomerCards cid) (cards_text b cid)
    "You don't have any cards on file." false state.

Definition handle_feedback_submission (b : Banking) (state : AgentState) (cid : string)
    (user_input : string) : R :=
  let feedback_type :=
    if any_in ["complaint"; "complain"; "issue"; "problem"] user_input then "Complaint"
    else if any_in ["praise"; "thank"; "great"; "excellent"] user_input then "Praise"
    else "Suggestion" in
  (match feedback_message b cid feedback_type with
   | inl e => inl e
   | inr (Some message) =>
       inr (reply ("Thank you for your " ++ lower feedback_type ++ "! " ++ message) state)
   | inr None =>
       inr (reply ("I'm having trouble submitting your feedback right now. " ++
                   "Please try again or let me connect you with a representative.") state)
   end, [SubmitFeedback cid feedback_type]).

Definition handle_cheque_book_request (b : Banking) (state : AgentState) (cid : string) : R :=
  answer (RequestChequeBook cid) (cheque_message b cid)
    ("I'm having trouble processing your cheque book request. " ++
     "Let me connect you with a representative who can help.") true state.

(** Always escalates. *)
Definition handle_fraud_report (b : Banking) (state : AgentState) (cid : string) : R :=
  (match fraud_message b cid with
   | inl e => inl e
   | inr message => inr (set_requires_human true (reply message state))
   end, [ReportFraud cid]).

Definition handle_intl_transactions (b : Banking) (state : AgentState) (cid : string)
    (enable : bool) : R :=
  answer (ToggleInternational cid enable) (international_message b cid enable)
    ("I'm having trouble updating your international transaction settings. " ++
     "Please try again or let me connect you with a representative.") false state.

Definition fraud_keywords : list string :=
  ["fraud"; "unauthorized"; "stolen"; "suspicious transaction"; "didn't make"].

Definition menu : string :=
  let nl := Handlers.nl in
  let bullet := Handlers.bullet in
  "I can help you with:" ++ nl ++
  bullet ++ " Check account balance" ++ nl ++
  bullet ++ " View recent transactions" ++ nl ++
  bullet ++ " Request statements" ++ nl ++
  bullet ++ " Check loan information" ++ nl ++
  bullet ++ " View card details and rewards" ++ nl ++
  bullet ++ " Submit feedback" ++ nl ++
  bullet ++ " Update profile information" ++ nl ++ nl ++
  "What would you like to do?".

(** [handle_account_flow]; it reads the customer id from the session
    store. *)
Definition handle_account_flow (b : Banking) (m : Manager) (state : AgentState) : R :=
  if negb (verified state) then
    let auth := auth (metadata state) in
    if just_failed auth then (inr (reply (failed_attempt_message auth) state), [])
    else
      let prompt :=
        if needs_pin auth then "Thanks. Please provide your 4-digit PIN."
        else if needs_customer_id auth then "Thanks. Please provide your Customer ID."
        else
          "I'd be happy to help you check your account information. " ++
          "For your security, I'll need to verify your identity first. " ++
          "Could you please provide your Customer ID and your 4-digit PIN?" in
      (inr (reply prompt state), [])
  else
    let customer_id :=
      match get_session (session_id state) m with
      | Some session => s_customer_id session
      | None => None
      end in
    match customer_id with
    | Some cid =>
        if negb (Security.truthy customer_id) then
          (inr (set_requires_human true
                  (reply ("I'm having trouble verifying your account details. " ++
                          "I'll connect you with a specialist to complete this securely.")
                     state)), [])
        else
          let latest_input := CardFlow.latest_input_of state in
          if any_in fraud_keywords latest_input then handle_fraud_report b state cid
          else if any_in ["cheque"; "checkbook"; "check book"; "chequebook"] latest_input then
            handle_cheque_book_request b state cid
          else if any_in ["international"; "overseas"; "abroad"; "travel"] latest_input then
            let enable := any_in ["enable"; "turn on"; "activate"; "allow"] latest_input in
            let disable := any_in ["disable"; "turn off"; "deactivate"; "block"] latest_input in
            if enable || disable then handle_intl_transactions b state cid enable
            else
              (inr (reply ("Would you like to enable or disable international " ++
                           "transactions on your account?") state), [])
          else if any_in ["balance"; "how much"; "money"] latest_input then
            handle_balance_inquiry b state cid
          else if any_in ["transaction"; "history"; "recent"] latest_input then
            handle_transaction_history b state cid
          else if contains "statement" latest_input then
            handle_statement_request b state cid
          else if any_in ["loan"; "mortgage"; "borrow"] latest_input then
            handle_loan_inquiry b state cid
          else if any_in ["reward"; "points"] latest_input then
            handle_rewards_inquiry b state cid
          else if any_in ["card"; "cards"; "credit card"] latest_input
                  && negb (contains "block" latest_input) then
            handle_card_inquiry b state cid
          else if any_in ["feedback"; "complaint"; "complain"; "praise"; "suggest"] latest_input
          then handle_feedback_submission b state cid latest_input
          else if any_in ["update"; "change"; "address"] latest_input then
            handle_profile_update state
          else (inr (reply menu state), [])
    | None =>
        (inr (set_requires_human true
                (reply ("I'm having trouble verifying your account details. " ++
                        "I'll connect you with a specialist to complete this securely.")
                   state)), [])
    end.

End AccountFlow.

(* ===================================================================== *)
(** ** Scenarios: some turns and the states they start from *)
(* ===================================================================== *)

Module Scenarios.
Import State SessionManager Aux.

(** The outcome handed to the graph for a locked session. *)
Definition locked_outcome : AuthOutcome :=
  {| attempted := false; success := None; remaining_attempts := None;
     auth_locked := true; needs_customer_id := false; needs_pin := false |}.

(** The turn state of a locked, unverified caller who says [text]. *)
Definition locked_state (text : string) : AgentState :=
  {| messages := [HumanMessage text];
     customer_id := None; verified := false;
     current_flow := None; original_intent := None;
     pending_action := None; session_id := "call-1";
     requires_human := false;
     metadata :=
       {| auth := locked_outcome; small_talk := None; awaiting_confirmation := false;
          asked_for_confirmation := false; lock_flow := false;
          force_reroute := false; timestamp := 0 |} |}.

(** The first turn state of a caller who says [text]. *)
Definition fresh_state (text : string) : AgentState :=
  {| messages := [HumanMessage text];
     customer_id := None; verified := false;
     current_flow := None; original_intent := None;
     pending_action := None; session_id := "call-1";
     requires_human := false; metadata := empty_metadata |}.

(** A store with one verified session, and turns of that session. *)
Definition verified_store : Manager :=
  Demo.store_with (Demo.session_with [] None None true).

Definition says (text : string) : Turn :=
  {| t_now := 10; t_session_id := "call-1"; t_input := text |}.

End Scenarios.

(* ===================================================================== *)
(** ** Redaction: no standalone four-digit group survives [redact_pin] *)
(* ===================================================================== *)

Section Redaction.
Import Re Security Aux.










Lemma star_not_digit : is_digit "*" = false.
Proof. reflexivity. Qed.






End Redaction.

(* ===================================================================== *)
(** ** The session store: idle eviction *)
(* ===================================================================== *)

Section Eviction.
Import SessionManager Aux.

Lemma foldl_delete_lookup (l : list string) (ss : gmap string SessionState) (i : string) :
  foldl (fun acc sid => delete sid acc) ss l !! i =
  if decide (i ∈ l) then None else ss !! i.
Proof.
  revert ss. induction l as [|k l IH]; intros ss; cbn [foldl].
  - rewrite decide_False by apply not_elem_of_nil. reflexivity.
  - rewrite IH. destruct (decide (i ∈ l)) as [Hin|Hnin].
    + rewrite decide_True by (apply elem_of_cons; auto). reflexivity.
    + destruct (decide (i = k)) as [->|Hne].
      * rewrite decide_True by (apply elem_of_cons; auto). apply lookup_delete_eq.
      * rewrite decide_False by (rewrite elem_of_cons; tauto).
        apply lookup_delete_ne. congruence.
Qed.

Lemma foldl_delete_size (l : list string) :
  forall ss : gmap string SessionState,
    NoDup l -> (forall k, k ∈ l -> is_Some (ss !! k)) ->
    (size (foldl (fun acc sid => delete sid acc) ss l) + length l = size ss)%nat.
Proof.
  induction l as [|k l IH]; intros ss Hnd Hin; cbn [foldl length].
  - lia.
  - apply NoDup_cons in Hnd as [Hk Hnd].
    assert (Hsome : is_Some (ss !! k)) by (apply Hin, elem_of_cons; auto).
    assert (Hrest : forall j, j ∈ l -> is_Some (delete k ss !! j)).
    { intros j Hj. rewrite lookup_delete_ne.
      - apply Hin, elem_of_cons; auto.
      - intros ->. contradiction. }
    pose proof (IH (delete k ss) Hnd Hrest) as Hsize.
    rewrite map_size_delete_Some in Hsize by exact Hsome.
    destruct Hsome as [x Hx].
    assert (Hpos : size ss <> 0%nat) by (apply (map_size_ne_0_lookup_2 ss k); eauto).
    lia.
Qed.

Lemma elem_of_expired_ids now m sid :
  sid ∈ expired_ids now m <->
  exists s, sessions m !! sid = Some s /\ is_expired (session_timeout m) now s = true.
Proof.
  unfold expired_ids. rewrite list_elem_of_fmap. split.
  - intros ([k s] & -> & Hin). apply list_elem_of_filter in Hin as [Hp Hin].
    apply elem_of_map_to_list in Hin. exists s. cbn in *. split. { exact Hin. } exact Hp.
  - intros (s & Hs & He). exists (sid, s). split; [reflexivity|].
    apply list_elem_of_filter. split; [exact He|]. apply elem_of_map_to_list, Hs.
Qed.

Lemma NoDup_expired_ids now m : NoDup (expired_ids now m).
Proof.
  unfold expired_ids. apply NoDup_fmap_fst.
  - intros k s1 s2 H1 H2.
    apply list_elem_of_filter in H1 as [_ H1]. apply list_elem_of_filter in H2 as [_ H2].
    exact (map_to_list_unique _ _ _ _ H1 H2).
  - apply NoDup_filter, NoDup_map_to_list.
Qed.

End Eviction.

Import SessionManager Aux.
(** C9.  The sweep removes exactly the sessions whose [last_activity] is
    older than the timeout: an expired session is gone and a later [get]
    returns nothing, a session within the timeout (and every absent id) is
    as before, and the number returned is the number of sessions removed. *)
Theorem idle_eviction (now : Q) (m : Manager) :
  let swept := cleanup_expired_sessions now m in
  (forall sid s,
      sessions m !! sid = Some s ->
      is_expired (session_timeout m) now s = true ->
      sessions (fst swept) !! sid = None /\ get_session sid (fst swept) = None) /\
  (forall sid s,
      sessions m !! sid = Some s ->
      is_expired (session_timeout m) now s = false ->
      get_session sid (fst swept) = Some s) /\
  (forall sid, sessions m !! sid = None -> get_session sid (fst swept) = None) /\
  (snd swept + size (sessions (fst swept)) = size (sessions m))%nat /\
  session_timeout (fst swept) = session_timeout m.
Proof.
  cbn zeta. unfold cleanup_expired_sessions, get_session. cbn [fst snd sessions with_sessions].
  fold (expired_ids now m).
  repeat split.
  - rewrite foldl_delete_lookup. rewrite decide_True; [reflexivity|].
    apply elem_of_expired_ids. eauto.
  - rewrite foldl_delete_lookup. rewrite decide_True; [reflexivity|].
    apply elem_of_expired_ids. eauto.
  - intros sid s Hs He. rewrite foldl_delete_lookup. rewrite decide_False; [exact Hs|].
    intros (s' & Hs' & He')%elem_of_expired_ids. congruence.
  - intros sid Hs. rewrite foldl_delete_lookup. destruct (decide _); auto.
  - rewrite Nat.add_comm. apply foldl_delete_size.
    + apply NoDup_expired_ids.
    + intros k (s & Hs & _)%elem_of_expired_ids. eauto.
Qed.

(* ===================================================================== *)
(** ** The graph never touches [verified] *)
(* ===================================================================== *)

Section GraphVerified.
Import State Eff Exceptions Graph Aux.

Variable ext : Collaborators.

Lemma bind_returns {A B} (m : M A) (f : A -> M B) r t :
  (do x <- m ;; f x) = (inr r, t) ->
  exists a t1 t2, m = (inr a, t1) /\ f a = (inr r, t2) /\ t = (t1 ++ t2)%list.
Proof.
  unfold bind. destruct m as [[e|a] t1]; [discriminate|].
  destruct (f a) as [r' t2] eqn:Hf. intros H. inversion H; subst.
  exists a, t1, t2. auto.
Qed.

Ltac split_branches H :=
  repeat match type of H with
         | context [match ?x with _ => _ end] => destruct x eqn:?
         end.

Ltac leaf H :=
  unfold ret, raise, call, bind in H;
  split_branches H;
  try discriminate;
  inversion H; subst; cbn in *; congruence.

Lemma route_intent_keeps : keeps_verified (IntentRouter.route_intent ext).
Proof. intros s r t H. unfold IntentRouter.route_intent in H. leaf H. Qed.

Lemma check_authentication_keeps : keeps_verified AuthGate.check_authentication.
Proof. intros s r t H. unfold AuthGate.check_authentication in H. leaf H. Qed.

Lemma request_verification_keeps : keeps_verified AuthGate.request_verification.
Proof. intros s r t H. unfold AuthGate.request_verification in H. leaf H. Qed.

Lemma handle_greeting_keeps : keeps_verified Handlers.handle_greeting.
Proof. intros s r t H. unfold Handlers.handle_greeting in H. leaf H. Qed.

Lemma handle_stub_flow_keeps : keeps_verified Handlers.handle_stub_flow.
Proof. intros s r t H. unfold Handlers.handle_stub_flow in H. leaf H. Qed.

Lemma handle_account_flow_keeps : keeps_verified (Handlers.handle_account_flow ext).
Proof. intros s r t H. unfold Handlers.handle_account_flow in H. leaf H. Qed.

Lemma route_by_intent_keeps : keeps_verified route_by_intent.
Proof. intros s r t H. unfold route_by_intent in H. leaf H. Qed.

Lemma handle_card_flow_keeps : keeps_verified (CardFlow.handle_card_flow ext).
Proof.
  intros s r t H.
  unfold CardFlow.handle_card_flow, CardFlow.handle_lost_card,
    CardFlow.handle_declined_payment, CardFlow.handle_atm_cash_not_dispensed,
    CardFlow._block_specific_card in H.
  leaf H.
Qed.

Lemma handle_confirmation_keeps : keeps_verified (Confirmation.handle_confirmation ext).
Proof. intros s r t H. unfold Confirmation.handle_confirmation in H. leaf H. Qed.

Lemma node_keeps f : keeps_verified f -> keeps_verified (node f).
Proof.
  intros Hf s r t H. unfold node in H.
  apply bind_returns in H as (a & t1 & t2 & Ha & Hr & _).
  unfold ret in Hr. inversion Hr; subst. cbn. eauto.
Qed.

Lemma agent_graph_keeps : keeps_verified (agent_graph ext).
Proof.
  intros s r t H. unfold agent_graph in H.
  apply bind_returns in H as (s1 & ? & ? & H1 & H & _).
  apply (node_keeps _ route_intent_keeps) in H1. rewrite <- H1.
  destruct (should_handle_small_talk s1).
  { apply (node_keeps _ handle_greeting_keeps) in H. exact H. }
  apply bind_returns in H as (s2 & ? & ? & H2 & H & _).
  apply (node_keeps _ check_authentication_keeps) in H2. rewrite <- H2.
  destruct (should_request_auth s2).
  { apply (node_keeps _ request_verification_keeps) in H. exact H. }
  2:{ unfold ret in H. inversion H; subst. reflexivity. }
  apply bind_returns in H as (s3 & ? & ? & H3 & H & _).
  apply (node_keeps _ route_by_intent_keeps) in H3. rewrite <- H3.
  destruct (route_to_flow s3).
  - apply bind_returns in H as (s4 & ? & ? & H4 & H & _).
    apply (node_keeps _ handle_card_flow_keeps) in H4. rewrite <- H4.
    destruct (should_confirm s4).
    + apply (node_keeps _ handle_confirmation_keeps) in H. exact H.
    + unfold ret in H. inversion H; subst. reflexivity.
  - apply (node_keeps _ handle_account_flow_keeps) in H. exact H.
  - apply (node_keeps _ handle_stub_flow_keeps) in H. exact H.
Qed.

End GraphVerified.

(* ===================================================================== *)
(** ** What one turn does to the session store *)
(* ===================================================================== *)

Section Turns.
Import State Eff Exceptions SessionManager Config VapiRoutes Security Aux.

Variable settings : Settings.
Variable ext : Collaborators.

Lemma same_auth_refl s : same_auth s s.
Proof. unfold same_auth. auto. Qed.

Lemma same_auth_trans a b c : same_auth a b -> same_auth b c -> same_auth a c.
Proof. unfold same_auth. intros (?&?&?) (?&?&?). repeat split; congruence. Qed.

Lemma get_or_create_sessions now sid m :
  sessions (fst (get_or_create_session now sid m)) =
  <[sid := snd (get_or_create_session now sid m)]> (sessions m).
Proof. unfold get_or_create_session. destruct (sessions m !! sid); reflexivity. Qed.

Lemma get_or_create_same_auth now sid m s :
  sessions m !! sid = Some s -> same_auth (snd (get_or_create_session now sid m)) s.
Proof.
  intros H. unfold get_or_create_session. rewrite H. unfold same_auth. cbn. auto.
Qed.

Lemma update_session_lookup now sid u m s :
  sessions m !! sid = Some s ->
  sessions (update_session now sid u m) = <[sid := apply_update now u s]> (sessions m).
Proof. intros H. unfold update_session. rewrite H. reflexivity. Qed.

(** The state built for the graph carries the session's [verified]; the
    store changes at [sid] only, and not in the fields of the auth attempt. *)
Lemma build_state_effect now sid input a m s :
  sessions m !! sid = Some s ->
  let built := build_state ext now sid input a m in
  verified (snd built) = s_verified s /\
  exists s', sessions (fst built) = <[sid := s']> (sessions m) /\ same_auth s' s.
Proof.
  intros Hs. cbn zeta. unfold build_state.
  pose proof (get_or_create_sessions now sid m) as Hg.
  pose proof (get_or_create_same_auth now sid m s Hs) as Ha.
  destruct (get_or_create_session now sid m) as [m1 session]. cbn [fst snd] in *.
  destruct (truthy (s_original_intent session) && s_verified session &&
            (length (recent_history (conversation_history session)) <=? 4)%nat).
  - cbn [fst snd]. split; [cbn; apply Ha|].
    erewrite update_session_lookup by (rewrite Hg; apply lookup_insert_eq).
    rewrite Hg, insert_insert_eq. eexists. split; [reflexivity|].
    eapply same_auth_trans; [|exact Ha]. unfold same_auth. cbn. auto.
  - cbn [fst snd]. split; [cbn; apply Ha|]. exists session. auto.
Qed.

Lemma fold_result_effect now sid result m s :
  sessions m !! sid = Some s ->
  verified result = s_verified s ->
  exists s', sessions (fst (fold_result now sid result m)) = <[sid := s']> (sessions m)
             /\ same_auth s' s.
Proof.
  intros Hs Hv. unfold fold_result. rewrite Hs. cbn [from_option].
  set (save := is_auth_request result && truthy (current_flow result) && negb (s_verified s)).
  destruct save.
  - match goal with
    | |- context [update_session now sid ?u m] =>
        pose proof (update_session_lookup now sid u m s Hs) as HA;
        set (mA := update_session now sid u m) in *
    end.
    assert (HsA : sessions mA !! sid = Some (apply_update now
              {| u_verified := None; u_customer_id := None;
                 increment_auth_attempts := false; u_current_flow := None;
                 u_original_intent := Some (current_flow result);
                 u_pending_action := None; u_awaiting_confirmation := None;
                 u_requires_human := None; u_locked := None;
                 u_conversation_history := None; u_last_intent_message := None |} s))
      by (rewrite HA; apply lookup_insert_eq).
    rewrite HsA. cbn [from_option fst].
    erewrite update_session_lookup by exact HsA.
    rewrite HA, insert_insert_eq. eexists. split; [reflexivity|].
    unfold same_auth. cbn. auto.
  - rewrite Hs. cbn [from_option fst].
    erewrite update_session_lookup by exact Hs.
    eexists. split; [reflexivity|]. unfold same_auth. cbn. auto.
Qed.

Lemma run_agent_effect now sid input a m s :
  sessions m !! sid = Some s ->
  exists s', sessions (fst (_run_agent ext now sid input a m)) = <[sid := s']> (sessions m)
             /\ same_auth s' s.
Proof.
  intros Hs. unfold _run_agent.
  destruct (build_state_effect now sid input a m s Hs) as (Hv & s1 & Hm1 & Ha1).
  destruct (build_state ext now sid input a m) as [m1 st]. cbn [fst snd] in *.
  destruct (Graph.agent_graph ext st) as [[e|result] t] eqn:Hg.
  - cbn [fst]. eauto.
  - apply agent_graph_keeps in Hg.
    assert (Hs1 : sessions m1 !! sid = Some s1) by (rewrite Hm1; apply lookup_insert_eq).
    destruct (fold_result_effect now sid result m1 s1 Hs1) as (s2 & Hm2 & Ha2).
    { destruct Ha1 as (-> & _). congruence. }
    destruct (fold_result now sid result m1) as [m2 resp]. cbn [fst] in *.
    exists s2. split.
    + rewrite Hm2, Hm1, insert_insert_eq. reflexivity.
    + eapply same_auth_trans; eauto.
Qed.

(** One turn: only the entry of [sid] changes; in the fields of the auth
    attempt it is what [_process_auth_attempt] left, or the session as found
    if the verifier raised. *)
Lemma process_turn_effect now sid raw m :
  let s0 := snd (get_or_create_session now sid m) in
  exists s', sessions (fst (process_turn settings ext now sid raw m)) =
             <[sid := s']> (sessions m) /\
    match _process_auth_attempt settings ext s0 raw with
    | (inr (s1, _), _) => same_auth s' s1
    | (inl _, _) => s' = s0
    end.
Proof.
  cbn zeta. unfold process_turn.
  pose proof (get_or_create_sessions now sid m) as Hg.
  destruct (get_or_create_session now sid m) as [m1 s0]. cbn [fst snd] in *.
  destruct (_process_auth_attempt settings ext s0 raw) as [[e|[s1 a]] t].
  - cbn [fst]. eauto.
  - cbv zeta.
    match goal with
    | |- context [_run_agent ext now sid ?i a ?mm] => set (input := i); set (m2 := mm)
    end.
    set (s2 := if negb (attempted a || needs_pin a || needs_customer_id a)
               then set_last_intent_message (Some (redact_sensitive_text raw)) s1
               else s1) in *.
    assert (H2 : sessions m2 !! sid = Some s2) by apply lookup_insert_eq.
    destruct (run_agent_effect now sid input a m2 s2 H2) as (s3 & Hm3 & Ha3).
    destruct (_run_agent ext now sid input a m2) as [m3 [r t']]. cbn [fst] in *.
    exists s3. split.
    + rewrite Hm3. subst m2. cbn [sessions with_sessions].
      rewrite Hg, !insert_insert_eq. reflexivity.
    + eapply same_auth_trans; [exact Ha3|]. subst s2.
      destruct (negb _); unfold same_auth; cbn; auto.
Qed.

End Turns.

(* ===================================================================== *)
(** ** The authentication attempt *)
(* ===================================================================== *)

Section AuthAttempt.
Import State Eff Exceptions SessionManager Config VapiRoutes Security Aux.

Variable settings : Settings.
Variable ext : Collaborators.

(** What the attempt does once a pair is complete. *)
Lemma attempt_of_submitted session raw cid pin :
  Submits session raw cid pin ->
  s_verified session = false ->
  _process_auth_attempt settings ext session raw =
  let auth := initial_auth session in
  if locked session || (MAX_AUTH_ATTEMPTS settings <=? auth_attempts session)%Z then
    ret (set_locked true session, attempt_result auth false None true)
  else
    do is_verified <- call (VerifyIdentity cid pin) (verify_identity ext cid pin) ;;
    if (is_verified : bool) then
      ret (mark_verified cid session, attempt_result auth true None (auth_locked auth))
    else
      let session := set_auth_attempts (auth_attempts session + 1) session in
      let remaining := Z.max 0 (MAX_AUTH_ATTEMPTS settings - auth_attempts session) in
      if (remaining =? 0)%Z then
        ret (set_locked true session, attempt_result auth false (Some remaining) true)
      else
        ret (session, attempt_result auth false (Some remaining) (auth_locked auth)).
Proof.
  intros Hs Hv. unfold _process_auth_attempt. rewrite Hv.
  destruct Hs as [cid pin He Hc Hp | c cid pin He Hc Hp Hpend Hpc | n p cid He Hn Hp Hpend Hpc];
    rewrite He; cbn zeta.
  all: rewrite ?Hpend.
  all: repeat (progress (rewrite ?Hc, ?Hp, ?Hpc, ?Hn, ?andb_false_r, ?andb_true_r;
                        cbn [andb negb orb]; cbv beta iota zeta)).
  all: reflexivity.
Qed.

End AuthAttempt.

Section TurnInvariants.
Import State Eff Exceptions SessionManager Config VapiRoutes Security Aux.

Variable settings : Settings.
Variable ext : Collaborators.

Ltac split_branches H :=
  repeat match type of H with
         | context [match ?x with _ => _ end] => destruct x eqn:?
         end.

(** Every exit of the attempt, at once: a locked session stays locked
    and unverified and the verifier is not consulted for it; the counter
    stays within its bounds; a session is never both locked and verified. *)
Lemma attempt_exits s raw s1 a t :
  _process_auth_attempt settings ext s raw = (inr (s1, a), t) ->
  (locked s = true ->
     locked s1 = true /\ s_verified s1 = s_verified s /\ t = [] /\
     auth_attempts s1 = auth_attempts s) /\
  ((0 <= auth_attempts s <= MAX_AUTH_ATTEMPTS settings)%Z ->
     (0 <= auth_attempts s1 <= MAX_AUTH_ATTEMPTS settings)%Z) /\
  ((locked s = true -> s_verified s = false) ->
     (locked s1 = true -> s_verified s1 = false)).
Proof.
  intros H. unfold _process_auth_attempt in H.
  destruct (extract_credentials raw) as [c p].
  unfold ret, call, bind in H.
  repeat match goal with
         | H : context [match ?x with _ => _ end] |- _ => destruct x eqn:?
         end; try discriminate; simplify_eq; cbn in *.
  all: repeat match goal with
       | E : (_ || _) = true |- _ => apply orb_true_iff in E
       | E : (_ || _) = false |- _ => apply orb_false_iff in E as [? ?]
       | E : (_ <=? _)%Z = true |- _ => apply Z.leb_le in E
       | E : (_ <=? _)%Z = false |- _ => apply Z.leb_gt in E
       | E : (_ =? _)%Z = true |- _ => apply Z.eqb_eq in E
       | E : (_ =? _)%Z = false |- _ => apply Z.eqb_neq in E
       end.
  all: intuition (try congruence; try lia).
Qed.

Lemma new_session_auth now sid :
  locked (new_session now sid) = false /\ s_verified (new_session now sid) = false /\
  auth_attempts (new_session now sid) = 0%Z.
Proof. cbn. auto. Qed.

(** A property of the fields owned by the attempt, true of a fresh session
    and kept by the attempt, is kept by a whole turn. *)
Lemma turn_preserves (P : SessionState -> Prop) :
  (forall a b, same_auth a b -> P b -> P a) ->
  (forall now sid, P (new_session now sid)) ->
  (forall s raw s1 a t,
      P s -> _process_auth_attempt settings ext s raw = (inr (s1, a), t) -> P s1) ->
  forall now sid raw m,
    (forall k s, sessions m !! k = Some s -> P s) ->
    forall k s, sessions (fst (process_turn settings ext now sid raw m)) !! k = Some s -> P s.
Proof.
  intros Hview Hnew Hstep now sid raw m Hm k s Hk.
  destruct (process_turn_effect settings ext now sid raw m) as (s' & Hm' & Hs').
  rewrite Hm' in Hk. destruct (decide (k = sid)) as [->|Hne].
  2:{ rewrite lookup_insert_ne in Hk by congruence. eauto. }
  rewrite lookup_insert_eq in Hk. inversion Hk; subst s'. clear Hk.
  assert (H0 : P (snd (get_or_create_session now sid m))).
  { unfold get_or_create_session. destruct (sessions m !! sid) as [s0|] eqn:E; cbn [snd].
    - eapply Hview; [|eapply Hm; exact E]. unfold same_auth. cbn. auto.
    - apply Hnew. }
  destruct (_process_auth_attempt settings ext _ raw) as [[e|[s1 a]] t] eqn:Ha.
  - subst s. exact H0.
  - eapply Hview; [exact Hs'|]. eapply Hstep; eauto.
Qed.



Lemma turns_preserve (P : SessionState -> Prop) :
  (forall a b, same_auth a b -> P b -> P a) ->
  (forall now sid, P (new_session now sid)) ->
  (forall s raw s1 a t,
      P s -> _process_auth_attempt settings ext s raw = (inr (s1, a), t) -> P s1) ->
  forall turns m,
    (forall k s, sessions m !! k = Some s -> P s) ->
    forall k s, sessions (run_turns settings ext turns m) !! k = Some s -> P s.
Proof.
  intros Hview Hnew Hstep turns.
  induction turns as [|t turns IH]; intros m Hm; cbn [run_turns foldl].
  - exact Hm.
  - apply IH. apply (turn_preserves P Hview Hnew Hstep). exact Hm.
Qed.

End TurnInvariants.

(* ===================================================================== *)
(** ** Claims about the authentication gate *)
(* ===================================================================== *)

Import State Eff Exceptions SessionManager Config VapiRoutes Security Aux.



(** C3.  Failed-attempt accounting.  For an unverified, unlocked session
    below the maximum, a complete pair that the verifier rejects adds one
    to the counter, reports [max(0, MAX_AUTH_ATTEMPTS - attempts)], and
    locks exactly when that count is 0; for a session already locked or at
    the maximum the verifier is not called and the outcome is locked and
    unsuccessful; and over any sequence of turns the counter stays between
    0 and the maximum. *)
Theorem failed_attempt_accounting (settings : Settings) (ext : Collaborators) :
  (forall session raw cid pin,
      Submits session raw cid pin ->
      s_verified session = false -> locked session = false ->
      (auth_attempts session < MAX_AUTH_ATTEMPTS settings)%Z ->
      verify_identity ext cid pin = inr false ->
      exists session' auth,
        _process_auth_attempt settings ext session raw =
          (inr (session', auth), [VerifyIdentity cid pin])
        /\ auth_attempts session' = (auth_attempts session + 1)%Z
        /\ remaining_attempts auth =
             Some (Z.max 0 (MAX_AUTH_ATTEMPTS settings - auth_attempts session'))
        /\ attempted auth = true /\ success auth = Some false
        /\ (locked session' = true <->
            Z.max 0 (MAX_AUTH_ATTEMPTS settings - auth_attempts session') = 0%Z)
        /\ auth_locked auth = locked session') /\
  (forall session raw cid pin,
      Submits session raw cid pin ->
      s_verified session = false ->
      locked session = true \/ (MAX_AUTH_ATTEMPTS settings <= auth_attempts session)%Z ->
      exists session' auth,
        _process_auth_attempt settings ext session raw = (inr (session', auth), [])
        /\ locked session' = true /\ auth_locked auth = true
        /\ attempted auth = true /\ success auth = Some false
        /\ auth_attempts session' = auth_attempts session) /\
  (forall turns m,
      (0 <= MAX_AUTH_ATTEMPTS settings)%Z ->
      (forall sid s, sessions m !! sid = Some s ->
                     (0 <= auth_attempts s <= MAX_AUTH_ATTEMPTS settings)%Z) ->
      forall sid s,
        sessions (run_turns settings ext turns m) !! sid = Some s ->
        (0 <= auth_attempts s <= MAX_AUTH_ATTEMPTS settings)%Z).
Proof.
  split; [|split].
  - intros session raw cid pin Hs Hv Hl Hlt Hno.
    rewrite (attempt_of_submitted settings ext session raw cid pin Hs Hv).
    cbn zeta. rewrite Hl. cbn [orb].
    rewrite (proj2 (Z.leb_gt _ _) Hlt).
    unfold call, bind, ret. rewrite Hno. cbn [auth_attempts set_auth_attempts].
    destruct (Z.max 0 (MAX_AUTH_ATTEMPTS settings - (auth_attempts session + 1)) =? 0)%Z
      eqn:E.
    + apply Z.eqb_eq in E. do 2 eexists. split; [reflexivity|]. cbn.
      repeat split; auto.
    + apply Z.eqb_neq in E. do 2 eexists. split; [reflexivity|]. cbn.
      rewrite Hl. repeat split; auto; intros; congruence.
  - intros session raw cid pin Hs Hv Hlock.
    rewrite (attempt_of_submitted settings ext session raw cid pin Hs Hv).
    cbn zeta.
    assert (E : locked session || (MAX_AUTH_ATTEMPTS settings <=? auth_attempts session)%Z = true).
    { apply orb_true_iff. destruct Hlock as [H|H]; [left; exact H|right].
      apply Z.leb_le. exact H. }
    rewrite E. do 2 eexists. split; [reflexivity|]. cbn. auto.
  - intros turns m Hmax Hm.
    apply (turns_preserve settings ext
             (fun s => (0 <= auth_attempts s <= MAX_AUTH_ATTEMPTS settings)%Z)).
    + intros a b (_ & _ & Ha) Hb. rewrite Ha. exact Hb.
    + intros now sid. cbn. lia.
    + intros s raw s1 a t Hs Ha. apply attempt_exits in Ha as (_ & Ha & _). auto.
    + exact Hm.
Qed.

Lemma failed_attempt_accounting_witness :
  exists session' auth,
    _process_auth_attempt defaults Demo.ext (new_session 0 "call-1")
      "my id is 1 and pin is 1001" = (inr (session', auth), [VerifyIdentity "1" "1001"])
    /\ auth_attempts session' = (auth_attempts (new_session 0 "call-1") + 1)%Z
    /\ remaining_attempts auth =
         Some (Z.max 0 (MAX_AUTH_ATTEMPTS defaults - auth_attempts session'))
    /\ attempted auth = true /\ success auth = Some false
    /\ (locked session' = true <->
        Z.max 0 (MAX_AUTH_ATTEMPTS defaults - auth_attempts session') = 0%Z)
    /\ auth_locked auth = locked session'.
Proof.
  apply (proj1 (failed_attempt_accounting defaults Demo.ext)
           (new_session 0 "call-1") "my id is 1 and pin is 1001" "1" "1001").
  - apply submits_both; vm_compute; reflexivity.
  - reflexivity.
  - reflexivity.
  - reflexivity.
  - reflexivity.
Defined.

Import State Eff Exceptions SessionManager Config VapiRoutes Security Aux.

(** C5, as amended.  For an unverified session: a lone PIN after a pending
    id completes the pair, which goes to the lockout check and, past it, to
    the verifier; a lone number after a pending id is taken as the PIN in
    the same way; a lone id with nothing pending is stored as pending and
    [needs_pin] is set; a lone PIN with nothing pending sets
    [needs_customer_id] and leaves the session as it was: the PIN is kept
    nowhere.  In the last two cases the verifier is not contacted. *)
Theorem credential_completion (settings : Settings) (ext : Collaborators) :
  (forall session raw cid pin,
      Submits session raw cid pin -> s_verified session = false ->
      calls (_process_auth_attempt settings ext session raw) =
        if locked session || (MAX_AUTH_ATTEMPTS settings <=? auth_attempts session)%Z
        then [] else [VerifyIdentity cid pin]) /\
  (forall session raw c cid pin,
      extract_credentials raw = (c, Some pin) ->
      truthy c = false -> truthy (Some pin) = true ->
      pending_customer_id session = Some cid -> truthy (Some cid) = true ->
      Submits session raw cid pin) /\
  (forall session raw cid p,
      extract_credentials raw = (Some cid, p) ->
      truthy (Some cid) = true -> truthy p = false ->
      truthy (pending_customer_id session) = false -> s_verified session = false ->
      _process_auth_attempt settings ext session raw =
        (inr (set_pending_customer_id (Some cid) session,
              with_needs_pin (initial_auth session)), [])) /\
  (forall session raw c pin,
      extract_credentials raw = (c, Some pin) ->
      truthy c = false -> truthy (Some pin) = true ->
      truthy (pending_customer_id session) = false -> s_verified session = false ->
      _process_auth_attempt settings ext session raw =
        (inr (session, with_needs_customer_id (initial_auth session)), [])).
Proof.
  split; [|split; [|split]].
  - intros session raw cid pin Hs Hv.
    rewrite (attempt_of_submitted settings ext session raw cid pin Hs Hv). cbn zeta.
    destruct (locked session || _); [reflexivity|].
    unfold call, bind, ret, calls.
    destruct (verify_identity ext cid pin) as [e|[|]]; try reflexivity.
    cbn [auth_attempts set_auth_attempts]. destruct (_ =? _)%Z; reflexivity.
  - intros session raw c cid pin He Hc Hp Hpend Hpc.
    eapply submits_lone_pin; eauto.
  - intros session raw cid p He Hc Hp Hpend Hv.
    unfold _process_auth_attempt. rewrite Hv, He. cbn zeta.
    repeat (progress (rewrite ?Hpend, ?Hc, ?Hp, ?andb_false_r, ?andb_true_r;
                      cbn [andb negb orb]; cbv beta iota zeta)).
    reflexivity.
  - intros session raw c pin He Hc Hp Hpend Hv.
    unfold _process_auth_attempt. rewrite Hv, He. cbn zeta.
    repeat (progress (rewrite ?Hpend, ?Hc, ?Hp, ?andb_false_r, ?andb_true_r;
                      cbn [andb negb orb]; cbv beta iota zeta)).
    reflexivity.
Qed.

Lemma credential_completion_witness :
  calls (_process_auth_attempt defaults Demo.ext Demo.pending_session "my pin is 1000") =
    (if locked Demo.pending_session
        || (MAX_AUTH_ATTEMPTS defaults <=? auth_attempts Demo.pending_session)%Z
     then [] else [VerifyIdentity "1" "1000"])
  /\ _process_auth_attempt defaults Demo.ext (new_session 0 "call-1") "my id is 1" =
       (inr (set_pending_customer_id (Some "1") (new_session 0 "call-1"),
             with_needs_pin (initial_auth (new_session 0 "call-1"))), []).
Proof.
  split.
  - apply (proj1 (credential_completion defaults Demo.ext)); [|reflexivity].
    apply (proj1 (proj2 (credential_completion defaults Demo.ext))) with (c := None);
      [vm_compute; reflexivity | reflexivity ..].
  - apply (proj1 (proj2 (proj2 (credential_completion defaults Demo.ext))))
      with (p := None); [vm_compute; reflexivity | reflexivity ..].
Defined.

(** C5, the claim as stated fails: a lone PIN followed by a lone id, both
    right for the verifier, does not complete the pair.  The first turn
    keeps nothing; the second stores the id, asks for the PIN again, and
    the verifier is not called. *)
Lemma solo_id_after_solo_pin_not_completed :
  extract_credentials "my pin is 1000" = (None, Some "1000") /\
  extract_credentials "my id is 1" = (Some "1", None) /\
  verify_identity Demo.ext "1" "1000" = inr true /\
  let fresh := new_session 0 "call-1" in
  _process_auth_attempt defaults Demo.ext fresh "my pin is 1000" =
    (inr (fresh, with_needs_customer_id (initial_auth fresh)), []) /\
  _process_auth_attempt defaults Demo.ext fresh "my id is 1" =
    (inr (set_pending_customer_id (Some "1") fresh,
          {| attempted := false; success := None; remaining_attempts := None;
             auth_locked := false; needs_customer_id := false; needs_pin := true |}),
     []).
Proof. repeat split; vm_compute; reflexivity. Qed.

Import Re VoiceUtils Security SessionManager Aux.

Lemma idle_eviction_witness :
  (sessions (fst (cleanup_expired_sessions 1000 Demo.two_sessions)) !! "idle" = None
   /\ get_session "idle" (fst (cleanup_expired_sessions 1000 Demo.two_sessions)) = None)
  /\ get_session "active" (fst (cleanup_expired_sessions 1000 Demo.two_sessions))
     = Some Demo.active_session.
Proof.
  split.
  - apply (proj1 (idle_eviction 1000 Demo.two_sessions) "idle" Demo.idle_session).
    + vm_compute; reflexivity.
    + vm_compute; reflexivity.
  - apply (proj1 (proj2 (idle_eviction 1000 Demo.two_sessions)) "active" Demo.active_session).
    + vm_compute; reflexivity.
    + vm_compute; reflexivity.
Defined.

(* ===================================================================== *)
(** ** Claims about extraction and redaction *)
(* ===================================================================== *)

(** C6.  The reference vectors of the credential extractor: a labelled id
    and PIN; the same spoken, after the number words are turned to digits;
    a labelled PIN of six digits cut to its first four; and a text without
    credentials. *)
Theorem extract_credentials_vectors :
  extract_credentials "my id is 1 and pin is 1000" = (Some "1", Some "1000") /\
  normalize_spoken_digits "id is one and pin is one zero zero zero" =
    "id is 1 and pin is 1 0 0 0" /\
  extract_credentials "id is one and pin is one zero zero zero" = (Some "1", Some "1000") /\
  _digits_after_label "id 10 pin 123456" pin_label = Some "123456" /\
  extract_credentials "id 10 pin 123456" = (Some "10", Some "1234") /\
  extract_credentials "hello how are you" = (None, None).
Proof. repeat split; vm_compute; reflexivity. Qed.



(* ===================================================================== *)
(** ** Claims about routing and confirmation *)
(* ===================================================================== *)

Import Re State Eff Exceptions Security IntentRouter Confirmation Graph.

(** An utterance with the word "card" in it is not small talk. *)
Lemma card_is_not_small_talk latest_input :
  contains "card" latest_input = true -> small_talk_of latest_input = None.
Proof.
  intros H. unfold small_talk_of, intent_keywords, any_in. cbn [existsb].
  rewrite H. reflexivity.
Qed.

(** C7, as amended.  When the state has a flow, no reroute is forced, the
    utterance holds no topic-change phrase and the quick small-talk
    detection does not fire, [route_intent] returns the state as it is and
    asks no classifier.  An utterance with "card" in it never counts as
    small talk, so for it the flow is kept under the first three
    conditions alone. *)
Theorem sticky_routing (ext : Collaborators) (state : AgentState) (user_content : string) :
  latest_human (messages state) = Some user_content ->
  truthy (current_flow state) = true ->
  force_reroute (metadata state) = false ->
  any_in topic_change_keywords (strip (lower user_content)) = false ->
  (small_talk_of (strip (lower user_content)) = None ->
   route_intent ext state = (inr state, [])) /\
  (contains "card" (strip (lower user_content)) = true ->
   route_intent ext state = (inr state, [])).
Proof.
  intros Hm Hf Hr Ht.
  assert (H : small_talk_of (strip (lower user_content)) = None ->
              route_intent ext state = (inr state, [])).
  { intros Hs. unfold route_intent. rewrite Hm, Hs, Hf, Hr, Ht. reflexivity. }
  split; [exact H|]. intros Hc. apply H, card_is_not_small_talk, Hc.
Qed.

Lemma sticky_routing_witness :
  route_intent Demo.ext (Demo.servicing_state "and what about my card limit") =
  (inr (Demo.servicing_state "and what about my card limit"), []).
Proof.
  apply (proj2 (sticky_routing Demo.ext
                  (Demo.servicing_state "and what about my card limit")
                  "and what about my card limit"
                  eq_refl eq_refl eq_refl eq_refl)).
  vm_compute; reflexivity.
Defined.

(** C7, the claim as stated fails: in the account-servicing flow, with no
    reroute forced, the utterance "hello" holds no topic-change phrase, yet
    the small-talk detection runs first and the flow is dropped. *)
Lemma greeting_drops_the_flow :
  let state := Demo.servicing_state "hello" in
  truthy (current_flow state) = true /\
  force_reroute (metadata state) = false /\
  any_in topic_change_keywords (strip (lower "hello")) = false /\
  exists state',
    route_intent Demo.ext state = (inr state', []) /\
    current_flow state' = None /\
    small_talk (metadata state') = Some "greeting".
Proof.
  cbn zeta. repeat split; try (vm_compute; reflexivity).
  eexists. split; [vm_compute; reflexivity|]. split; reflexivity.
Qed.

Lemma append_cons c (s t : string) : String c s ++ t = String c (s ++ t).
Proof. reflexivity. Qed.

Lemma append_nil (t : string) : "" ++ t = t.
Proof. reflexivity. Qed.







(** C4.  With a pending action on an unverified state the confirmation
    handler raises [VerificationRequiredError]: it returns no state, so no
    reply joins the conversation and no field is written, and it calls no
    collaborator, so nothing is executed.  The graph node built on it
    raises the same way, and [_run_agent] then leaves the store as it was
    when the graph was entered: the result is not folded into the session. *)
Theorem unverified_confirmation_raises (ext : Collaborators) (state : AgentState)
    (pending : PendingAction) :
  pending_action state = Some pending ->
  verified state = false ->
  handle_confirmation ext state =
    (inl (VerificationRequiredError "Confirmation requires verification"), []) /\
  node (handle_confirmation ext) state =
    (inl (VerificationRequiredError "Confirmation requires verification"), []) /\
  (forall now sid input a m e t,
      agent_graph ext (snd (VapiRoutes.build_state ext now sid input a m)) = (inl e, t) ->
      VapiRoutes._run_agent ext now sid input a m =
        (fst (VapiRoutes.build_state ext now sid input a m), (inl e, t))).
Proof.
  intros Hp Hv.
  assert (H : handle_confirmation ext state =
              (inl (VerificationRequiredError "Confirmation requires verification"), [])).
  { unfold handle_confirmation. rewrite Hp, Hv. reflexivity. }
  split; [exact H|]. split.
  - unfold node, bind. rewrite H. reflexivity.
  - intros now sid input a m e t Hg. unfold VapiRoutes._run_agent.
    destruct (VapiRoutes.build_state ext now sid input a m) as [m1 st]. cbn [fst snd] in *.
    rewrite Hg. reflexivity.
Qed.

Lemma unverified_confirmation_raises_witness :
  handle_confirmation Demo.ext (Demo.awaiting_state false "yes") =
    (inl (VerificationRequiredError "Confirmation requires verification"), []).
Proof.
  apply (proj1 (unverified_confirmation_raises Demo.ext (Demo.awaiting_state false "yes")
                  Demo.block_debit eq_refl eq_refl)).
Defined.

(* ===================================================================== *)
(** ** Claims about the flow saved across authentication *)
(* ===================================================================== *)

Import Re State Eff Exceptions Security SessionManager VapiRoutes IntentRouter.





(* ===================================================================== *)
(** ** More on the session store *)
(* ===================================================================== *)

Section StoreLaws.
Import State SessionManager Aux Security.

(** X1.  [get_or_create_session] and [get_session] round-trip: the session
    returned is the one stored; an existing session comes back with only
    [last_activity] refreshed and the store keeps its size; an unknown id
    gets a fresh session and the store grows by one; no other entry
    changes. *)
Theorem get_or_create_roundtrip (now : Q) (sid : string) (m : Manager) :
  let r := get_or_create_session now sid m in
  get_session sid (fst r) = Some (snd r) /\
  (forall k, k <> sid -> get_session k (fst r) = get_session k m) /\
  (forall s, get_session sid m = Some s ->
             snd r = set_last_activity now s /\
             size (sessions (fst r)) = size (sessions m)) /\
  (get_session sid m = None ->
   snd r = new_session now sid /\
   size (sessions (fst r)) = S (size (sessions m))) /\
  session_timeout (fst r) = session_timeout m.
Proof.
  cbn zeta. unfold get_session.
  pose proof (get_or_create_sessions now sid m) as Hg.
  repeat split.
  - rewrite Hg. apply lookup_insert_eq.
  - intros k Hk. rewrite Hg. apply lookup_insert_ne. congruence.
  - unfold get_or_create_session. rewrite H. reflexivity.
  - rewrite Hg. apply map_size_insert_Some. eauto.
  - unfold get_or_create_session. rewrite H. reflexivity.
  - rewrite Hg. apply map_size_insert_None. exact H.
  - unfold get_or_create_session. destruct (sessions m !! sid); reflexivity.
Qed.

(** X2.  [update_session] is a partial update: for a stored session each
    keyword left at [_UNSET] keeps the field, each keyword given replaces
    it, [last_activity] is refreshed, and the fields with no keyword
    (session id, creation time, pending id) stay; no other session changes;
    for an unknown id the call does nothing and creates no session. *)
Theorem update_session_partial (now : Q) (sid : string) (u : Update) (m : Manager) :
  (forall s, get_session sid m = Some s ->
     exists s',
       get_session sid (update_session now sid u m) = Some s' /\
       s_verified s' = default (s_verified s) (u_verified u) /\
       s_customer_id s' = default (s_customer_id s) (u_customer_id u) /\
       s_current_flow s' = default (s_current_flow s) (u_current_flow u) /\
       s_original_intent s' = default (s_original_intent s) (u_original_intent u) /\
       s_pending_action s' = default (s_pending_action s) (u_pending_action u) /\
       s_awaiting_confirmation s' =
         default (s_awaiting_confirmation s) (u_awaiting_confirmation u) /\
       s_requires_human s' = default (s_requires_human s) (u_requires_human u) /\
       locked s' = default (locked s) (u_locked u) /\
       conversation_history s' =
         default (conversation_history s) (u_conversation_history u) /\
       last_intent_message s' =
         default (last_intent_message s) (u_last_intent_message u) /\
       auth_attempts s' =
         (if increment_auth_attempts u then auth_attempts s + 1 else auth_attempts s)%Z /\
       last_activity s' = now /\
       s_session_id s' = s_session_id s /\ created_at s' = created_at s /\
       pending_customer_id s' = pending_customer_id s) /\
  (forall k, k <> sid ->
     get_session k (update_session now sid u m) = get_session k m) /\
  (get_session sid m = None -> update_session now sid u m = m) /\
  size (sessions (update_session now sid u m)) = size (sessions m).
Proof.
  unfold get_session. repeat split.
  - intros s Hs. rewrite (update_session_lookup now sid u m s Hs).
    rewrite lookup_insert_eq. eexists. split; [reflexivity|]. cbn.
    repeat split; reflexivity.
  - intros k Hk. unfold update_session.
    destruct (sessions m !! sid) eqn:E; [|reflexivity].
    cbn. apply lookup_insert_ne. congruence.
  - intros H. unfold update_session. rewrite H. reflexivity.
  - unfold update_session. destruct (sessions m !! sid) eqn:E; [|reflexivity].
    cbn. apply map_size_insert_Some. eauto.
Qed.

(** X3.  [reset_session] returns the number of sessions it deleted: with the
    id of a stored session that one entry goes and the rest stay, with an
    unknown id nothing changes and the count is 0, and with no id, or with
    the empty string, every session goes.  The session that a later contact
    creates under a deleted id is fresh: unlocked, unverified, no failed
    attempt. *)
Theorem reset_session_counts (session_id : option string) (m : Manager) :
  let r := reset_session session_id m in
  (snd r + size (sessions (fst r)) = size (sessions m))%nat /\
  (forall sid, session_id = Some sid -> sid <> "" ->
     get_session sid (fst r) = None /\
     (forall k, k <> sid -> get_session k (fst r) = get_session k m) /\
     snd r = match get_session sid m with Some _ => 1%nat | None => 0%nat end) /\
  (truthy session_id = false -> sessions (fst r) = ∅) /\
  (forall now sid, session_id = Some sid ->
     snd (get_or_create_session now sid (fst r)) = new_session now sid).
Proof.
  cbn zeta. unfold get_session.
  assert (Hne : forall sid, sid <> "" -> truthy (Some sid) = true).
  { intros sid H. cbn. apply negb_true_iff, String.eqb_neq. exact H. }
  repeat split.
  - unfold reset_session. destruct (truthy session_id) eqn:Ht.
    + destruct session_id as [sid|]; [|discriminate].
      destruct (sessions m !! sid) eqn:E; cbn [fst snd sessions with_sessions]; [|lia].
      rewrite map_size_delete_Some by eauto.
      assert (size (sessions m) <> 0%nat) by (apply (map_size_ne_0_lookup_2 _ sid); eauto).
      lia.
    + cbn [fst snd sessions with_sessions]. rewrite map_size_empty. lia.
  - subst. unfold reset_session. rewrite (Hne sid H0).
    destruct (sessions m !! sid) eqn:E; cbn [fst sessions with_sessions].
    + apply lookup_delete_eq.
    + exact E.
  - intros k Hk. subst. unfold reset_session. rewrite (Hne sid H0).
    destruct (sessions m !! sid) eqn:E; cbn [fst sessions with_sessions]; [|reflexivity].
    apply lookup_delete_ne. congruence.
  - subst. unfold reset_session. rewrite (Hne sid H0).
    destruct (sessions m !! sid); reflexivity.
  - intros Ht. unfold reset_session. rewrite Ht. reflexivity.
  - intros now sid ->. unfold reset_session, get_or_create_session.
    destruct (truthy (Some sid)) eqn:Ht.
    + destruct (sessions m !! sid) eqn:E; cbn [fst sessions with_sessions].
      * rewrite lookup_delete_eq. reflexivity.
      * rewrite E. reflexivity.
    + cbn [fst sessions with_sessions]. rewrite lookup_empty. reflexivity.
Qed.

Lemma expired_ids_after_sweep now m :
  expired_ids now (fst (cleanup_expired_sessions now m)) = [].
Proof.
  destruct (expired_ids now (fst (cleanup_expired_sessions now m))) as [|k l] eqn:E;
    [reflexivity|exfalso].
  assert (Hk : k ∈ expired_ids now (fst (cleanup_expired_sessions now m)))
    by (rewrite E; apply elem_of_cons; auto).
  apply elem_of_expired_ids in Hk as (s & Hs & He).
  unfold cleanup_expired_sessions in Hs, He. cbn [fst sessions session_timeout with_sessions] in Hs, He.
  fold (expired_ids now m) in Hs.
  rewrite foldl_delete_lookup in Hs. destruct (decide (k ∈ expired_ids now m)) as [Hin|Hnin];
    [discriminate|].
  apply Hnin, elem_of_expired_ids. eauto.
Qed.

(** X4.  A second sweep at the same clock reading finds nothing to evict:
    it returns 0 and leaves the store as the first sweep left it. *)
Theorem cleanup_twice (now : Q) (m : Manager) :
  cleanup_expired_sessions now (fst (cleanup_expired_sessions now m)) =
  (fst (cleanup_expired_sessions now m), 0%nat).
Proof.
  pose proof (expired_ids_after_sweep now m) as H.
  unfold cleanup_expired_sessions at 1. fold (expired_ids now (fst (cleanup_expired_sessions now m))).
  rewrite H. reflexivity.
Qed.

Lemma touched_not_expired timeout now s :
  (0 <= timeout)%Z -> is_expired timeout now (set_last_activity now s) = false.
Proof.
  intros H. unfold is_expired. cbn [last_activity set_last_activity].
  apply negb_false_iff, Qle_bool_iff.
  unfold Qminus. rewrite Qplus_opp_r. unfold Qle. cbn. lia.
Qed.

(** X5.  With a timeout that is not negative, a session contacted at some
    clock reading survives a sweep at that reading, whatever its earlier
    [last_activity]: [get_or_create_session] refreshes it. *)
Theorem contact_prevents_eviction (now : Q) (sid : string) (m : Manager) :
  (0 <= session_timeout m)%Z ->
  let contacted := get_or_create_session now sid m in
  get_session sid (fst (cleanup_expired_sessions now (fst contacted))) =
  Some (snd contacted).
Proof.
  intros Ht. cbn zeta. unfold get_session, cleanup_expired_sessions.
  cbn [fst sessions with_sessions].
  fold (expired_ids now (fst (get_or_create_session now sid m))).
  rewrite foldl_delete_lookup.
  pose proof (get_or_create_sessions now sid m) as Hg.
  assert (Hs : sessions (fst (get_or_create_session now sid m)) !! sid =
               Some (snd (get_or_create_session now sid m)))
    by (rewrite Hg; apply lookup_insert_eq).
  rewrite decide_False; [exact Hs|].
  intros (s & Hs' & He)%elem_of_expired_ids. rewrite Hs in Hs'. inversion Hs'; subst s.
  assert (Htm : session_timeout (fst (get_or_create_session now sid m)) = session_timeout m).
  { unfold get_or_create_session. destruct (sessions m !! sid); reflexivity. }
  rewrite Htm in He.
  unfold get_or_create_session in He. destruct (sessions m !! sid) as [s0|]; cbn [snd] in He.
  - rewrite touched_not_expired in He by exact Ht. discriminate.
  - change (new_session now sid) with (set_last_activity now (new_session now sid)) in He.
    rewrite touched_not_expired in He by exact Ht. discriminate.
Qed.

Lemma contact_prevents_eviction_witness :
  get_session "idle"
    (fst (cleanup_expired_sessions 1000
            (fst (get_or_create_session 1000 "idle" Demo.two_sessions)))) =
  Some (snd (get_or_create_session 1000 "idle" Demo.two_sessions)).
Proof.
  apply (contact_prevents_eviction 1000 "idle" Demo.two_sessions).
  vm_compute. discriminate.
Defined.

(** X6.  Eviction forgets the lock: when the sweep removes a session, the
    next contact under the same id gets a fresh session, unlocked,
    unverified and with no failed attempt, whatever the evicted one held. *)
Theorem eviction_forgets_lock (now later : Q) (sid : string) (m : Manager)
    (s : SessionState) :
  get_session sid m = Some s ->
  is_expired (session_timeout m) now s = true ->
  let contacted :=
    get_or_create_session later sid (fst (cleanup_expired_sessions now m)) in
  snd contacted = new_session later sid /\
  locked (snd contacted) = false /\
  s_verified (snd contacted) = false /\
  auth_attempts (snd contacted) = 0%Z /\
  get_session sid (fst contacted) = Some (new_session later sid).
Proof.
  intros Hs He. cbn zeta.
  assert (Hgone : sessions (fst (cleanup_expired_sessions now m)) !! sid = None).
  { unfold cleanup_expired_sessions. cbn [fst sessions with_sessions].
    fold (expired_ids now m). rewrite foldl_delete_lookup.
    rewrite decide_True; [reflexivity|]. apply elem_of_expired_ids. eauto. }
  assert (Hnew : snd (get_or_create_session later sid (fst (cleanup_expired_sessions now m)))
                 = new_session later sid).
  { unfold get_or_create_session. rewrite Hgone. reflexivity. }
  rewrite Hnew. repeat split.
  unfold get_session. rewrite get_or_create_sessions, Hnew. apply lookup_insert_eq.
Qed.

Lemma eviction_forgets_lock_witness :
  let m := Demo.store_with Demo.locked_session in
  let contacted :=
    get_or_create_session 2000 "call-1" (fst (cleanup_expired_sessions 1000 m)) in
  snd contacted = new_session 2000 "call-1" /\
  locked (snd contacted) = false /\
  s_verified (snd contacted) = false /\
  auth_attempts (snd contacted) = 0%Z /\
  get_session "call-1" (fst contacted) = Some (new_session 2000 "call-1").
Proof.
  cbn zeta.
  apply (eviction_forgets_lock 1000 2000 "call-1" (Demo.store_with Demo.locked_session)
           Demo.locked_session).
  - apply lookup_singleton_eq.
  - vm_compute. reflexivity.
Defined.

End StoreLaws.

Lemma get_or_create_roundtrip_witness :
  let r := SessionManager.get_or_create_session 1000 "idle" Demo.two_sessions in
  SessionManager.get_session "idle" (fst r) = Some (snd r) /\
  snd r = SessionManager.set_last_activity 1000 Demo.idle_session /\
  size (SessionManager.sessions (fst r)) = size (SessionManager.sessions Demo.two_sessions).
Proof.
  cbn zeta.
  pose proof (get_or_create_roundtrip 1000 "idle" Demo.two_sessions) as H.
  cbn zeta in H. destruct H as (H1 & _ & H3 & _).
  split; [exact H1|]. apply (H3 Demo.idle_session). vm_compute. reflexivity.
Defined.

Lemma update_session_partial_witness :
  SessionManager.update_session 1000 "nobody"
    SessionManager.unset Demo.two_sessions = Demo.two_sessions.
Proof.
  pose proof (update_session_partial 1000 "nobody" SessionManager.unset Demo.two_sessions)
    as (_ & _ & H & _).
  apply H. vm_compute. reflexivity.
Defined.

Lemma reset_session_counts_witness :
  let r := SessionManager.reset_session (Some "idle") Demo.two_sessions in
  SessionManager.get_session "idle" (fst r) = None /\ snd r = 1%nat.
Proof.
  cbn zeta.
  pose proof (reset_session_counts (Some "idle") Demo.two_sessions) as H.
  cbn zeta in H. destruct H as (_ & H & _).
  destruct (H "idle" eq_refl) as (H1 & _ & H3); [discriminate|].
  split; [exact H1|exact H3].
Defined.

(* ===================================================================== *)
(** ** Traces of collaborator calls *)
(* ===================================================================== *)

Section Traces.
Import Re State Eff Exceptions SessionManager Config VapiRoutes Security Aux Graph.

Variable settings : Settings.
Variable ext : Collaborators.

Lemma calls_bind {A B} (m : M A) (f : A -> M B) :
  calls (bind m f) =
  (calls m ++ match outcome m with inr a => calls (f a) | inl _ => [] end)%list.
Proof.
  unfold bind, calls, outcome. destruct m as [[e|a] t]; cbn [fst snd].
  - rewrite app_nil_r. reflexivity.
  - destruct (f a). reflexivity.
Qed.

Lemma outcome_bind {A B} (m : M A) (f : A -> M B) :
  outcome (bind m f) =
  match outcome m with inr a => outcome (f a) | inl e => inl e end.
Proof.
  unfold bind, outcome. destruct m as [[e|a] t]; cbn [fst]; [reflexivity|].
  destruct (f a). reflexivity.
Qed.

Lemma node_calls f s : calls (node f s) = calls (f s).
Proof.
  unfold node. rewrite calls_bind. destruct (outcome (f s)); cbn; apply app_nil_r.
Qed.

Lemma node_outcome f s :
  outcome (node f s) =
  match outcome (f s) with inr r => inr (write s r) | inl e => inl e end.
Proof. unfold node. rewrite outcome_bind. destruct (outcome (f s)); reflexivity. Qed.

(** The attempt consults the verifier at most once. *)
Lemma attempt_calls session raw :
  calls (_process_auth_attempt settings ext session raw) = [] \/
  exists cid pin,
    s_verified session = false /\
    calls (_process_auth_attempt settings ext session raw) = [VerifyIdentity cid pin].
Proof.
  unfold _process_auth_attempt.
  destruct (s_verified session) eqn:Hv; [left; reflexivity|].
  destruct (extract_credentials raw) as [c p]. unfold ret, call, bind, calls.
  repeat match goal with
         | |- context [match ?x with _ => _ end] => destruct x eqn:?
         end;
  repeat match goal with
         | H : context [match ?x with _ => _ end] |- _ => destruct x eqn:?
         end;
  cbn [snd]; simplify_eq; cbn [app];
    first [left; reflexivity | right; do 2 eexists; split; reflexivity].
Qed.

(** The calls each node can make. *)
Lemma route_intent_calls s :
  calls (IntentRouter.route_intent ext s) = [] \/
  exists u, calls (IntentRouter.route_intent ext s) = [ClassifyIntent u].
Proof.
  unfold IntentRouter.route_intent, ret, call, bind, calls.
  repeat match goal with
         | |- context [match ?x with _ => _ end] => destruct x eqn:?
         end; cbn [snd]; simplify_eq;
    first [left; reflexivity | right; eexists; reflexivity].
Qed.

Lemma check_authentication_calls s : calls (AuthGate.check_authentication s) = [].
Proof.
  unfold AuthGate.check_authentication, ret, calls.
  repeat match goal with
         | |- context [match ?x with _ => _ end] => destruct x eqn:?
         end; reflexivity.
Qed.

Lemma handle_card_flow_calls s : calls (CardFlow.handle_card_flow ext s) = [].
Proof.
  unfold CardFlow.handle_card_flow, CardFlow.handle_lost_card,
    CardFlow.handle_declined_payment, CardFlow.handle_atm_cash_not_dispensed,
    CardFlow._block_specific_card, ret, calls.
  repeat match goal with
         | |- context [match ?x with _ => _ end] => destruct x eqn:?
         end; reflexivity.
Qed.

Lemma handle_stub_flow_calls s : calls (Handlers.handle_stub_flow s) = [].
Proof.
  unfold Handlers.handle_stub_flow, ret, calls.
  destruct (Handlers.dict_get _ _); reflexivity.
Qed.

Lemma handle_account_flow_calls s :
  calls (Handlers.handle_account_flow ext s) = [AccountFlow].
Proof.
  unfold Handlers.handle_account_flow, ret, call, bind, calls.
  destruct (account_flow_reply ext s); reflexivity.
Qed.

Lemma handle_confirmation_calls s :
  calls (Confirmation.handle_confirmation ext s) = [] \/
  exists pending,
    pending_action s = Some pending /\ verified s = true /\
    pa_type pending = "block_card" /\
    any_in Confirmation.affirmative (CardFlow.latest_input_of s) = true /\
    calls (Confirmation.handle_confirmation ext s) =
      [BlockCard (card_id pending) (reason pending)].
Proof.
  unfold Confirmation.handle_confirmation.
  destruct (pending_action s) as [pending|] eqn:Hp; [|left; reflexivity].
  destruct (verified s) eqn:Hv; [|left; reflexivity]. cbn [negb].
  destruct (any_in Confirmation.affirmative _) eqn:Ha.
  - destruct (String.eqb (pa_type pending) "block_card") eqn:Ht.
    + right. exists pending. apply String.eqb_eq in Ht.
      repeat split; auto.
      unfold call, bind, ret, calls.
      destruct (block_card ext _ _); reflexivity.
    + left. reflexivity.
  - left. destruct (any_in Confirmation.negative _); reflexivity.
Qed.

End Traces.

(* ===================================================================== *)
(** ** Which turn states reach which collaborator *)
(* ===================================================================== *)

Section GraphPaths.
Import Re State Eff Exceptions Security Aux Graph.

Variable ext : Collaborators.

Lemma latest_human_app (l1 l2 : list BaseMessage) :
  latest_human (l1 ++ l2) =
  match latest_human l2 with Some x => Some x | None => latest_human l1 end.
Proof.
  unfold latest_human. rewrite filter_app, last_app.
  destruct (last (filter _ l2)); reflexivity.
Qed.

Lemma latest_human_twice (l : list BaseMessage) : latest_human (l ++ l) = latest_human l.
Proof. rewrite latest_human_app. destruct (latest_human l); reflexivity. Qed.

Lemma latest_human_reply (l : list BaseMessage) text :
  latest_human (l ++ [AIMessage text]) = latest_human l.
Proof. rewrite latest_human_app. reflexivity. Qed.

Lemma same_turn_refl s : same_turn s s.
Proof. unfold same_turn. auto. Qed.

Lemma same_turn_trans a b c : same_turn a b -> same_turn b c -> same_turn a c.
Proof.
  unfold same_turn. intros (?&?&?&?&?) (?&?&?&?&?). repeat split; congruence.
Qed.

Local Opaque latest_human.

Ltac frame_leaf H :=
  unfold ret, raise, call, bind in H;
  repeat match goal with
         | H' : context [match ?x with _ => _ end] |- _ => destruct x eqn:?
         end;
  try discriminate; simplify_eq;
  unfold same_turn, write, AuthGate.reply; cbn;
  rewrite ?latest_human_twice, ?latest_human_reply; repeat split; auto.

Lemma route_intent_frames : frames (IntentRouter.route_intent ext).
Proof. intros s r t H. unfold IntentRouter.route_intent in H. frame_leaf H. Qed.

Lemma check_authentication_frames : frames AuthGate.check_authentication.
Proof. intros s r t H. unfold AuthGate.check_authentication in H. frame_leaf H. Qed.

Lemma route_by_intent_frames : frames route_by_intent.
Proof. intros s r t H. unfold route_by_intent in H. frame_leaf H. Qed.

(** The card flow either keeps all that, or stages an action and marks the
    turn as the one that asked. *)
Lemma handle_card_flow_frames s r t :
  CardFlow.handle_card_flow ext s = (inr r, t) ->
  same_turn (write s r) s \/ asked_for_confirmation (metadata (write s r)) = true.
Proof.
  intros H.
  unfold CardFlow.handle_card_flow, CardFlow.handle_lost_card,
    CardFlow.handle_declined_payment, CardFlow.handle_atm_cash_not_dispensed,
    CardFlow._block_specific_card in H.
  unfold ret, raise, call, bind in H;
  repeat match goal with
         | H' : context [match ?x with _ => _ end] |- _ => destruct x eqn:?
         end;
  try discriminate; simplify_eq;
  first [ right; reflexivity
        | left; unfold same_turn, write, AuthGate.reply; cbn;
          rewrite ?latest_human_twice, ?latest_human_reply; repeat split; auto ].
Qed.

Lemma node_returns f s s' t :
  node f s = (inr s', t) -> exists r, f s = (inr r, t) /\ s' = write s r.
Proof.
  unfold node, bind, ret. destruct (f s) as [[e|r] t0]; [discriminate|].
  intros H. inversion H; subst. rewrite app_nil_r. eauto.
Qed.

Lemma outcome_eq {A} (m : M A) a : outcome m = inr a -> m = (inr a, calls m).
Proof. destruct m as [o t]. cbn. intros ->. reflexivity. Qed.

(** Every call the graph makes, traced back to the state it was entered
    with: the classifier may be asked on any turn; the account handler and
    the confirmation step are reached by verified states only, the latter
    on a state that still reads as the entry state and that
    [should_confirm] sent to confirmation. *)
Lemma graph_event_inv st ev :
  In ev (calls (agent_graph ext st)) ->
  (exists u, ev = ClassifyIntent u) \/
  (verified st = true /\
   (ev = AccountFlow \/
    exists s4,
      same_turn s4 st /\ should_confirm s4 = edge_confirm /\
      In ev (calls (Confirmation.handle_confirmation ext s4)))).
Proof.
  unfold agent_graph. rewrite calls_bind, node_calls. intros H.
  apply in_app_or in H as [H|H].
  { left. destruct (route_intent_calls ext st) as [E|[u E]]; rewrite E in H.
    - destruct H.
    - destruct H as [<-|[]]. eauto. }
  destruct (outcome (node (IntentRouter.route_intent ext) st)) as [e|s1] eqn:E1; [destruct H|].
  apply outcome_eq, node_returns in E1 as (r1 & Hr1 & ->).
  apply route_intent_frames in Hr1 as F1.
  set (s1 := write st r1) in *.
  destruct (should_handle_small_talk s1).
  { rewrite node_calls in H. destruct H. }
  rewrite calls_bind, node_calls, check_authentication_calls in H. cbn [app] in H.
  destruct (outcome (node AuthGate.check_authentication s1)) as [e|s2] eqn:E2; [destruct H|].
  apply outcome_eq, node_returns in E2 as (r2 & Hr2 & ->).
  apply check_authentication_frames in Hr2 as F2.
  set (s2 := write s1 r2) in *.
  destruct (should_request_auth s2) eqn:Hgate.
  { rewrite node_calls in H. destruct H. }
  2:{ destruct H. }
  rewrite calls_bind, node_calls in H. cbn [app route_by_intent ret calls snd] in H.
  rewrite node_outcome in H. cbn [route_by_intent ret outcome fst] in H.
  assert (F3 : same_turn (write s2 s2) s2)
    by (apply (route_by_intent_frames s2 s2 []); reflexivity).
  assert (Hflow : current_flow (write s2 s2) = current_flow s2) by reflexivity.
  set (s3 := write s2 s2) in *.
  assert (Hst : same_turn s3 st)
    by (eapply same_turn_trans; [exact F3|]; eapply same_turn_trans; eauto).
  assert (Hver : opt_eqb (current_flow s3) "card_issues" = true \/
                 opt_eqb (current_flow s3) "account_servicing" = true ->
                 verified st = true).
  { intros Hsens. destruct Hst as (<- & _). destruct F3 as (-> & _).
    unfold should_request_auth in Hgate. cbv zeta in Hgate. rewrite <- Hflow in Hgate.
    destruct (auth_locked _ || _); [discriminate|].
    destruct Hsens as [Hs|Hs]; rewrite Hs in Hgate;
      rewrite ?orb_true_r in Hgate; cbn [orb negb] in Hgate;
      destruct (verified s2); first [reflexivity | discriminate]. }
  unfold route_to_flow in H.
  destruct (opt_eqb (current_flow s3) "card_issues") eqn:Hcard.
  - right. split; [apply Hver; auto|]. right.
    rewrite calls_bind, node_calls, handle_card_flow_calls in H. cbn [app] in H.
    destruct (outcome (node (CardFlow.handle_card_flow ext) s3)) as [e|s4] eqn:E4;
      [destruct H|].
    apply outcome_eq, node_returns in E4 as (r4 & Hr4 & ->).
    apply handle_card_flow_frames in Hr4 as F4.
    destruct (should_confirm (write s3 r4)) eqn:Hconf; [|destruct H].
    rewrite node_calls in H.
    exists (write s3 r4). split; [|split; [exact Hconf|exact H]].
    destruct F4 as [F4|F4].
    + eapply same_turn_trans; eauto.
    + exfalso. unfold should_confirm in Hconf.
      destruct (pending_action (write s3 r4)); [|discriminate].
      rewrite F4 in Hconf. destruct (existsb _ _); discriminate.
  - destruct (opt_eqb (current_flow s3) "account_servicing") eqn:Hacct.
    + right. split; [apply Hver; auto|]. left.
      rewrite node_calls, handle_account_flow_calls in H.
      destruct H as [<-|[]]. reflexivity.
    + exfalso. destruct (existsb _ _); rewrite node_calls, handle_stub_flow_calls in H;
        destruct H.
Qed.

Local Transparent latest_human.

End GraphPaths.

(* ===================================================================== *)
(** ** What a turn can reach *)
(* ===================================================================== *)

Section GraphLaws.
Import Re State Eff Exceptions SessionManager Config VapiRoutes Security Aux Graph.

Variable settings : Settings.
Variable ext : Collaborators.

(** X7.  The gate comes before the handlers: on a turn state that is not
    verified the graph calls no collaborator but, possibly, the intent
    classifier.  The account handler and the card service are out of
    reach, whatever the utterance, the flow and the flags of the state. *)
Theorem unverified_reaches_no_handler (st : AgentState) :
  verified st = false ->
  Forall (fun ev => exists u, ev = ClassifyIntent u) (calls (agent_graph ext st)).
Proof.
  intros Hv. apply List.Forall_forall. intros ev Hin.
  apply graph_event_inv in Hin as [H|[H _]]; [exact H|congruence].
Qed.

(** X8.  The card service is called for one reason only: when the graph
    blocks a card, the turn state was verified, it carried a pending
    [block_card] action for that very card and reason, it was awaiting the
    confirmation, and the latest user message contains an affirmative
    keyword. *)
Theorem block_card_needs_confirmation (st : AgentState) (card why : string) :
  In (BlockCard card why) (calls (agent_graph ext st)) ->
  verified st = true /\
  awaiting_confirmation (metadata st) = true /\
  asked_for_confirmation (metadata st) = false /\
  any_in Confirmation.affirmative (CardFlow.latest_input_of st) = true /\
  exists pending,
    pending_action st = Some pending /\ pa_type pending = "block_card" /\
    card_id pending = card /\ reason pending = why.
Proof.
  intros Hin.
  apply graph_event_inv in Hin as [[u Hu]|[Hv [Hacc|(s4 & Hsame & Hconf & Hin)]]];
    try discriminate.
  destruct (handle_confirmation_calls ext s4) as [E|(p & Hp & _ & Hty & Haff & E)];
    rewrite E in Hin; [destruct Hin|].
  destruct Hin as [Heq|[]]. inversion Heq; subst card why.
  destruct Hsame as (_ & Hpa & Haw & Hask & Hlh).
  unfold should_confirm in Hconf. rewrite Hp in Hconf.
  destruct (existsb _ _); [|discriminate].
  destruct (asked_for_confirmation (metadata s4)) eqn:Ha; [discriminate|].
  destruct (awaiting_confirmation (metadata s4)) eqn:Hw; [|discriminate].
  unfold CardFlow.latest_input_of in *. rewrite Hlh in Haff.
  repeat split; try congruence.
  exists p. repeat split; congruence.
Qed.

(** The calls of a whole turn: those of the attempt, then those of the
    graph, which runs on a state that carries the [verified] flag the attempt
    left on the session. *)
Lemma process_turn_calls now sid raw m :
  let s0 := snd (get_or_create_session now sid m) in
  exists rest,
    calls (snd (process_turn settings ext now sid raw m)) =
      (calls (_process_auth_attempt settings ext s0 raw) ++ rest)%list /\
    (rest = [] \/
     exists s1 a st,
       outcome (_process_auth_attempt settings ext s0 raw) = inr (s1, a) /\
       verified st = s_verified s1 /\
       rest = calls (agent_graph ext st)).
Proof.
  cbn zeta. unfold process_turn.
  destruct (get_or_create_session now sid m) as [m0 s0]. cbn [snd].
  destruct (_process_auth_attempt settings ext s0 raw) as [[e|[s1 a]] t];
    cbn [calls outcome fst snd].
  - exists []. split; [|left; reflexivity]. rewrite app_nil_r. reflexivity.
  - unfold _run_agent.
    match goal with |- context [build_state ?e ?n ?s ?i ?a ?mm] =>
      pose proof (build_state_effect e n s i a mm) as Hb;
      destruct (build_state e n s i a mm) as [m1 st] end.
    cbn [fst snd sessions with_sessions] in Hb.
    match type of Hb with forall s, <[_ := ?x]> _ !! _ = _ -> _ =>
      specialize (Hb x (lookup_insert_eq _ _ _)) as [Hv _] end.
    exists (calls (agent_graph ext st)). split.
    + destruct (agent_graph ext st) as [[e|r] t']; [reflexivity|].
      destruct (fold_result now sid r m1). reflexivity.
    + right. exists s1, a, st. split; [reflexivity|]. split; [|reflexivity].
      rewrite Hv. destruct (negb _); reflexivity.
Qed.

(** The graph never consults the verifier. *)
Lemma graph_never_verifies st cid pin :
  ~ In (VerifyIdentity cid pin) (calls (agent_graph ext st)).
Proof.
  intros Hin.
  apply graph_event_inv in Hin as [[u Hu]|[Hv [Hacc|(s4 & _ & _ & Hin)]]];
    try discriminate.
  destruct (handle_confirmation_calls ext s4) as [E|(p & _ & _ & _ & _ & E)];
    rewrite E in Hin; [destruct Hin|].
  destruct Hin as [Heq|[]]. discriminate.
Qed.

(** A session leaves the attempt verified only if it entered it verified
    or the verifier has just accepted a pair. *)
Lemma attempt_verifies s raw s1 a :
  outcome (_process_auth_attempt settings ext s raw) = inr (s1, a) ->
  s_verified s1 = true ->
  s_verified s = true \/
  exists cid pin,
    calls (_process_auth_attempt settings ext s raw) = [VerifyIdentity cid pin] /\
    verify_identity ext cid pin = inr true /\
    locked s = false /\ (auth_attempts s < MAX_AUTH_ATTEMPTS settings)%Z.
Proof.
  unfold _process_auth_attempt.
  destruct (s_verified s) eqn:Hv; [left; reflexivity|]. right.
  destruct (extract_credentials raw) as [c p]. unfold ret, call, bind, calls, outcome in *.
  repeat match goal with
         | H : context [match ?x with _ => _ end] |- _ => destruct x eqn:?
         end;
  cbn [fst snd] in *; simplify_eq; cbn in *; try congruence.
  all: do 2 eexists; cbn [app]; repeat split; try reflexivity.
  all: match goal with H : (_ || _) = false |- _ =>
         apply orb_false_iff in H as [? H]; try assumption;
         apply Z.leb_gt in H; try assumption end.
Qed.

(** X9.  End to end, a turn reaches the account handler or the card
    service only for a session that was verified when the turn started or
    that the verifier accepted in this very turn, the accepted pair being
    the first call of the turn. *)
Theorem sensitive_calls_need_the_verifier (now : Q) (sid raw : string) (m : Manager)
    (ev : event) :
  let turn := process_turn settings ext now sid raw m in
  In ev (calls (snd turn)) ->
  ev = AccountFlow \/ is_block_call ev = true ->
  (exists s, get_session sid m = Some s /\ s_verified s = true) \/
  (exists cid pin rest,
     calls (snd turn) = VerifyIdentity cid pin :: rest /\
     verify_identity ext cid pin = inr true).
Proof.
  cbn zeta. intros Hin Hsens.
  destruct (process_turn_calls now sid raw m) as (rest & Hcalls & Hrest).
  cbn zeta in Hcalls, Hrest. rewrite Hcalls in Hin |- *.
  set (s0 := snd (get_or_create_session now sid m)) in *.
  assert (Hnot : ~ In ev (calls (_process_auth_attempt settings ext s0 raw))).
  { intros H. destruct (attempt_calls settings ext s0 raw) as [E|(c & p & _ & E)];
      rewrite E in H; [destruct H|].
    destruct H as [<-|[]]. destruct Hsens; discriminate. }
  apply in_app_or in Hin as [Hin|Hin]; [contradiction|].
  destruct Hrest as [->|(s1 & a & st & Hout & Hv & ->)]; [destruct Hin|].
  assert (Hst : verified st = true).
  { apply graph_event_inv in Hin as [[u ->]|[H _]]; [|exact H].
    destruct Hsens; discriminate. }
  rewrite Hv in Hst.
  destruct (attempt_verifies s0 raw s1 a Hout Hst) as [H0|(cid & pin & E & Hok & _)].
  - left. subst s0. unfold get_or_create_session, get_session in *.
    destruct (sessions m !! sid) as [s|]; cbn in H0; [|discriminate]. eauto.
  - right. exists cid, pin, (calls (agent_graph ext st)). rewrite E. auto.
Qed.

(** X10.  A turn consults the verifier at most once, as its first call,
    and never for a session that is already verified. *)
Theorem verifier_consulted_at_most_once (now : Q) (sid raw : string) (m : Manager) :
  let turn := process_turn settings ext now sid raw m in
  (List.length (filter (fun ev => is_verify_call ev = true) (calls (snd turn))) <= 1)%nat /\
  (forall s cid pin, get_session sid m = Some s -> s_verified s = true ->
     ~ In (VerifyIdentity cid pin) (calls (snd turn))).
Proof.
  cbn zeta.
  destruct (process_turn_calls now sid raw m) as (rest & Hcalls & Hrest).
  cbn zeta in Hcalls, Hrest. rewrite Hcalls.
  set (s0 := snd (get_or_create_session now sid m)) in *.
  assert (Hr : forall cid pin, ~ In (VerifyIdentity cid pin) rest).
  { intros cid pin H. destruct Hrest as [->|(s1 & a & st & _ & _ & ->)]; [destruct H|].
    exact (graph_never_verifies st cid pin H). }
  assert (Hf : filter (fun ev => is_verify_call ev = true) rest = []).
  { destruct (filter _ rest) as [|e l] eqn:E; [reflexivity|exfalso].
    assert (He : e ∈ filter (fun ev => is_verify_call ev = true) rest)
      by (rewrite E; apply elem_of_cons; auto).
    apply list_elem_of_filter in He as [Hv He]. destruct e as [c p| | |]; try discriminate.
    apply (Hr c p). apply list_elem_of_In. exact He. }
  split.
  - rewrite filter_app, Hf, app_nil_r.
    destruct (attempt_calls settings ext s0 raw) as [E|(c & p & _ & E)]; rewrite E; cbv; lia.
  - intros s cid pin Hs Hv Hin. apply in_app_or in Hin as [Hin|Hin]; [|exact (Hr _ _ Hin)].
    destruct (attempt_calls settings ext s0 raw) as [E|(c & p & Hnv & E)];
      rewrite E in Hin; [destruct Hin|].
    subst s0. unfold get_or_create_session, get_session in *. rewrite Hs in Hnv.
    cbn in Hnv. congruence.
Qed.

End GraphLaws.

Lemma unverified_reaches_no_handler_witness :
  Forall (fun ev => exists u, ev = Eff.ClassifyIntent u)
    (Eff.calls (Graph.agent_graph Demo.ext (Demo.awaiting_state false "yes"))).
Proof. apply (unverified_reaches_no_handler Demo.ext). reflexivity. Defined.

Lemma block_card_needs_confirmation_witness :
  let st := Demo.awaiting_state true "yes" in
  State.verified st = true /\
  State.awaiting_confirmation (State.metadata st) = true /\
  State.asked_for_confirmation (State.metadata st) = false /\
  Re.any_in Confirmation.affirmative (CardFlow.latest_input_of st) = true /\
  exists pending,
    State.pending_action st = Some pending /\ State.pa_type pending = "block_card" /\
    State.card_id pending = "CARD_001" /\ State.reason pending = "lost".
Proof.
  cbn zeta. apply (block_card_needs_confirmation Demo.ext).
  vm_compute. left. reflexivity.
Defined.

Lemma sensitive_calls_need_the_verifier_witness :
  (exists s, SessionManager.get_session "call-1" Scenarios.verified_store = Some s /\
             SessionManager.s_verified s = true) \/
  (exists cid pin rest,
     Eff.calls (snd (VapiRoutes.process_turn Config.defaults Demo.ext 10 "call-1"
                       "what is my balance" Scenarios.verified_store)) =
       Eff.VerifyIdentity cid pin :: rest /\
     verify_identity Demo.ext cid pin = inr true).
Proof.
  apply (sensitive_calls_need_the_verifier Config.defaults Demo.ext 10 "call-1"
           "what is my balance" Scenarios.verified_store Eff.AccountFlow).
  - vm_compute. left. reflexivity.
  - left. reflexivity.
Defined.

Lemma verifier_consulted_at_most_once_witness :
  ~ In (Eff.VerifyIdentity "1" "1000")
      (Eff.calls (snd (VapiRoutes.process_turn Config.defaults Demo.ext 10 "call-1"
                         "my id is 1 and my pin is 1000" Scenarios.verified_store))).
Proof.
  pose proof (verifier_consulted_at_most_once Config.defaults Demo.ext 10 "call-1"
                "my id is 1 and my pin is 1000" Scenarios.verified_store) as H.
  cbn zeta in H. destruct H as [_ H].
  apply (H (Demo.session_with [] None None true)); reflexivity.
Defined.

(* ===================================================================== *)
(** ** Verified sessions, locked turns, flow labels *)
(* ===================================================================== *)

Section TurnLaws.
Import Re State Eff Exceptions SessionManager Config VapiRoutes Security Aux Graph.

Variable settings : Settings.
Variable ext : Collaborators.

Lemma turn_keeps_verification now sid raw m k s :
  sessions m !! k = Some s -> s_verified s = true ->
  exists s', sessions (fst (process_turn settings ext now sid raw m)) !! k = Some s'
             /\ same_auth s' s.
Proof.
  intros Hk Hv.
  destruct (process_turn_effect settings ext now sid raw m) as (s' & Hm' & Hs').
  rewrite Hm'. destruct (decide (k = sid)) as [->|Hne].
  2:{ rewrite lookup_insert_ne by congruence. exists s. split; [exact Hk|apply same_auth_refl]. }
  rewrite lookup_insert_eq. exists s'. split; [reflexivity|].
  assert (H0 : same_auth (snd (get_or_create_session now sid m)) s)
    by (apply get_or_create_same_auth; exact Hk).
  unfold _process_auth_attempt in Hs'.
  destruct H0 as (Hv0 & H0). rewrite Hv0, Hv in Hs'. cbn in Hs'.
  eapply same_auth_trans; [exact Hs'|]. split; [congruence|exact H0].
Qed.

(** X11.  Turns never revoke a verification: over any sequence of turns,
    of this session or of others and whatever the inputs and the answers
    of the collaborators, a verified session stays in the store, verified,
    with its lock flag and its failure counter as they were. *)
Theorem verification_survives_turns (turns : list Turn) (m : Manager) (k : string)
    (s : SessionState) :
  get_session k m = Some s -> s_verified s = true ->
  exists s', get_session k (run_turns settings ext turns m) = Some s' /\
             s_verified s' = true /\ locked s' = locked s /\
             auth_attempts s' = auth_attempts s.
Proof.
  unfold get_session. revert m s.
  induction turns as [|t turns IH]; intros m s Hk Hv; cbn [run_turns foldl].
  - eauto.
  - destruct (turn_keeps_verification (t_now t) (t_session_id t) (t_input t) m k s Hk Hv)
      as (s1 & Hk1 & Hv1 & Hl1 & Hn1).
    destruct (IH _ s1 Hk1) as (s2 & Hk2 & Hv2 & Hl2 & Hn2); [congruence|].
    exists s2. repeat split; [exact Hk2 | exact Hv2 | congruence | congruence].
Qed.

Lemma latest_ai_reply (l : list BaseMessage) text :
  latest_ai (l ++ [AIMessage text]) = Some text.
Proof.
  unfold latest_ai. rewrite filter_app.
  change (filter (fun m => is_ai m = true) [AIMessage text]) with [AIMessage text].
  rewrite last_snoc. reflexivity.
Qed.

(** X12.  A locked, unverified turn is answered by the lock message and
    nothing else happens: unless the utterance is small talk (answered by
    the greeting handler), the graph returns with [requires_human] set and
    the lock message as its reply, with the flow the router chose; the only
    way to fail is a failure of the classifier. *)
Theorem locked_turn_escalates (st : AgentState) :
  verified st = false ->
  auth_locked (auth (metadata st)) = true ->
  small_talk (metadata st) = None ->
  match outcome (agent_graph ext st) with
  | inl e => exists u, llm ext u = inl e
  | inr r =>
      verified r = false /\
      (truthy (small_talk (metadata r)) = true \/
       (requires_human r = true /\
        latest_ai (messages r) =
          Some ("For your security, I've locked verification after too many failed attempts. " ++
                "I'll connect you with a specialist to complete this safely.")))
  end.
Proof.
  intros Hv Hl Hst.
  unfold agent_graph. rewrite outcome_bind, node_outcome.
  destruct (outcome (IntentRouter.route_intent ext st)) as [e|r1] eqn:E1.
  { unfold IntentRouter.route_intent, ret, call, bind, outcome in E1.
    repeat match goal with
           | H : context [match ?x with _ => _ end] |- _ => destruct x eqn:?
           end; cbn [fst] in E1; simplify_eq. eauto. }
  assert (Hr1 : verified r1 = false /\ auth (metadata r1) = auth (metadata st) /\
                (truthy (small_talk (metadata r1)) = true \/ small_talk (metadata r1) = None)).
  { unfold IntentRouter.route_intent, ret, call, bind, outcome in E1.
    repeat match goal with
           | H : context [match ?x with _ => _ end] |- _ => destruct x eqn:?
           end; cbn [fst] in E1; simplify_eq; cbn; repeat split; auto.
    left. unfold IntentRouter.small_talk_of in *.
    repeat match goal with
           | H : context [if ?x then _ else _] |- _ => destruct x
           end; simplify_eq; reflexivity. }
  destruct Hr1 as (Hv1 & Ha1 & Hs1).
  change (verified r1) with (verified (write st r1)) in Hv1 |- *.
  change (metadata r1) with (metadata (write st r1)) in Ha1, Hs1.
  set (s1 := write st r1) in *. clearbody s1.
  unfold should_handle_small_talk.
  destruct Hs1 as [Hs1|Hs1].
  - rewrite Hs1. rewrite node_outcome. cbn. auto.
  - rewrite Hs1. cbn [truthy]. rewrite outcome_bind, node_outcome.
    unfold AuthGate.check_authentication.
    rewrite Hv1, Ha1, Hl. cbn [ret outcome fst].
    unfold should_request_auth. cbn. rewrite Ha1, Hl. cbn.
    split; [exact Hv1|]. right. split; [reflexivity|].
    apply latest_ai_reply.
Qed.

(** X13.  The router writes one of six flow labels or none: whatever the
    utterance and whatever the classifier answers, the flow of the
    returned state is the flow it had, or none, or one of the six labels
    the graph routes on; the rest of the state is untouched, but for the
    small-talk mark. *)
Theorem route_intent_flow_labels (s r : AgentState) (t : list event) :
  IntentRouter.route_intent ext s = (inr r, t) ->
  (current_flow r = current_flow s \/ current_flow r = None \/
   exists flow, current_flow r = Some flow /\
     In flow ["card_issues"; "account_servicing"; "account_opening";
              "digital_support"; "transfers"; "account_closure"]) /\
  messages r = messages s /\ verified r = verified s /\
  pending_action r = pending_action s /\ requires_human r = requires_human s /\
  customer_id r = customer_id s /\ auth (metadata r) = auth (metadata s).
Proof.
  intros H. unfold IntentRouter.route_intent, ret, call, bind in H.
  repeat match goal with
         | H : context [match ?x with _ => _ end] |- _ => destruct x eqn:?
         end; try discriminate; simplify_eq; cbn; repeat split; auto.
  - right. right.
    unfold IntentRouter.keyword_flow in *.
    repeat match goal with
           | H : context [if ?x then _ else _] |- _ => destruct x
           end; simplify_eq; eexists; (split; [reflexivity|]); cbn; tauto.
  - right. unfold IntentRouter.parse_flow in *.
    cbv zeta.
    repeat match goal with
           | |- context [if ?x then _ else _] => destruct x
           end; first [left; reflexivity | right; eexists; (split; [reflexivity|]); cbn; tauto].
Qed.

End TurnLaws.

Lemma verification_survives_turns_witness :
  exists s',
    SessionManager.get_session "call-1"
      (Aux.run_turns Config.defaults Demo.ext
         [Scenarios.says "i lost my debit card"; Scenarios.says "my pin is 9999"]
         Scenarios.verified_store) = Some s' /\
    SessionManager.s_verified s' = true /\
    SessionManager.locked s' = SessionManager.locked (Demo.session_with [] None None true) /\
    SessionManager.auth_attempts s' =
      SessionManager.auth_attempts (Demo.session_with [] None None true).
Proof.
  apply (verification_survives_turns Config.defaults Demo.ext
           [Scenarios.says "i lost my debit card"; Scenarios.says "my pin is 9999"]
           Scenarios.verified_store "call-1" (Demo.session_with [] None None true));
    reflexivity.
Defined.

Lemma locked_turn_escalates_witness :
  match Eff.outcome (Graph.agent_graph Demo.ext (Scenarios.locked_state "what is my balance")) with
  | inl e => exists u, llm Demo.ext u = inl e
  | inr r =>
      State.verified r = false /\
      (Security.truthy (State.small_talk (State.metadata r)) = true \/
       (State.requires_human r = true /\
        State.latest_ai (State.messages r) =
          Some ("For your security, I've locked verification after too many failed attempts. " ++
                "I'll connect you with a specialist to complete this safely.")))
  end.
Proof.
  apply (locked_turn_escalates Demo.ext (Scenarios.locked_state "what is my balance"));
    reflexivity.
Defined.

Lemma route_intent_flow_labels_witness :
  let s := Scenarios.fresh_state "i lost my card" in
  let r := State.set_current_flow (Some "card_issues") s in
  (State.current_flow r = State.current_flow s \/ State.current_flow r = None \/
   exists flow, State.current_flow r = Some flow /\
     In flow ["card_issues"; "account_servicing"; "account_opening";
              "digital_support"; "transfers"; "account_closure"]) /\
  State.messages r = State.messages s /\ State.verified r = State.verified s /\
  State.pending_action r = State.pending_action s /\
  State.requires_human r = State.requires_human s /\
  State.customer_id r = State.customer_id s /\
  State.auth (State.metadata r) = State.auth (State.metadata s).
Proof.
  cbn zeta.
  apply (route_intent_flow_labels Demo.ext (Scenarios.fresh_state "i lost my card") _ []).
  vm_compute. reflexivity.
Defined.

(* ===================================================================== *)
(** ** The two confirmation fields of a session *)
(* ===================================================================== *)

Section Staging.
Import Re State Eff Exceptions SessionManager Config VapiRoutes Security Aux Graph.

Variable settings : Settings.
Variable ext : Collaborators.

Ltac staging_leaf H :=
  unfold ret, raise, call, bind in H;
  repeat match goal with
         | H' : context [match ?x with _ => _ end] |- _ => destruct x eqn:?
         end;
  try discriminate; simplify_eq; unfold staged_ok in *; cbn in *;
  repeat match goal with
         | E : pending_action _ = _ |- _ => rewrite E in *
         end; cbn in *; congruence.

Lemma node_staging f :
  (forall s r t, f s = (inr r, t) -> staged_ok s -> staged_ok r) ->
  forall s r t, node f s = (inr r, t) -> staged_ok s -> staged_ok r.
Proof.
  intros Hf s r t H Hs. apply node_returns in H as (r0 & H & ->).
  exact (Hf _ _ _ H Hs).
Qed.

Lemma route_intent_staging s r t :
  IntentRouter.route_intent ext s = (inr r, t) -> staged_ok s -> staged_ok r.
Proof. intros H Hs. unfold IntentRouter.route_intent in H. staging_leaf H. Qed.

Lemma check_authentication_staging s r t :
  AuthGate.check_authentication s = (inr r, t) -> staged_ok s -> staged_ok r.
Proof. intros H Hs. unfold AuthGate.check_authentication in H. staging_leaf H. Qed.

Lemma request_verification_staging s r t :
  AuthGate.request_verification s = (inr r, t) -> staged_ok s -> staged_ok r.
Proof. intros H Hs. unfold AuthGate.request_verification in H. staging_leaf H. Qed.

Lemma handle_greeting_staging s r t :
  Handlers.handle_greeting s = (inr r, t) -> staged_ok s -> staged_ok r.
Proof. intros H Hs. unfold Handlers.handle_greeting in H. staging_leaf H. Qed.

Lemma handle_stub_flow_staging s r t :
  Handlers.handle_stub_flow s = (inr r, t) -> staged_ok s -> staged_ok r.
Proof. intros H Hs. unfold Handlers.handle_stub_flow in H. staging_leaf H. Qed.

Lemma handle_account_flow_staging s r t :
  Handlers.handle_account_flow ext s = (inr r, t) -> staged_ok s -> staged_ok r.
Proof. intros H Hs. unfold Handlers.handle_account_flow in H. staging_leaf H. Qed.

Lemma route_by_intent_staging s r t :
  route_by_intent s = (inr r, t) -> staged_ok s -> staged_ok r.
Proof. intros H Hs. unfold route_by_intent in H. staging_leaf H. Qed.

Lemma handle_card_flow_staging s r t :
  CardFlow.handle_card_flow ext s = (inr r, t) -> staged_ok s -> staged_ok r.
Proof.
  intros H Hs.
  unfold CardFlow.handle_card_flow, CardFlow.handle_lost_card,
    CardFlow.handle_declined_payment, CardFlow.handle_atm_cash_not_dispensed,
    CardFlow._block_specific_card in H.
  staging_leaf H.
Qed.

Lemma handle_confirmation_staging s r t :
  Confirmation.handle_confirmation ext s = (inr r, t) -> staged_ok s -> staged_ok r.
Proof. intros H Hs. unfold Confirmation.handle_confirmation in H. staging_leaf H. Qed.

Lemma agent_graph_staging s r t :
  agent_graph ext s = (inr r, t) -> staged_ok s -> staged_ok r.
Proof.
  intros H Hs. unfold agent_graph in H.
  apply bind_returns in H as (s1 & ? & ? & H1 & H & _).
  apply (node_staging _ route_intent_staging) in H1; [|exact Hs].
  destruct (should_handle_small_talk s1).
  { eapply (node_staging _ handle_greeting_staging); eauto. }
  apply bind_returns in H as (s2 & ? & ? & H2 & H & _).
  apply (node_staging _ check_authentication_staging) in H2; [|exact H1].
  destruct (should_request_auth s2).
  { eapply (node_staging _ request_verification_staging); eauto. }
  2:{ unfold ret in H. inversion H; subst. exact H2. }
  apply bind_returns in H as (s3 & ? & ? & H3 & H & _).
  apply (node_staging _ route_by_intent_staging) in H3; [|exact H2].
  destruct (route_to_flow s3).
  - apply bind_returns in H as (s4 & ? & ? & H4 & H & _).
    apply (node_staging _ handle_card_flow_staging) in H4; [|exact H3].
    destruct (should_confirm s4).
    + eapply (node_staging _ handle_confirmation_staging); eauto.
    + unfold ret in H. inversion H; subst. exact H4.
  - eapply (node_staging _ handle_account_flow_staging); eauto.
  - eapply (node_staging _ handle_stub_flow_staging); eauto.
Qed.

Lemma build_state_staging now sid input a m s :
  sessions m !! sid = Some s -> session_ok s ->
  let built := build_state ext now sid input a m in
  staged_ok (snd built) /\
  exists s', sessions (fst built) = <[sid := s']> (sessions m) /\ session_ok s'.
Proof.
  intros Hs Hok. cbn zeta. unfold session_ok, staged_ok in *. unfold build_state.
  pose proof (get_or_create_sessions now sid m) as Hg.
  assert (Ha : session_ok (snd (get_or_create_session now sid m)))
    by (unfold get_or_create_session; rewrite Hs; exact Hok).
  destruct (get_or_create_session now sid m) as [m1 session]. cbn [fst snd] in *.
  destruct (truthy (s_original_intent session) && s_verified session &&
            (List.length (recent_history (conversation_history session)) <=? 4)%nat).
  - cbn [fst snd]. split; [cbn; apply Ha|].
    erewrite update_session_lookup by (rewrite Hg; apply lookup_insert_eq).
    rewrite Hg, insert_insert_eq. eexists. split; [reflexivity|]. cbn. exact Ha.
  - cbn [fst snd]. split; [cbn; apply Ha|]. exists session. auto.
Qed.

Lemma fold_result_staging now sid result m s :
  sessions m !! sid = Some s -> staged_ok result ->
  exists s', sessions (fst (fold_result now sid result m)) = <[sid := s']> (sessions m)
             /\ session_ok s'.
Proof.
  intros Hs Hok. unfold session_ok, staged_ok in *. unfold fold_result. rewrite Hs. cbn [from_option].
  set (save := is_auth_request result && truthy (current_flow result) && negb (s_verified s)).
  destruct save.
  - match goal with
    | |- context [update_session now sid ?u m] =>
        pose proof (update_session_lookup now sid u m s Hs) as HA;
        set (mA := update_session now sid u m) in *
    end.
    assert (HsA : sessions mA !! sid = Some (apply_update now
              {| u_verified := None; u_customer_id := None;
                 increment_auth_attempts := false; u_current_flow := None;
                 u_original_intent := Some (current_flow result);
                 u_pending_action := None; u_awaiting_confirmation := None;
                 u_requires_human := None; u_locked := None;
                 u_conversation_history := None; u_last_intent_message := None |} s))
      by (rewrite HA; apply lookup_insert_eq).
    rewrite HsA. cbn [from_option fst].
    erewrite update_session_lookup by exact HsA.
    rewrite HA, insert_insert_eq. eexists. split; [reflexivity|]. cbn. exact Hok.
  - rewrite Hs. cbn [from_option fst].
    erewrite update_session_lookup by exact Hs.
    eexists. split; [reflexivity|]. cbn. exact Hok.
Qed.

Lemma run_agent_staging now sid input a m s :
  sessions m !! sid = Some s -> session_ok s ->
  exists s', sessions (fst (_run_agent ext now sid input a m)) = <[sid := s']> (sessions m)
             /\ session_ok s'.
Proof.
  intros Hs Hok. unfold _run_agent.
  destruct (build_state_staging now sid input a m s Hs Hok) as (Hv & s1 & Hm1 & Ha1).
  destruct (build_state ext now sid input a m) as [m1 st]. cbn [fst snd] in *.
  destruct (Graph.agent_graph ext st) as [[e|result] t] eqn:Hg.
  - cbn [fst]. eauto.
  - apply agent_graph_staging in Hg; [|exact Hv].
    assert (Hs1 : sessions m1 !! sid = Some s1) by (rewrite Hm1; apply lookup_insert_eq).
    destruct (fold_result_staging now sid result m1 s1 Hs1 Hg) as (s2 & Hm2 & Ha2).
    destruct (fold_result now sid result m1) as [m2 resp]. cbn [fst] in *.
    exists s2. split; [|exact Ha2].
    rewrite Hm2, Hm1, insert_insert_eq. reflexivity.
Qed.

Lemma attempt_staging s raw s1 a t :
  _process_auth_attempt settings ext s raw = (inr (s1, a), t) ->
  s_pending_action s1 = s_pending_action s /\
  s_awaiting_confirmation s1 = s_awaiting_confirmation s.
Proof.
  intros H. unfold _process_auth_attempt in H.
  destruct (extract_credentials raw) as [c p].
  unfold ret, call, bind in H.
  repeat match goal with
         | H : context [match ?x with _ => _ end] |- _ => destruct x eqn:?
         end; try discriminate; simplify_eq; cbn; auto.
Qed.

Lemma turn_staging now sid raw m :
  (forall k s, sessions m !! k = Some s -> session_ok s) ->
  forall k s, sessions (fst (process_turn settings ext now sid raw m)) !! k = Some s ->
              session_ok s.
Proof.
  intros Hm. unfold process_turn.
  pose proof (get_or_create_sessions now sid m) as Hg.
  assert (H0 : session_ok (snd (get_or_create_session now sid m))).
  { unfold get_or_create_session. destruct (sessions m !! sid) as [s0|] eqn:E; cbn [snd].
    - cbn. exact (Hm _ _ E).
    - reflexivity. }
  destruct (get_or_create_session now sid m) as [m1 s0]. cbn [fst snd] in *.
  assert (Hm1 : forall k s, sessions m1 !! k = Some s -> session_ok s).
  { intros k s Hk. rewrite Hg in Hk. destruct (decide (k = sid)) as [->|Hne].
    - rewrite lookup_insert_eq in Hk. congruence.
    - rewrite lookup_insert_ne in Hk by congruence. eauto. }
  destruct (_process_auth_attempt settings ext s0 raw) as [[e|[s1 a]] t] eqn:Ha.
  - cbn [fst]. exact Hm1.
  - cbv zeta. apply attempt_staging in Ha as (Hp & Hw).
    match goal with
    | |- context [_run_agent ext now sid ?i a ?mm] => set (input := i); set (m2 := mm)
    end.
    set (s2 := if negb (attempted a || needs_pin a || needs_customer_id a)
               then set_last_intent_message (Some (redact_sensitive_text raw)) s1
               else s1) in *.
    assert (H2 : sessions m2 !! sid = Some s2) by apply lookup_insert_eq.
    assert (Hok2 : session_ok s2).
    { subst s2. unfold session_ok in *. destruct (negb _); cbn; congruence. }
    destruct (run_agent_staging now sid input a m2 s2 H2 Hok2) as (s3 & Hm3 & Ha3).
    destruct (_run_agent ext now sid input a m2) as [m3 [r t']]. cbn [fst] in *.
    intros k s Hk. rewrite Hm3 in Hk. subst m2. cbn [sessions with_sessions] in Hk.
    rewrite insert_insert_eq in Hk. destruct (decide (k = sid)) as [->|Hne].
    + rewrite lookup_insert_eq in Hk. congruence.
    + rewrite lookup_insert_ne in Hk by congruence. eauto.
Qed.

(** X14.  The two confirmation fields of a session never disagree: over
    any sequence of turns starting from a store where it holds (the empty
    store for one), every session has a pending action exactly when it is
    awaiting a confirmation.  The graph keeps the same agreement on the
    states it returns. *)
Theorem pending_iff_awaiting (turns : list Turn) (m : Manager) :
  (forall k s, get_session k m = Some s -> session_ok s) ->
  forall k s, get_session k (run_turns settings ext turns m) = Some s -> session_ok s.
Proof.
  unfold get_session. revert m.
  induction turns as [|t turns IH]; intros m Hm; cbn [run_turns foldl].
  - exact Hm.
  - apply IH. apply turn_staging. exact Hm.
Qed.

End Staging.

Lemma pending_iff_awaiting_witness :
  exists s,
    SessionManager.get_session "call-1"
      (Aux.run_turns Config.defaults Demo.ext [Scenarios.says "i lost my debit card"]
         Scenarios.verified_store) = Some s /\
    State.is_Some_b (SessionManager.s_pending_action s) = true /\
    Aux.session_ok s.
Proof.
  eexists. split; [vm_compute; reflexivity|]. split; [reflexivity|].
  apply (pending_iff_awaiting Config.defaults Demo.ext
           [Scenarios.says "i lost my debit card"] Scenarios.verified_store) with "call-1".
  - intros k s Hs. unfold SessionManager.get_session, Scenarios.verified_store,
      Demo.store_with in Hs. cbn [SessionManager.sessions] in Hs.
    apply lookup_singleton_Some in Hs as [_ <-]. reflexivity.
  - vm_compute. reflexivity.
Defined.

(* ===================================================================== *)
(** ** Masking changes digits only *)
(* ===================================================================== *)

Section Masking.
Import Re Security VoiceUtils Aux.














Lemma all_chars_slice_from p n : forall w,
  all_chars p w = true -> all_chars p (slice_from n w) = true.
Proof.
  induction n as [|n IH]; intros [|c t] H; cbn in *; try reflexivity; try exact H.
  apply andb_true_iff in H as [_ H]. apply IH. exact H.
Qed.

Lemma slice_from_length n : forall s,
  String.length (slice_from n s) = (String.length s - n)%nat.
Proof. induction n as [|n IH]; intros [|c t]; cbn; try reflexivity; try lia. apply IH. Qed.



Lemma repeat_char_length c n : String.length (repeat_char c n) = n.
Proof. induction n; cbn; congruence. Qed.

Lemma append_length (a b : string) :
  String.length (a ++ b) = (String.length a + String.length b)%nat.
Proof. induction a as [|c a IH]; [reflexivity|]. rewrite append_cons. cbn. rewrite IH. reflexivity. Qed.

Lemma slice_from_append (a b : string) : slice_from (String.length a) (a ++ b) = b.
Proof. induction a as [|c a IH]; [reflexivity|]. rewrite append_cons. cbn. exact IH. Qed.

(** X17.  [mask_account_number] shows the last four characters and
    nothing more: an input of at most four characters comes out as four
    asterisks; a longer one keeps its length and its last four characters,
    behind asterisks only; so two inputs of the same length with the same
    last four characters are masked alike. *)
Theorem mask_account_number_shows_last_four (a : string) :
  String.length (mask_account_number a) = Nat.max 4 (String.length a) /\
  ((String.length a <= 4)%nat -> mask_account_number a = "****") /\
  ((4 < String.length a)%nat ->
     slice_from (String.length a - 4) (mask_account_number a) =
       slice_from (String.length a - 4) a /\
     slice_to (String.length a - 4) (mask_account_number a) =
       repeat_char "*" (String.length a - 4)) /\
  (forall b, String.length b = String.length a ->
     slice_from (String.length a - 4) b = slice_from (String.length a - 4) a ->
     mask_account_number b = mask_account_number a).
Proof.
  unfold mask_account_number. repeat split.
  - destruct (Nat.leb_spec (String.length a) 4); [cbn; lia|].
    rewrite append_length, repeat_char_length, slice_from_length. lia.
  - intros H. apply Nat.leb_le in H. rewrite H. reflexivity.
  - apply Nat.leb_gt in H. rewrite H.
    rewrite <- (repeat_char_length "*" (String.length a - 4)) at 1.
    apply slice_from_append.
  - apply Nat.leb_gt in H. rewrite H.
    set (n := (String.length a - 4)%nat).
    rewrite <- (repeat_char_length "*" n) at 1.
    generalize (repeat_char "*" n). intros w.
    induction w as [|c w IH]; [reflexivity|]. rewrite append_cons. cbn. rewrite IH. reflexivity.
  - intros b Hl Hs. rewrite Hl, Hs. reflexivity.
Qed.

End Masking.

Lemma mask_account_number_shows_last_four_witness :
  Security.mask_account_number "0000007890" = Security.mask_account_number "1234567890".
Proof.
  destruct (mask_account_number_shows_last_four "1234567890") as (_ & _ & _ & H).
  apply H; reflexivity.
Defined.

(* ===================================================================== *)
(** ** The digits read from an utterance *)
(* ===================================================================== *)

Section Digits.
Import Re Security VoiceUtils Aux.








End Digits.


(* ===================================================================== *)
(** ** The credentials handed to the verifier *)
(* ===================================================================== *)

Section Credentials.
Import Re Security VoiceUtils Aux.













End Credentials.


(* ===================================================================== *)
(** ** What the sanitizer lets through *)
(* ===================================================================== *)

Section Sanitizer.
Import Re Security State SessionManager Sanitize Endpoints.

Variable hash : string -> string.
Variable repr : pyval -> string.

Lemma pyval_induction (P : pyval -> Prop) :
  P PNone -> (forall b, P (PBool b)) -> (forall z, P (PInt z)) ->
  (forall q, P (PFloat q)) -> (forall s, P (PStr s)) ->
  (forall items, Forall P items -> P (PList items)) ->
  (forall entries, Forall (fun kv => P (snd kv)) entries -> P (PDict entries)) ->
  forall v, P v.
Proof.
  intros HN HB HI HF HS HL HD. fix IH 1.
  intros [| b | z | q | s | items | entries];
    [exact HN | apply HB | apply HI | apply HF | apply HS | |].
  - apply HL. induction items as [|x items IHl]; constructor; [apply IH|exact IHl].
  - apply HD. induction entries as [|[k x] entries IHl]; constructor; [apply IH|exact IHl].
Qed.

(** The value written under a key, as the loop of the dict case does. *)
Lemma sanitized_entry k v entries :
  In (k, v) (map (fun kv : string * pyval =>
                let '(key, value) := kv in
                (key,
                 if in_list (lower key) secret_keys then PStr "***REDACTED***"
                 else if String.eqb (lower key) "customer_id" then
                   if py_truthy value then PStr (hash (py_str repr value)) else PNone
                 else if in_list (lower key) account_keys then
                   if py_truthy value then PStr (mask_account_number (py_str repr value))
                   else PNone
                 else sanitize_for_logging hash repr value)) entries) ->
  exists v0, In (k, v0) entries /\
    v = if in_list (lower k) secret_keys then PStr "***REDACTED***"
        else if String.eqb (lower k) "customer_id" then
          if py_truthy v0 then PStr (hash (py_str repr v0)) else PNone
        else if in_list (lower k) account_keys then
          if py_truthy v0 then PStr (mask_account_number (py_str repr v0)) else PNone
        else sanitize_for_logging hash repr v0.
Proof.
  intros H. apply in_map_iff in H as ([k0 v0] & E & Hin).
  inversion E; subst. eauto.
Qed.

(** X20.  Nothing sensitive survives [sanitize_for_logging], at any depth:
    in the output, whatever sits under a key that reads pin, password, ssn,
    secret or token (in any case) is the redaction marker; what sits under
    customer_id is [None] or a hash; what sits under account_number or
    account_num is [None] or a masked number. *)
Theorem sanitize_hides_sensitive_keys (data : pyval) (k : string) (v : pyval) :
  holds (sanitize_for_logging hash repr data) k v ->
  (in_list (lower k) secret_keys = true -> v = PStr "***REDACTED***") /\
  (lower k = "customer_id" -> v = PNone \/ exists x, v = PStr (hash x)) /\
  (in_list (lower k) account_keys = true ->
     v = PNone \/ exists x, v = PStr (mask_account_number x)).
Proof.
  revert k v. induction data as [| b | z | q | s | items IH | entries IH] using pyval_induction;
    intros k v H; cbn [sanitize_for_logging] in H; try (inversion H; fail).
  - inversion H as [| |? x ? ? Hin Hx]; subst.
    apply in_map_iff in Hin as (x0 & <- & Hin0).
    rewrite Forall_forall in IH. apply (IH x0); [apply list_elem_of_In; exact Hin0|exact Hx].
  - rewrite Forall_forall in IH.
    inversion H as [? ? ? Hin|? k0 v0 ? ? Hin Hv|]; subst.
    + apply sanitized_entry in Hin as (v0 & Hin & ->).
      destruct (in_list (lower k) secret_keys) eqn:Es.
      { repeat split; auto.
        - intros E. rewrite E in Es. discriminate.
        - intros E. exfalso. unfold in_list, secret_keys, account_keys in *. cbn in Es, E.
          repeat match goal with
                 | H : context [String.eqb ?a ?b] |- _ => destruct (String.eqb_spec a b)
                 end; cbn in *; congruence. }
      destruct (String.eqb_spec (lower k) "customer_id") as [Ec|Ec].
      { repeat split; try discriminate.
        - intros _. destruct (py_truthy v0); eauto.
        - intros E. rewrite Ec in E. discriminate. }
      destruct (in_list (lower k) account_keys) eqn:Ea.
      { repeat split; try discriminate; try contradiction.
        intros _. destruct (py_truthy v0); eauto. }
      repeat split; try discriminate; contradiction.
    + apply sanitized_entry in Hin as (v1 & Hin & ->).
      destruct (in_list (lower k0) secret_keys); [inversion Hv|].
      destruct (String.eqb (lower k0) "customer_id");
        [destruct (py_truthy v1); inversion Hv|].
      destruct (in_list (lower k0) account_keys);
        [destruct (py_truthy v1); inversion Hv|].
      apply (IH (k0, v1)); [apply list_elem_of_In; exact Hin|exact Hv].
Qed.

(** X21.  The session endpoint never shows the customer id: an unknown
    id is answered 404; for a stored session the answer carries, under
    customer_id, the hash of the id (or [None] when the session has none),
    the flags and the counter as stored, and the session id after
    redaction. *)
Theorem session_endpoint_hides_customer_id (sid : string) (m : Manager) :
  (get_session sid m = None ->
   get_session_endpoint hash repr sid m = inl (HTTPException 404 "Session not found")) /\
  (forall s, get_session sid m = Some s ->
     exists entries,
       get_session_endpoint hash repr sid m = inr (PDict entries) /\
       dict_get entries "customer_id" =
         Some (match s_customer_id s with
               | Some c => if String.eqb c "" then PNone else PStr (hash c)
               | None => PNone
               end) /\
       dict_get entries "session_id" = Some (PStr (redact_sensitive_text (s_session_id s))) /\
       dict_get entries "verified" = Some (PBool (s_verified s)) /\
       dict_get entries "locked" = Some (PBool (locked s)) /\
       dict_get entries "auth_attempts" = Some (PInt (auth_attempts s)) /\
       dict_get entries "message_count" =
         Some (PInt (Z.of_nat (List.length (conversation_history s))))).
Proof.
  unfold get_session_endpoint. split.
  - intros ->. reflexivity.
  - intros s ->. eexists. split; [reflexivity|].
    repeat split; try reflexivity.
    cbn. destruct (s_customer_id s) as [c|]; [|reflexivity].
    cbn. destruct (String.eqb c ""); reflexivity.
Qed.

(** X22.  [_extract_latest_user_input] returns the content of the last
    message whose role is user, whatever follows it, and answers 400
    exactly when no message has that role. *)
Theorem latest_user_input_is_last_user_message (messages : list ChatMessage) :
  (forall before after c,
     messages = (before ++ {| role := "user"; cm_content := c |} :: after)%list ->
     Forall (fun msg => role msg <> "user") after ->
     _extract_latest_user_input messages = inr c) /\
  (Forall (fun msg => role msg <> "user") messages <->
   _extract_latest_user_input messages =
     inl (HTTPException 400 "No user message provided")).
Proof.
  assert (Hnone : forall l : list ChatMessage,
             Forall (fun msg => role msg <> "user") l <->
             filter (fun msg => role msg = "user") l = []).
  { intros l. induction l as [|x l IH]; [split; [reflexivity|constructor]|].
    rewrite filter_cons. destruct (decide (role x = "user")) as [E|E]; split; intros H.
    - inversion H; subst. contradiction.
    - discriminate.
    - inversion H; subst. apply IH. assumption.
    - constructor; [exact E|apply IH; exact H]. }
  split.
  - intros before after c -> Hafter. unfold _extract_latest_user_input.
    rewrite filter_app, filter_cons. cbn [role]. rewrite decide_True by reflexivity.
    apply Hnone in Hafter. rewrite Hafter.
    destruct (filter _ before) as [|x rest]; cbn [app]; [reflexivity|].
    rewrite last_last. reflexivity.
  - unfold _extract_latest_user_input. rewrite Hnone.
    destruct (filter _ messages); split; intros H; try reflexivity; discriminate.
Qed.

End Sanitizer.

Lemma session_endpoint_hides_customer_id_witness :
  exists entries,
    Endpoints.get_session_endpoint (hash_customer_id Demo.ext) (fun _ : Sanitize.pyval => "")
      "call-1" Scenarios.verified_store = inr (Sanitize.PDict entries) /\
    Sanitize.dict_get entries "customer_id" = Some (Sanitize.PStr (hash_customer_id Demo.ext "1")).
Proof.
  destruct (session_endpoint_hides_customer_id (hash_customer_id Demo.ext) (fun _ : Sanitize.pyval => "")
              "call-1" Scenarios.verified_store) as [_ H].
  destruct (H (Demo.session_with [] None None true) eq_refl) as (entries & H1 & H2 & _).
  exists entries. split; [exact H1|exact H2].
Defined.

Lemma latest_user_input_is_last_user_message_witness :
  Endpoints._extract_latest_user_input
    [ {| Endpoints.role := "user"; Endpoints.cm_content := "i lost my card" |};
      {| Endpoints.role := "assistant"; Endpoints.cm_content := "Which card?" |};
      {| Endpoints.role := "user"; Endpoints.cm_content := "the debit one" |};
      {| Endpoints.role := "assistant"; Endpoints.cm_content := "One moment." |} ]
  = inr "the debit one".
Proof.
  eapply (proj1 (latest_user_input_is_last_user_message _)
            [ {| Endpoints.role := "user"; Endpoints.cm_content := "i lost my card" |};
              {| Endpoints.role := "assistant"; Endpoints.cm_content := "Which card?" |} ]).
  - reflexivity.
  - repeat constructor; discriminate.
Defined.

Lemma sanitize_hides_sensitive_keys_witness :
  let data :=
    Sanitize.PDict
      [("call", Sanitize.PDict [("PIN", Sanitize.PStr "1234")])] in
  (Sanitize.in_list (Re.lower "PIN") Sanitize.secret_keys = true ->
   Sanitize.PStr "***REDACTED***" = Sanitize.PStr "***REDACTED***") /\
  (Re.lower "PIN" = "customer_id" ->
   Sanitize.PStr "***REDACTED***" = Sanitize.PNone \/
   exists x, Sanitize.PStr "***REDACTED***" = Sanitize.PStr (hash_customer_id Demo.ext x)) /\
  (Sanitize.in_list (Re.lower "PIN") Sanitize.account_keys = true ->
   Sanitize.PStr "***REDACTED***" = Sanitize.PNone \/
   exists x, Sanitize.PStr "***REDACTED***" = Sanitize.PStr (Security.mask_account_number x)).
Proof.
  cbn zeta.
  apply (sanitize_hides_sensitive_keys (hash_customer_id Demo.ext) (fun _ : Sanitize.pyval => "")
           (Sanitize.PDict [("call", Sanitize.PDict [("PIN", Sanitize.PStr "1234")])])
           "PIN" (Sanitize.PStr "***REDACTED***")).
  eapply Sanitize.holds_in_value; [left; reflexivity|].
  apply Sanitize.holds_here. left. reflexivity.
Defined.

(* ===================================================================== *)
(** ** A turn, case by case *)
(* ===================================================================== *)

Section GraphInvariant.
Import Re State Eff Exceptions Graph Aux.

Variable ext : Collaborators.
Variable P : AgentState -> Prop.

Hypothesis route_intent_P : forall s r t,
  IntentRouter.route_intent ext s = (inr r, t) -> P s -> P (write s r).
Hypothesis handle_greeting_P : forall s r t,
  Handlers.handle_greeting s = (inr r, t) -> P s -> P (write s r).
Hypothesis check_authentication_P : forall s r t,
  AuthGate.check_authentication s = (inr r, t) -> P s -> P (write s r).
Hypothesis request_verification_P : forall s r t,
  AuthGate.request_verification s = (inr r, t) -> P s -> P (write s r).
Hypothesis route_by_intent_P : forall s r t,
  route_by_intent s = (inr r, t) -> P s -> P (write s r).
Hypothesis handle_card_flow_P : forall s r t,
  CardFlow.handle_card_flow ext s = (inr r, t) -> P s -> P (write s r).
Hypothesis handle_confirmation_P : forall s r t,
  Confirmation.handle_confirmation ext s = (inr r, t) -> P s -> P (write s r).
Hypothesis handle_account_flow_P : forall s r t,
  Handlers.handle_account_flow ext s = (inr r, t) -> P s -> P (write s r).
Hypothesis handle_stub_flow_P : forall s r t,
  Handlers.handle_stub_flow s = (inr r, t) -> P s -> P (write s r).

Lemma node_preserves f :
  (forall s r t, f s = (inr r, t) -> P s -> P (write s r)) ->
  forall s r t, node f s = (inr r, t) -> P s -> P r.
Proof.
  intros Hf s r t H Hs. apply node_returns in H as (r0 & H & ->). eauto.
Qed.

(** What every node keeps, the graph keeps. *)
Lemma agent_graph_preserves s r t :
  agent_graph ext s = (inr r, t) -> P s -> P r.
Proof.
  intros H Hs. unfold agent_graph in H.
  apply bind_returns in H as (s1 & ? & ? & H1 & H & _).
  apply (node_preserves _ route_intent_P) in H1; [|exact Hs].
  destruct (should_handle_small_talk s1).
  { eapply (node_preserves _ handle_greeting_P); eauto. }
  apply bind_returns in H as (s2 & ? & ? & H2 & H & _).
  apply (node_preserves _ check_authentication_P) in H2; [|exact H1].
  destruct (should_request_auth s2).
  { eapply (node_preserves _ request_verification_P); eauto. }
  2:{ unfold ret in H. inversion H; subst. exact H2. }
  apply bind_returns in H as (s3 & ? & ? & H3 & H & _).
  apply (node_preserves _ route_by_intent_P) in H3; [|exact H2].
  destruct (route_to_flow s3).
  - apply bind_returns in H as (s4 & ? & ? & H4 & H & _).
    apply (node_preserves _ handle_card_flow_P) in H4; [|exact H3].
    destruct (should_confirm s4).
    + eapply (node_preserves _ handle_confirmation_P); eauto.
    + unfold ret in H. inversion H; subst. exact H4.
  - eapply (node_preserves _ handle_account_flow_P); eauto.
  - eapply (node_preserves _ handle_stub_flow_P); eauto.
Qed.

End GraphInvariant.

Section TurnCases.
Import Re State Eff Exceptions SessionManager Config VapiRoutes Security Aux Graph.

Variable settings : Settings.
Variable ext : Collaborators.

Lemma build_state_fields now sid input a m s :
  sessions m !! sid = Some s ->
  let built := build_state ext now sid input a m in
  messages (snd built) =
    (recent_history (conversation_history s) ++ [HumanMessage input])%list /\
  pending_action (snd built) = s_pending_action s /\
  exists s', sessions (fst built) = <[sid := s']> (sessions m) /\
    conversation_history s' = conversation_history s /\
    last_intent_message s' = last_intent_message s /\
    s_pending_action s' = s_pending_action s.
Proof.
  intros Hs. cbn zeta. unfold build_state.
  pose proof (get_or_create_sessions now sid m) as Hg.
  assert (Ha : snd (get_or_create_session now sid m) = set_last_activity now s)
    by (unfold get_or_create_session; rewrite Hs; reflexivity).
  destruct (get_or_create_session now sid m) as [m1 session]. cbn [fst snd] in *.
  subst session.
  destruct (truthy _ && _ && _).
  - cbn [fst snd]. repeat split.
    erewrite update_session_lookup by (rewrite Hg; apply lookup_insert_eq).
    rewrite Hg, insert_insert_eq. eexists. split; [reflexivity|]. cbn. auto.
  - cbn [fst snd]. repeat split. eexists. split; [exact Hg|]. cbn. auto.
Qed.

Lemma fold_result_fields now sid result m s :
  sessions m !! sid = Some s ->
  exists s', sessions (fst (fold_result now sid result m)) = <[sid := s']> (sessions m) /\
    conversation_history s' = messages result /\
    last_intent_message s' = last_intent_message s /\
    s_pending_action s' = pending_action result.
Proof.
  intros Hs. unfold fold_result. rewrite Hs. cbn [from_option].
  set (save := is_auth_request result && truthy (current_flow result) && negb (s_verified s)).
  destruct save.
  - match goal with
    | |- context [update_session now sid ?u m] =>
        pose proof (update_session_lookup now sid u m s Hs) as HA;
        set (mA := update_session now sid u m) in *
    end.
    assert (HsA : sessions mA !! sid = Some (apply_update now
              {| u_verified := None; u_customer_id := None;
                 increment_auth_attempts := false; u_current_flow := None;
                 u_original_intent := Some (current_flow result);
                 u_pending_action := None; u_awaiting_confirmation := None;
                 u_requires_human := None; u_locked := None;
                 u_conversation_history := None; u_last_intent_message := None |} s))
      by (rewrite HA; apply lookup_insert_eq).
    rewrite HsA. cbn [from_option fst].
    erewrite update_session_lookup by exact HsA.
    rewrite HA, insert_insert_eq. eexists. split; [reflexivity|]. cbn. auto.
  - rewrite Hs. cbn [from_option fst].
    erewrite update_session_lookup by exact Hs.
    eexists. split; [reflexivity|]. cbn. auto.
Qed.

(** The agent run: the state it starts from, its calls, and what it
    leaves on the session, when the graph returns and when it raises. *)
Lemma run_agent_fields now sid input a m s :
  sessions m !! sid = Some s ->
  exists st s',
    messages st = (recent_history (conversation_history s) ++ [HumanMessage input])%list /\
    pending_action st = s_pending_action s /\
    calls (snd (_run_agent ext now sid input a m)) = calls (agent_graph ext st) /\
    sessions (fst (_run_agent ext now sid input a m)) = <[sid := s']> (sessions m) /\
    last_intent_message s' = last_intent_message s /\
    match outcome (agent_graph ext st) with
    | inr r => conversation_history s' = messages r /\ s_pending_action s' = pending_action r
    | inl _ => conversation_history s' = conversation_history s /\
               s_pending_action s' = s_pending_action s
    end.
Proof.
  intros Hs. unfold _run_agent.
  destruct (build_state_fields now sid input a m s Hs) as (Hm & Hp & s1 & Hm1 & Hh1 & Hl1 & Hp1).
  destruct (build_state ext now sid input a m) as [m1 st]. cbn [fst snd] in *.
  exists st.
  destruct (agent_graph ext st) as [[e|result] t] eqn:Hg; cbn [outcome fst].
  - exists s1. cbn [fst snd calls]. auto 10.
  - assert (Hs1 : sessions m1 !! sid = Some s1) by (rewrite Hm1; apply lookup_insert_eq).
    destruct (fold_result_fields now sid result m1 s1 Hs1) as (s2 & Hm2 & Hh2 & Hl2 & Hp2).
    destruct (fold_result now sid result m1) as [m2 resp]. cbn [fst snd calls] in *.
    exists s2. repeat split; auto; [|congruence].
    rewrite Hm2, Hm1, insert_insert_eq. reflexivity.
Qed.

(** One turn, case by case: the verifier raised and the session is as it
    was found; or the agent ran on the state built from the session the
    attempt left, and the session holds what the graph returned (or what it
    held, when the graph raised). *)
Lemma turn_cases now sid raw m :
  let s0 := snd (get_or_create_session now sid m) in
  let turn := process_turn settings ext now sid raw m in
  exists s', sessions (fst turn) = <[sid := s']> (sessions m) /\
    match _process_auth_attempt settings ext s0 raw with
    | (inl _, t) => s' = s0 /\ calls (snd turn) = t
    | (inr (s1, a), t) =>
        let auth_only := attempted a || needs_pin a || needs_customer_id a in
        let s2 := if negb auth_only
                  then set_last_intent_message (Some (redact_sensitive_text raw)) s1
                  else s1 in
        let input := if auth_only && truthy (last_intent_message s2)
                     then default (redact_sensitive_text raw) (last_intent_message s2)
                     else redact_sensitive_text raw in
        exists st,
          messages st =
            (recent_history (conversation_history s2) ++ [HumanMessage input])%list /\
          pending_action st = s_pending_action s2 /\
          calls (snd turn) = (t ++ calls (agent_graph ext st))%list /\
          last_intent_message s' = last_intent_message s2 /\
          match outcome (agent_graph ext st) with
          | inr r => conversation_history s' = messages r /\
                     s_pending_action s' = pending_action r
          | inl _ => conversation_history s' = conversation_history s2 /\
                     s_pending_action s' = s_pending_action s2
          end
    end.
Proof.
  cbn zeta. unfold process_turn.
  pose proof (get_or_create_sessions now sid m) as Hg.
  destruct (get_or_create_session now sid m) as [m1 s0]. cbn [fst snd] in *.
  destruct (_process_auth_attempt settings ext s0 raw) as [[e|[s1 a]] t].
  - cbn [fst snd calls]. eauto.
  - cbv zeta.
    match goal with
    | |- context [_run_agent ext now sid ?i a ?mm] => set (input := i); set (m2 := mm)
    end.
    set (s2 := if negb (attempted a || needs_pin a || needs_customer_id a)
               then set_last_intent_message (Some (redact_sensitive_text raw)) s1
               else s1) in *.
    assert (H2 : sessions m2 !! sid = Some s2) by apply lookup_insert_eq.
    destruct (run_agent_fields now sid input a m2 s2 H2)
      as (st & s3 & Hm & Hp & Hc & Hm3 & Hl & Hcase).
    destruct (_run_agent ext now sid input a m2) as [m3 [r t']]. cbn [fst snd calls] in *.
    exists s3. split.
    + rewrite Hm3. subst m2. cbn [sessions with_sessions].
      rewrite Hg, !insert_insert_eq. reflexivity.
    + exists st. rewrite <- Hc. auto 10.
Qed.

End TurnCases.

(* ===================================================================== *)
(** ** What the turns of a conversation can do *)
(* ===================================================================== *)

Section Conversation.
Import Re State Eff Exceptions SessionManager Config VapiRoutes Security Aux Graph.

Variable settings : Settings.
Variable ext : Collaborators.


(* The pending action of a state is one the card flow stages. *)
Ltac known_leaf H Hs :=
  unfold ret, raise, call, bind in H;
  repeat match goal with
         | H' : context [match ?x with _ => _ end] |- _ => destruct x eqn:?
         end;
  try discriminate; simplify_eq; cbn in *;
  first [ assumption
        | solve [intros ? [=]]
        | solve [intros ? [= <-]; unfold known_block; cbn; auto]
        | solve [intros q Hq; first [congruence | apply Hs; congruence]] ].

Lemma graph_keeps_known s r t :
  agent_graph ext s = (inr r, t) ->
  (forall p, pending_action s = Some p -> known_block p) ->
  forall p, pending_action r = Some p -> known_block p.
Proof.
  apply (agent_graph_preserves ext
           (fun st => forall p, pending_action st = Some p -> known_block p)).
  - intros s0 r0 t0 H Hs. unfold IntentRouter.route_intent in H. known_leaf H Hs.
  - intros s0 r0 t0 H Hs. unfold Handlers.handle_greeting in H. known_leaf H Hs.
  - intros s0 r0 t0 H Hs. unfold AuthGate.check_authentication in H. known_leaf H Hs.
  - intros s0 r0 t0 H Hs. unfold AuthGate.request_verification in H. known_leaf H Hs.
  - intros s0 r0 t0 H Hs. unfold route_by_intent in H. known_leaf H Hs.
  - intros s0 r0 t0 H Hs.
    unfold CardFlow.handle_card_flow, CardFlow.handle_lost_card,
      CardFlow.handle_declined_payment, CardFlow.handle_atm_cash_not_dispensed,
      CardFlow._block_specific_card in H.
    known_leaf H Hs.
  - intros s0 r0 t0 H Hs. unfold Confirmation.handle_confirmation in H. known_leaf H Hs.
  - intros s0 r0 t0 H Hs. unfold Handlers.handle_account_flow in H. known_leaf H Hs.
  - intros s0 r0 t0 H Hs. unfold Handlers.handle_stub_flow in H. known_leaf H Hs.
Qed.

(** A call to the card service names the pending action of the entry
    state. *)
Lemma block_call_pending st card why :
  In (BlockCard card why) (calls (agent_graph ext st)) ->
  exists p, pending_action st = Some p /\ card_id p = card /\ reason p = why.
Proof.
  intros Hin.
  apply graph_event_inv in Hin as [[u Hu]|[Hv [Hacc|(s4 & Hsame & Hconf & Hin)]]];
    try discriminate.
  destruct (handle_confirmation_calls ext s4) as [E|(p & Hp & _ & _ & _ & E)];
    rewrite E in Hin; [destruct Hin|].
  destruct Hin as [Heq|[]]. inversion Heq; subst card why.
  destruct Hsame as (_ & Hpa & _). exists p. split; [congruence|auto].
Qed.

Lemma fresh_or_found now sid m (Q : SessionState -> Prop) :
  (forall k s, sessions m !! k = Some s -> Q s) ->
  Q (new_session now sid) ->
  (forall s, Q s -> Q (set_last_activity now s)) ->
  Q (snd (get_or_create_session now sid m)).
Proof.
  intros Hm Hnew Hact. unfold get_or_create_session.
  destruct (sessions m !! sid) as [s|] eqn:E; cbn [snd]; eauto.
Qed.

Lemma turn_known now sid raw m :
  (forall k s, sessions m !! k = Some s ->
     forall p, s_pending_action s = Some p -> known_block p) ->
  (forall k s, sessions (fst (process_turn settings ext now sid raw m)) !! k = Some s ->
     forall p, s_pending_action s = Some p -> known_block p) /\
  (forall card why, In (BlockCard card why) (calls (snd (process_turn settings ext now sid raw m))) ->
     why = "lost" /\ (card = "CARD_001" \/ card = "CARD_999")).
Proof.
  intros Hm.
  assert (H0 : forall p, s_pending_action (snd (get_or_create_session now sid m)) = Some p ->
                         known_block p).
  { apply (fresh_or_found now sid m
             (fun s => forall p, s_pending_action s = Some p -> known_block p)); auto.
    intros p [=]. }
  destruct (turn_cases settings ext now sid raw m) as (s' & Hm' & Hcase).
  cbn zeta in Hm', Hcase.
  set (s0 := snd (get_or_create_session now sid m)) in *.
  assert (Hother : forall (Q : SessionState -> Prop),
             (forall k s, sessions m !! k = Some s -> Q s) -> Q s' ->
             forall k s, sessions (fst (process_turn settings ext now sid raw m)) !! k = Some s ->
                         Q s).
  { intros Q HQ Hs' k s Hk. rewrite Hm' in Hk. destruct (decide (k = sid)) as [->|Hne].
    - rewrite lookup_insert_eq in Hk. congruence.
    - rewrite lookup_insert_ne in Hk by congruence. eauto. }
  destruct (_process_auth_attempt settings ext s0 raw) as [[e|[s1 a]] t] eqn:Ha.
  - destruct Hcase as [-> Hc]. split.
    + apply (Hother (fun s => forall p, s_pending_action s = Some p -> known_block p)); auto.
    + intros card why Hin. rewrite Hc in Hin.
      destruct (attempt_calls settings ext s0 raw) as [E|(c & p & _ & E)];
        rewrite Ha in E; cbn [calls snd] in E; rewrite E in Hin; [destruct Hin|].
      destruct Hin as [?|[]]; discriminate.
  - destruct Hcase as (st & _ & Hp & Hc & _ & Hout).
    pose proof (attempt_staging settings ext s0 raw s1 a t Ha) as [Hp1 _].
    assert (Hst : forall p, pending_action st = Some p -> known_block p).
    { intros p Hp'. rewrite Hp in Hp'. apply H0. rewrite <- Hp1.
      destruct (negb _) in Hp'; exact Hp'. }
    split.
    + apply (Hother (fun s => forall p, s_pending_action s = Some p -> known_block p)); auto.
      destruct (outcome (agent_graph ext st)) as [e|r] eqn:Eo.
      * destruct Hout as [_ ->]. rewrite <- Hp. exact Hst.
      * destruct Hout as [_ ->]. apply outcome_eq in Eo.
        exact (graph_keeps_known st r _ Eo Hst).
    + intros card why Hin. rewrite Hc in Hin. apply in_app_or in Hin as [Hin|Hin].
      * destruct (attempt_calls settings ext s0 raw) as [E|(c & p & _ & E)];
          rewrite Ha in E; cbn [calls snd] in E; rewrite E in Hin; [destruct Hin|].
        destruct Hin as [?|[]]; discriminate.
      * apply block_call_pending in Hin as (p & Hp' & <- & <-).
        destruct (Hst p Hp') as (_ & Hr & Hc'). auto.
Qed.

(** X23.  Over a whole conversation the card service is only ever asked
    to block one of the two cards the card flow knows, for the reason
    [lost]: from a store whose pending actions were staged by the card flow
    (the empty store for one), whatever the callers say and the
    collaborators answer. *)
Theorem only_known_cards_blocked (turns : list Turn) (m : Manager) (card why : string) :
  (forall k s, get_session k m = Some s ->
     forall p, s_pending_action s = Some p -> known_block p) ->
  In (BlockCard card why) (turns_calls settings ext turns m) ->
  why = "lost" /\ (card = "CARD_001" \/ card = "CARD_999").
Proof.
  unfold get_session, turns_calls. intros Hm Hin.
  assert (Hgen : forall turns m acc,
             (forall k s, sessions m !! k = Some s ->
                forall p, s_pending_action s = Some p -> known_block p) ->
             In (BlockCard card why)
               (snd (foldl (fun acc t =>
                        let r := process_turn settings ext (t_now t) (t_session_id t)
                                   (t_input t) (fst acc) in
                        (fst r, (snd acc ++ calls (snd r))%list)) (m, acc) turns)) ->
             In (BlockCard card why) acc \/
             (why = "lost" /\ (card = "CARD_001" \/ card = "CARD_999"))).
  { clear. intros turns. induction turns as [|t turns IH]; intros m acc Hm Hin;
      cbn [foldl fst snd] in Hin; [auto|].
    destruct (turn_known (t_now t) (t_session_id t) (t_input t) m Hm) as [Hm' Hc].
    apply IH in Hin; [|exact Hm'].
    destruct Hin as [Hin|Hin]; [|auto].
    apply in_app_or in Hin as [Hin|Hin]; [auto|]. right. eauto. }
  destruct (Hgen turns m [] Hm Hin) as [[]|H]. exact H.
Qed.







(** X25.  Once a pair is complete, the verifier's answer decides the
    turn, for a session that is neither verified nor locked and is below
    the limit: on yes the stored session is verified, with its failure
    counter back to 0; on no it stays unverified and the counter goes up by
    one; when the verifier raises, the turn fails with that error after
    this single call and the session is kept as it was found. *)
Theorem verifier_answer_decides (now : Q) (sid raw : string) (m : Manager)
    (cid pin : string) :
  let s0 := snd (get_or_create_session now sid m) in
  let turn := process_turn settings ext now sid raw m in
  Submits s0 raw cid pin ->
  s_verified s0 = false -> locked s0 = false ->
  (auth_attempts s0 < MAX_AUTH_ATTEMPTS settings)%Z ->
  match verify_identity ext cid pin with
  | inr true =>
      exists s', get_session sid (fst turn) = Some s' /\
        s_verified s' = true /\ auth_attempts s' = 0%Z /\ locked s' = false
  | inr false =>
      exists s', get_session sid (fst turn) = Some s' /\
        s_verified s' = false /\ auth_attempts s' = (auth_attempts s0 + 1)%Z
  | inl e =>
      snd turn = (inl e, [VerifyIdentity cid pin]) /\
      get_session sid (fst turn) = Some s0
  end.
Proof.
  cbn zeta. intros Hsub Hv Hl Hn. unfold get_session.
  pose proof (attempt_of_submitted settings ext _ raw cid pin Hsub Hv) as Ha.
  cbn zeta in Ha. rewrite Hl in Ha. cbn [orb] in Ha.
  destruct (Z.leb_spec (MAX_AUTH_ATTEMPTS settings)
              (auth_attempts (snd (get_or_create_session now sid m)))); [lia|].
  destruct (verify_identity ext cid pin) as [e|[|]] eqn:Ev.
  - unfold call, bind in Ha. unfold process_turn.
    pose proof (get_or_create_sessions now sid m) as Hg.
    destruct (get_or_create_session now sid m) as [m1 s0]. cbn [fst snd] in *.
    rewrite Ha. cbn [fst snd]. split; [reflexivity|].
    rewrite Hg. apply lookup_insert_eq.
  - destruct (process_turn_effect settings ext now sid raw m) as (s' & Hm' & Hs').
    cbn zeta in Hs'. rewrite Ha in Hs'. unfold call, bind, ret in Hs'. cbn in Hs'.
    exists s'. rewrite Hm', lookup_insert_eq. split; [reflexivity|].
    destruct Hs' as (-> & -> & ->). cbn. auto.
  - destruct (process_turn_effect settings ext now sid raw m) as (s' & Hm' & Hs').
    cbn zeta in Hs'. rewrite Ha in Hs'. unfold call, bind, ret in Hs'. cbn in Hs'.
    exists s'. rewrite Hm', lookup_insert_eq. split; [reflexivity|].
    destruct (Z.max 0 _ =? 0)%Z; destruct Hs' as (-> & _ & ->); cbn; auto.
Qed.

End Conversation.

Lemma only_known_cards_blocked_witness :
  "lost" = "lost" /\ ("CARD_001" = "CARD_001" \/ "CARD_001" = "CARD_999").
Proof.
  apply (only_known_cards_blocked Config.defaults Demo.ext
           [Scenarios.says "i lost my debit card"; Scenarios.says "yes"]
           Scenarios.verified_store "CARD_001" "lost").
  - intros k s Hs. unfold SessionManager.get_session, Scenarios.verified_store,
      Demo.store_with in Hs. cbn [SessionManager.sessions] in Hs.
    apply lookup_singleton_Some in Hs as [_ <-]. intros p [=].
  - vm_compute. left. reflexivity.
Defined.


Lemma verifier_answer_decides_witness :
  let m := Demo.store_with Demo.pending_session in
  let turn := VapiRoutes.process_turn Config.defaults Demo.ext 10 "call-1" "my pin is 1000" m in
  match verify_identity Demo.ext "1" "1000" with
  | inr true =>
      exists s', SessionManager.get_session "call-1" (fst turn) = Some s' /\
        SessionManager.s_verified s' = true /\ SessionManager.auth_attempts s' = 0%Z /\
        SessionManager.locked s' = false
  | inr false =>
      exists s', SessionManager.get_session "call-1" (fst turn) = Some s' /\
        SessionManager.s_verified s' = false /\
        SessionManager.auth_attempts s' =
          (SessionManager.auth_attempts
             (snd (SessionManager.get_or_create_session 10 "call-1" m)) + 1)%Z
  | inl e =>
      snd turn = (inl e, [Eff.VerifyIdentity "1" "1000"]) /\
      SessionManager.get_session "call-1" (fst turn) =
        Some (snd (SessionManager.get_or_create_session 10 "call-1" m))
  end.
Proof.
  cbn zeta.
  apply (verifier_answer_decides Config.defaults Demo.ext 10 "call-1" "my pin is 1000"
           (Demo.store_with Demo.pending_session) "1" "1000").
  - apply (Aux.submits_lone_pin _ _ None "1" "1000"); reflexivity.
  - reflexivity.
  - reflexivity.
  - vm_compute. reflexivity.
Defined.

(* ===================================================================== *)
(** ** Settings: the language model and the allowed origins *)
(* ===================================================================== *)

Section Settings.
Import Re Security VoiceUtils IntentRouter LlmFactory Origins.

(** X26.  [get_llm] returns a client only of a provider whose key is set
    and whose constructor succeeded; a provider named in LLM_PROVIDER (in
    any case) wins whenever it is available, and with the fallback disabled
    the other one is never returned; with the fallback enabled the call
    fails exactly when neither provider is available; the error tells which
    keys are set. *)
Theorem get_llm_selection (st : LlmSettings) (c : Clients) :
  let ok := fun p => match try_provider p st c with Some _ => true | None => false end in
  (ok openai = truthy (OPENAI_API_KEY st) && openai_builds c /\
   ok gemini = truthy (GOOGLE_API_KEY st) && gemini_builds c) /\
  (forall p, get_llm st c = inr p -> ok p = true) /\
  (lower (LLM_PROVIDER st) = "openai" -> ok openai = true -> get_llm st c = inr openai) /\
  (lower (LLM_PROVIDER st) = "gemini" -> ok gemini = true -> get_llm st c = inr gemini) /\
  (LLM_FALLBACK_ENABLED st = false ->
     (lower (LLM_PROVIDER st) = "openai" -> forall p, get_llm st c = inr p -> p = openai) /\
     (lower (LLM_PROVIDER st) = "gemini" -> forall p, get_llm st c = inr p -> p = gemini)) /\
  (LLM_FALLBACK_ENABLED st = true ->
     ((exists e, get_llm st c = inl e) <-> ok openai = false /\ ok gemini = false)) /\
  (forall e, get_llm st c = inl e ->
     e = LLMProviderError (truthy (OPENAI_API_KEY st)) (truthy (GOOGLE_API_KEY st))).
Proof.
  cbn zeta. unfold get_llm, try_provider, _try_openai, _try_gemini.
  destruct (truthy (OPENAI_API_KEY st)), (openai_builds c),
    (truthy (GOOGLE_API_KEY st)), (gemini_builds c), (LLM_FALLBACK_ENABLED st);
    cbn [negb andb];
    destruct (String.eqb_spec (lower (LLM_PROVIDER st)) "openai") as [E1|E1];
    try rewrite E1;
    try (destruct (String.eqb_spec (lower (LLM_PROVIDER st)) "gemini") as [E2|E2];
         try rewrite E2);
    try destruct (_detect_provider_from_model (LLM_MODEL st));
    cbn;
    repeat split; try reflexivity; try discriminate; try congruence;
    try (intros [] H; inversion H; reflexivity);
    try (intros ? [] ?; congruence);
    try (intros ? ? [] ?; congruence);
    try (intros [? ?]; discriminate);
    try (intros [? ?]; congruence);
    try (intros _; eexists; reflexivity);
    try (intros ? [=]; congruence).
  all: repeat match goal with H : ex _ |- _ => destruct H end; congruence.
Qed.

Lemma split_comma_length s : List.length (split_comma s) = S (commas s).
Proof.
  induction s as [|c t IH]; [reflexivity|]. cbn [split_comma commas].
  destruct (Ascii.eqb c ","); cbn [List.length Nat.add]; [rewrite IH; reflexivity|].
  destruct (split_comma t); cbn in *; congruence.
Qed.

Lemma split_comma_parts s : Forall (fun o => commas o = 0%nat) (split_comma s).
Proof.
  induction s as [|c t IH]; [repeat constructor|]. cbn [split_comma].
  destruct (Ascii.eqb c ",") eqn:E; [constructor; [reflexivity|exact IH]|].
  destruct (split_comma t) as [|x l]; [repeat constructor; cbn; rewrite E; reflexivity|].
  inversion IH; subst. constructor; [|assumption]. cbn. rewrite E. assumption.
Qed.

Lemma split_comma_plain x : commas x = 0%nat -> split_comma x = [x].
Proof.
  induction x as [|c t IH]; [reflexivity|]. cbn [commas split_comma].
  destruct (Ascii.eqb c ","); [discriminate|]. cbn [Nat.add]. intros H.
  rewrite (IH H). reflexivity.
Qed.

Lemma split_comma_append x rest :
  commas x = 0%nat -> split_comma (x ++ String "," rest) = x :: split_comma rest.
Proof.
  induction x as [|c t IH]; intros H.
  - rewrite append_nil. reflexivity.
  - rewrite append_cons. cbn [commas] in H. cbn [split_comma].
    destruct (Ascii.eqb c ","); [discriminate|]. rewrite (IH H). reflexivity.
Qed.

Lemma split_join l :
  l <> [] -> Forall (fun o => commas o = 0%nat) l -> split_comma (join_comma l) = l.
Proof.
  induction l as [|x l IH]; [contradiction|]. intros _ H. inversion H; subst.
  destruct l as [|y l]; [apply split_comma_plain; assumption|].
  change (join_comma (x :: y :: l)) with (x ++ String "," (join_comma (y :: l))).
  rewrite split_comma_append by assumption. rewrite IH by (auto; discriminate). reflexivity.
Qed.

Lemma lstrip_idem s : lstrip (lstrip s) = lstrip s.
Proof.
  induction s as [|c t IH]; [reflexivity|]. cbn [lstrip].
  destruct (is_space c) eqn:E; [exact IH|]. cbn [lstrip]. rewrite E. reflexivity.
Qed.

Lemma rstrip_cons c t :
  rstrip (String c t) =
  match rstrip t with
  | EmptyString => if is_space c then EmptyString else String c EmptyString
  | t' => String c t'
  end.
Proof. reflexivity. Qed.

Lemma rstrip_idem s : rstrip (rstrip s) = rstrip s.
Proof.
  induction s as [|c t IH]; [reflexivity|]. rewrite rstrip_cons.
  destruct (rstrip t) as [|d u] eqn:E.
  - destruct (is_space c) eqn:Ec; [reflexivity|]. rewrite rstrip_cons. cbn [rstrip].
    rewrite Ec. reflexivity.
  - rewrite rstrip_cons, IH. reflexivity.
Qed.

(** A text that does not start with a blank still does not after
    [rstrip]. *)
Lemma lstrip_rstrip s : lstrip s = s -> lstrip (rstrip s) = rstrip s.
Proof.
  destruct s as [|c t]; [reflexivity|]. cbn [lstrip].
  destruct (is_space c) eqn:E.
  - intros H. exfalso.
    assert (Hl : forall u, (String.length (lstrip u) <= String.length u)%nat).
    { induction u as [|d u IHu]; cbn; [lia|]. destruct (is_space d); cbn; lia. }
    specialize (Hl t). rewrite H in Hl. cbn in Hl. lia.
  - intros _. rewrite rstrip_cons. destruct (rstrip t); rewrite ?E; cbn [lstrip]; rewrite E; reflexivity.
Qed.

Lemma strip_idem s : strip (strip s) = strip s.
Proof.
  unfold strip. rewrite (lstrip_rstrip (lstrip s)) by apply lstrip_idem.
  apply rstrip_idem.
Qed.

Lemma commas_lstrip s : commas s = 0%nat -> commas (lstrip s) = 0%nat.
Proof.
  induction s as [|c t IH]; [reflexivity|]. cbn [lstrip commas].
  destruct (is_space c); [|auto]. destruct (Ascii.eqb c ","); [discriminate|]. exact IH.
Qed.

Lemma commas_rstrip s : commas s = 0%nat -> commas (rstrip s) = 0%nat.
Proof.
  induction s as [|c t IH]; [reflexivity|]. rewrite rstrip_cons. cbn [commas].
  destruct (Ascii.eqb c ",") eqn:E; [discriminate|]. cbn [Nat.add]. intros H.
  specialize (IH H). destruct (rstrip t).
  - destruct (is_space c); cbn; rewrite ?E; reflexivity.
  - cbn [commas]. rewrite E. exact IH.
Qed.

(** X27.  [parse_origins] on a string gives one origin more than the
    string has commas (so never an empty list), each without a comma and
    with no blank left at either end; and it undoes a comma-join: a
    non-empty list of such origins, joined with commas, parses back to
    itself.  A list is returned as given, and [None] stands for any
    origin. *)
Theorem parse_origins_splits (s : string) :
  List.length (parse_origins (OStr s)) = S (commas s) /\
  Forall (fun o => commas o = 0%nat /\ strip o = o) (parse_origins (OStr s)) /\
  (forall l, l <> [] -> Forall (fun o => commas o = 0%nat /\ strip o = o) l ->
     parse_origins (OStr (join_comma l)) = l) /\
  (forall l, parse_origins (OList l) = l) /\
  parse_origins ONone = ["*"].
Proof.
  unfold parse_origins. repeat split.
  - rewrite length_map. apply split_comma_length.
  - apply Forall_map. eapply Forall_impl; [apply split_comma_parts|].
    intros o Ho. cbn. split; [|apply strip_idem].
    unfold strip. apply commas_rstrip, commas_lstrip. exact Ho.
  - intros l Hne Hl. rewrite split_join; [|exact Hne|].
    + induction Hl as [|x l [_ Hx] Hl IH]; [reflexivity|]. cbn [map].
      rewrite Hx. destruct l as [|y l]; [reflexivity|]. rewrite IH by discriminate.
      reflexivity.
    + eapply Forall_impl; [exact Hl|]. intros o [Ho _]. exact Ho.
Qed.



End Settings.

Lemma parse_origins_splits_witness :
  Origins.parse_origins (Origins.OStr (Origins.join_comma ["https://a.example"; "https://b.example"]))
  = ["https://a.example"; "https://b.example"].
Proof.
  destruct (parse_origins_splits "") as (_ & _ & H & _).
  apply H; [discriminate|]. repeat constructor.
Defined.

Lemma get_llm_selection_witness :
  LlmFactory.get_llm
    {| LlmFactory.LLM_PROVIDER := "OpenAI"; LlmFactory.LLM_MODEL := "gemini-2.0-flash-exp";
       LlmFactory.LLM_FALLBACK_ENABLED := true;
       LlmFactory.OPENAI_API_KEY := Some "sk-test"; LlmFactory.GOOGLE_API_KEY := None |}
    {| LlmFactory.openai_builds := true; LlmFactory.gemini_builds := true |}
  = inr LlmFactory.openai.
Proof.
  pose proof (get_llm_selection
    {| LlmFactory.LLM_PROVIDER := "OpenAI"; LlmFactory.LLM_MODEL := "gemini-2.0-flash-exp";
       LlmFactory.LLM_FALLBACK_ENABLED := true;
       LlmFactory.OPENAI_API_KEY := Some "sk-test"; LlmFactory.GOOGLE_API_KEY := None |}
    {| LlmFactory.openai_builds := true; LlmFactory.gemini_builds := true |}) as H.
  cbn zeta in H. destruct H as (_ & _ & H & _). apply H; reflexivity.
Defined.

(* ===================================================================== *)
(** ** The account flow and the banking functions *)
(* ===================================================================== *)

Section AccountServicing.
Import Re State Exceptions SessionManager AuthGate AccountFlow.

Variable b : Banking.
Variable m : Manager.


Ltac open_flow :=
  unfold handle_account_flow, handle_fraud_report, handle_cheque_book_request,
    handle_intl_transactions, handle_balance_inquiry, handle_transaction_history,
    handle_statement_request, handle_loan_inquiry, handle_rewards_inquiry,
    handle_card_inquiry, handle_feedback_submission, handle_profile_update, answer.

Ltac split_flow :=
  repeat match goal with
         | |- context [match ?x with _ => _ end] => destruct x eqn:?
         end.




(** X30.  In the account flow a fraud keyword comes first and acts at
    once: for a verified state whose session has a customer id, the fraud
    report is sent to the bank exactly when the latest utterance contains
    one of fraud, unauthorized, stolen, suspicious transaction, didn't make,
    whatever else it contains; no confirmation is asked, the pending action
    is not consulted, and the state returned asks for a human.  The list of
    cards, for its part, is never requested when the utterance says
    block. *)
Theorem fraud_report_iff_keyword (state : AgentState) (s : SessionState) (cid : string) :
  verified state = true ->
  get_session (session_id state) m = Some s ->
  s_customer_id s = Some cid -> cid <> "" ->
  let run := handle_account_flow b m state in
  let latest_input := CardFlow.latest_input_of state in
  (any_in fraud_keywords latest_input = true <-> snd run = [ReportFraud cid]) /\
  (any_in fraud_keywords latest_input = true ->
     forall r, fst run = inr r ->
       requires_human r = true /\ pending_action r = pending_action state /\
       exists message, fraud_message b cid = inr message /\
                       messages r = [AIMessage message]) /\
  (forall c, In (ListCustomerCards c) (snd run) -> contains "block" latest_input = false).
Proof.
  intros Hv Hs Hc Hne. cbn zeta. open_flow. rewrite Hv, Hs, Hc. cbn [negb].
  assert (Ht : Security.truthy (Some cid) = true).
  { cbn. destruct (String.eqb_spec cid ""); [contradiction|reflexivity]. }
  rewrite Ht. cbn [negb].
  destruct (any_in fraud_keywords (CardFlow.latest_input_of state)) eqn:Hf.
  - cbn [fst snd]. split; [split; reflexivity|]. split.
    + intros _ r Hr. destruct (fraud_message b cid) as [e|message]; [discriminate|].
      injection Hr as <-. cbn. eauto.
    + intros c [H|[]]. discriminate.
  - split; [|split; [discriminate|]].
    + split; [discriminate|]. split_flow; cbn [snd]; discriminate.
    + intros c. split_flow; cbn [snd In]; intros Hin;
        repeat match goal with
               | H : _ \/ _ |- _ => destruct H
               | H : False |- _ => destruct H
               end; try discriminate.
      all: match goal with
      | H : (_ && negb (contains "block" _)) = true |- _ =>
          apply andb_true_iff in H as [_ H]; apply negb_true_iff in H; exact H
      end.
Qed.

End AccountServicing.

Lemma fraud_report_iff_keyword_witness :
  let state := Demo.servicing_state "my card was stolen, what is my balance" in
  let b := {| AccountFlow.balance_text := fun _ => inr (Some "Your checking balance is $1,250.50.");
              AccountFlow.transactions_text := fun _ => inr None;
              AccountFlow.statement_text := fun _ => inr None;
              AccountFlow.loan_text := fun _ => inr None;
              AccountFlow.rewards_text := fun _ => inr None;
              AccountFlow.cards_text := fun _ => inr None;
              AccountFlow.feedback_message := fun _ _ => inr None;
              AccountFlow.cheque_message := fun _ => inr None;
              AccountFlow.fraud_message := fun _ => inr "Your account has been frozen.";
              AccountFlow.international_message := fun _ _ => inr None |} in
  snd (AccountFlow.handle_account_flow b Scenarios.verified_store state)
  = [AccountFlow.ReportFraud "1"].
Proof.
  cbn zeta.
  eapply (fraud_report_iff_keyword _ Scenarios.verified_store
            (Demo.servicing_state "my card was stolen, what is my balance")
            (Demo.session_with [] None None true) "1").
  - reflexivity.
  - reflexivity.
  - reflexivity.
  - discriminate.
  - vm_compute. reflexivity.
Defined.

